(** * RT-DETR training and evaluation orchestration ([src/zoo/train.py])

    A shallow embedding of [fit] and [val].  Python objects that the two
    functions mutate (the model, the EMA shadow, the criterion, the data
    providers, the metric accumulator, the file system) live in a [World];
    the functions themselves are written in a state-and-exception monad
    over it, and every call into a collaborator is recorded in a trace. *)

From Stdlib Require Import ZArith List String Ascii QArith Lia Bool.
From Stdlib Require Import DecimalString DecimalZ.
From stdpp Require Import base gmap strings list.

Set Warnings "-register-all".
Local Open Scope Z_scope.
Local Open Scope string_scope.
Local Open Scope list_scope.

(** ** Python built-ins *)

Module Py.

(** [range(a, b)]: the integers from [a] up to, and excluding, [b]. *)
Definition range (a b : Z) : list Z :=
  (fun i : nat => a + Z.of_nat i) <$> seq 0 (Z.to_nat (b - a)).

(** [str(n)] for an integer. *)
Definition str (z : Z) : string := NilZero.string_of_int (Z.to_int z).

(** [needle in hay] for two strings: substring membership. *)
Fixpoint contains (needle hay : string) : bool :=
  if String.prefix needle hay then true
  else match hay with
       | EmptyString => false
       | String _ hay' => contains needle hay'
       end.

Fixpoint endswith_char (c : ascii) (s : string) : bool :=
  match s with
  | EmptyString => false
  | String x EmptyString => Ascii.eqb x c
  | String _ s' => endswith_char c s'
  end.

(** [os.path.join(a, b)] on a POSIX system. *)
Definition path_join (a b : string) : string :=
  if String.prefix "/" b then b
  else if String.eqb a "" || endswith_char "/" a then a +:+ b
  else a +:+ "/" +:+ b.

Inductive Exc :=
| KeyError (key : string)
| FileNotFoundError (path : string)
| TypeError (what : string)
| IndexError (what : string)
| ValueError (what : string)
| RuntimeError (what : string)
| URLError (reason : string).

End Py.

(** ** Values that travel through checkpoints *)

(** A weight mapping: parameter name to (opaque) tensor. *)
Abbreviation Weights := (gmap string Z).

(** What [torch.save] serializes and [torch.load] gives back: an integer,
    a tensor, or a dict with string keys. *)
Inductive PyVal :=
| PyInt (z : Z)
| PyTensor (t : Z)
| PyDict (d : gmap string PyVal).

(** A weight mapping as a Python value: a dict like any other, with a tensor
    under every parameter name. *)
Definition PyTensors (w : Weights) : PyVal := PyDict (PyTensor <$> w).

Definition as_tensor (v : PyVal) : option Z :=
  match v with
  | PyTensor t => Some t
  | _ => None
  end.

Definition as_int (v : PyVal) : Py.Exc + Z :=
  match v with
  | PyInt z => inr z
  | _ => inl (Py.TypeError "not an int")
  end.

(** [v[k]] for a string [k]. *)
Definition getitem (v : PyVal) (k : string) : Py.Exc + PyVal :=
  match v with
  | PyDict d => match d !! k with
                | Some x => inr x
                | None => inl (Py.KeyError k)
                end
  | PyInt _ => inl (Py.TypeError "'int' object is not subscriptable")
  | PyTensor _ => inl (Py.IndexError "only integers and slices are valid indices")
  end.

(** [k in v] for a string [k]. *)
Definition contains_key (k : string) (v : PyVal) : Py.Exc + bool :=
  match v with
  | PyDict d => inr (bool_decide (is_Some (d !! k)))
  | PyInt _ => inl (Py.TypeError "argument of type 'int' is not iterable")
  | PyTensor _ => inl (Py.RuntimeError "Tensor.__contains__ only supports Tensor or scalar")
  end.

(** ** Objects *)

Inductive Device := Cuda | Cpu.

(** An [nn.Module]: its parameters, its train/eval flag, where it lives and
    whether it is wrapped for cross-process gradient synchronization. *)
Record NNModule := {
  params : Weights;
  training : bool;
  device : option Device;
  ddp : bool
}.

Definition with_params (w : Weights) (m : NNModule) : NNModule :=
  {| params := w; training := training m; device := device m; ddp := ddp m |}.
Definition with_training (b : bool) (m : NNModule) : NNModule :=
  {| params := params m; training := b; device := device m; ddp := ddp m |}.
Definition with_device (d : Device) (m : NNModule) : NNModule :=
  {| params := params m; training := training m; device := Some d; ddp := ddp m |}.
Definition with_ddp (m : NNModule) : NNModule :=
  {| params := params m; training := training m; device := device m; ddp := true |}.

(** The weights a load leaves in a module that held [own]: every parameter
    of the module takes the value [sd] has for it, or keeps its own. *)
Definition merged (sd own : Weights) : Weights :=
  map_imap (fun k v => Some (default v (sd !! k))) own.

(** The tensors a dict holds, by key. *)
Definition tensors_of (d : gmap string PyVal) : Weights := omap as_tensor d.

(** The parameters of a module under whose name a dict holds something that
    is not a tensor. *)
Definition not_tensors (d : gmap string PyVal) (own : Weights) : gmap string unit :=
  map_imap (fun k _ => match d !! k with
                       | Some (PyTensor _) | None => None
                       | Some _ => Some tt
                       end) own.

(** [nn.Module.load_state_dict(sd, strict)]: the module it leaves, and the
    exception it ends in, if any.  What is not dict-like is refused at once.
    Otherwise every parameter for which [sd] holds a tensor is copied, and
    the errors are raised together afterwards: an entry of a parameter that
    is not a tensor, and, when loading strictly, any difference between the
    two key sets.  Non-strict loading tolerates missing and unexpected
    keys. *)
Definition load_state_dict (sd : PyVal) (strict : bool) (m : NNModule)
  : NNModule * option Py.Exc :=
  match sd with
  | PyDict d =>
      (with_params (merged (tensors_of d) (params m)) m,
       if bool_decide (not_tensors d (params m) = ∅)
          && (negb strict || bool_decide (dom d = dom (params m)))
       then None
       else Some (Py.RuntimeError "Error(s) in loading state_dict"))
  | _ => (m, Some (Py.TypeError "Expected state_dict to be dict-like"))
  end.

(** Modelled from the spec: the EMA shadow manager ([src.optim.ema.ModelEMA],
    not among the sources): the shadow module, the configured decay, the
    warmup steps and the step count. *)
Record ModelEMA := {
  module : NNModule;
  decay : Q;
  warmups : Z;
  updates : Z
}.

Definition with_module (m : NNModule) (e : ModelEMA) : ModelEMA :=
  {| module := m; decay := decay e; warmups := warmups e; updates := updates e |}.

(** A data provider: the image identifiers of each batch it yields, and the
    epoch its sampler shuffles by once it is shard-aware. *)
Record DataLoader := {
  batches : list (list Z);
  sampler_epoch : option Z
}.

Inductive Which := Train | Val.

(** Modelled from the spec: the metric accumulator ([CocoEvaluator], not
    among the sources), a mapping from image identifier to detections: the
    task types it scores, the image identifiers it holds, and how far it has
    got. *)
Record CocoEvaluator := {
  ce_iou_types : list string;
  img_ids : gset Z;
  synchronized : bool;
  accumulated : bool;
  summarized : bool
}.

(** ** Trace of collaborator calls *)

Inductive Event :=
| EvDefaultCriterion
| EvDefaultLoader (l : Which)
| EvGradScaler
| EvModelEMA (decay : Q) (warmups : Z)
| EvMultiStepLR (milestones : list Z) (gamma : Q)
| EvLoadTuningState (path : string)
| EvModelTo (d : Device)
| EvEmaTo (d : Device)
| EvCriterionTo (d : Device)
| EvWarpLoader (l : Which)
| EvWarpModel (find_unused_parameters sync_bn : bool)
| EvPrint (msg : string)
| EvSetEpoch (e : Z)
| EvTrainOneEpoch (e : Z) (max_norm : Q) (print_freq : Z) (ema scaler : bool)
| EvOptimizerStep (e : Z) (batch : nat)
| EvEmaUpdate (e : Z) (batch : nat)
| EvLrStep
| EvSaveOnMaster (path : string) (obj : PyVal)
| EvTorchSave (path : string) (obj : PyVal)
| EvModelEval
| EvCriterionEval
| EvCocoApi
| EvPostProcessor (num_top_queries : Z)
| EvCocoEvaluator (iou_types : list string)
| EvHubLoad (url : string)
| EvTorchLoad (path : string)
| EvLoadStateDict (key : string) (strict : bool)
| EvMetricLogger
| EvForward (batch : nat)
| EvPostprocess (batch : nat)
| EvEvaluatorUpdate (ids : list Z)
| EvLoggerSync
| EvEvaluatorSync
| EvAccumulate
| EvSummarize.

(** ** The world the two functions run in *)

Record World := {
  fs : gmap string PyVal;               (* durable storage: the files, by path *)
  trace : list (bool * Event);          (* oldest first; the flag is the
                                           gradient mode the call ran under *)
  grad_enabled : bool;
  model : NNModule;
  ema_model : option ModelEMA;
  criterion : NNModule;
  train_dataloader : DataLoader;
  val_dataloader : DataLoader;
  lr_steps : Z;
  coco_evaluator : option CocoEvaluator
}.

Definition set_fs (f : gmap string PyVal -> gmap string PyVal) (w : World) : World :=
  {| fs := f (fs w); trace := trace w; grad_enabled := grad_enabled w;
     model := model w; ema_model := ema_model w; criterion := criterion w;
     train_dataloader := train_dataloader w; val_dataloader := val_dataloader w;
     lr_steps := lr_steps w; coco_evaluator := coco_evaluator w |}.
Definition set_trace (f : list (bool * Event) -> list (bool * Event)) (w : World) : World :=
  {| fs := fs w; trace := f (trace w); grad_enabled := grad_enabled w;
     model := model w; ema_model := ema_model w; criterion := criterion w;
     train_dataloader := train_dataloader w; val_dataloader := val_dataloader w;
     lr_steps := lr_steps w; coco_evaluator := coco_evaluator w |}.
Definition set_grad_enabled (b : bool) (w : World) : World :=
  {| fs := fs w; trace := trace w; grad_enabled := b;
     model := model w; ema_model := ema_model w; criterion := criterion w;
     train_dataloader := train_dataloader w; val_dataloader := val_dataloader w;
     lr_steps := lr_steps w; coco_evaluator := coco_evaluator w |}.
Definition set_model (f : NNModule -> NNModule) (w : World) : World :=
  {| fs := fs w; trace := trace w; grad_enabled := grad_enabled w;
     model := f (model w); ema_model := ema_model w; criterion := criterion w;
     train_dataloader := train_dataloader w; val_dataloader := val_dataloader w;
     lr_steps := lr_steps w; coco_evaluator := coco_evaluator w |}.
Definition set_ema_model (f : option ModelEMA -> option ModelEMA) (w : World) : World :=
  {| fs := fs w; trace := trace w; grad_enabled := grad_enabled w;
     model := model w; ema_model := f (ema_model w); criterion := criterion w;
     train_dataloader := train_dataloader w; val_dataloader := val_dataloader w;
     lr_steps := lr_steps w; coco_evaluator := coco_evaluator w |}.
Definition set_criterion (f : NNModule -> NNModule) (w : World) : World :=
  {| fs := fs w; trace := trace w; grad_enabled := grad_enabled w;
     model := model w; ema_model := ema_model w; criterion := f (criterion w);
     train_dataloader := train_dataloader w; val_dataloader := val_dataloader w;
     lr_steps := lr_steps w; coco_evaluator := coco_evaluator w |}.
Definition set_train_dataloader (f : DataLoader -> DataLoader) (w : World) : World :=
  {| fs := fs w; trace := trace w; grad_enabled := grad_enabled w;
     model := model w; ema_model := ema_model w; criterion := criterion w;
     train_dataloader := f (train_dataloader w); val_dataloader := val_dataloader w;
     lr_steps := lr_steps w; coco_evaluator := coco_evaluator w |}.
Definition set_val_dataloader (f : DataLoader -> DataLoader) (w : World) : World :=
  {| fs := fs w; trace := trace w; grad_enabled := grad_enabled w;
     model := model w; ema_model := ema_model w; criterion := criterion w;
     train_dataloader := train_dataloader w; val_dataloader := f (val_dataloader w);
     lr_steps := lr_steps w; coco_evaluator := coco_evaluator w |}.
Definition set_lr_steps (f : Z -> Z) (w : World) : World :=
  {| fs := fs w; trace := trace w; grad_enabled := grad_enabled w;
     model := model w; ema_model := ema_model w; criterion := criterion w;
     train_dataloader := train_dataloader w; val_dataloader := val_dataloader w;
     lr_steps := f (lr_steps w); coco_evaluator := coco_evaluator w |}.
Definition set_coco_evaluator (f : option CocoEvaluator -> option CocoEvaluator)
    (w : World) : World :=
  {| fs := fs w; trace := trace w; grad_enabled := grad_enabled w;
     model := model w; ema_model := ema_model w; criterion := criterion w;
     train_dataloader := train_dataloader w; val_dataloader := val_dataloader w;
     lr_steps := lr_steps w; coco_evaluator := f (coco_evaluator w) |}.

(** The calls made so far, without the gradient-mode flags. *)
Definition events (w : World) : list Event := (trace w).*2.

(** ** State and exception monad *)

Inductive Res (A : Type) :=
| Ok (a : A)
| Raise (e : Py.Exc).
Arguments Ok {A} a.
Arguments Raise {A} e.

Definition M (A : Type) : Type := World -> Res A * World.

Definition ret {A} (a : A) : M A := fun w => (Ok a, w).
Definition raise {A} (e : Py.Exc) : M A := fun w => (Raise e, w).
Definition bind {A B} (m : M A) (k : A -> M B) : M B :=
  fun w => match m w with
           | (Ok a, w') => k a w'
           | (Raise e, w') => (Raise e, w')
           end.

Notation "'let*' x := m 'in' k" := (bind m (fun x => k))
  (at level 10, x name, m at level 200, k at level 200).
Notation "'let*' ' pat := m 'in' k" :=
  (bind m (fun x => match x with pat => k end))
  (at level 10, pat pattern, m at level 200, k at level 200).
Notation "m >> k" := (bind m (fun _ => k))
  (at level 62, right associativity).

Definition gets {A} (f : World -> A) : M A := fun w => (Ok (f w), w).
Definition modify (f : World -> World) : M unit := fun w => (Ok tt, f w).
Definition lift {A} (r : Py.Exc + A) : M A :=
  match r with
  | inr a => ret a
  | inl e => raise e
  end.
Definition log (e : Event) : M unit :=
  modify (fun w => set_trace (fun t => t ++ [(grad_enabled w, e)]) w).
Definition when (b : bool) (m : M unit) : M unit := if b then m else ret tt.

(** A [for] loop whose body may raise. *)
Fixpoint for_ {A} (xs : list A) (body : A -> M unit) : M unit :=
  match xs with
  | [] => ret tt
  | x :: xs' => body x >> for_ xs' body
  end.

Definition exec {A} (m : M A) (w : World) : World := (m w).2.
Definition result {A} (m : M A) (w : World) : Res A := (m w).1.

(** ** The process environment and the opaque collaborators *)

Record Env := {
  dist_initialized : bool;               (* a process group is up *)
  rank : Z;                              (* global rank inside that group *)
  cuda_available : bool;
  default_criterion : NNModule;          (* rtdetr_criterion() *)
  default_train_dataloader : DataLoader; (* rtdetr_train_dataloader() *)
  default_val_dataloader : DataLoader;   (* rtdetr_val_dataloader() *)
  optimizer_update : Z -> nat -> Weights -> Weights;
  ema_blend : Z -> Weights -> Weights -> Weights;
  hub_cache : string -> string;          (* the file torch.hub keeps a URL in *)
  urlopen : string -> Py.Exc + PyVal;    (* what fetching a URL gives: the file
                                            it serves, or the exception raised
                                            (ValueError for a name that is no
                                            URL, URLError for an unreachable
                                            one) *)
  iou_types : list string;               (* postprocessor.iou_types *)
  peers : list (gset Z);                 (* the image identifiers the metric
                                            accumulators of the other processes
                                            of the group hold *)
  coco_stats : string -> gset Z -> list Q
}.

(** No image identifier is held by two of the parts. *)
Fixpoint pairwise_disjoint (parts : list (gset Z)) : bool :=
  match parts with
  | [] => true
  | p :: ps => forallb (fun q => bool_decide (p ## q)) ps && pairwise_disjoint ps
  end.

Section Program.

Variable env : Env.

(** *** torch *)

(** [torch.device('cuda' if torch.cuda.is_available() else 'cpu')] *)
Definition torch_device : Device :=
  if cuda_available env then Cuda else Cpu.

(** Reading a file back from storage. *)
Definition read_file (path : string) : M PyVal :=
  let* files := gets fs in
  match files !! path with
  | Some v => ret v
  | None => raise (Py.FileNotFoundError path)
  end.

Definition torch_load (path : string) : M PyVal :=
  log (EvTorchLoad path) >> read_file path.

(** [torch.hub.load_state_dict_from_url(url)]: unless the hub cache holds
    the file of [url] already, it is downloaded into the cache; then it is
    read from there.  A download that fails leaves no file behind. *)
Definition torch_hub_load_state_dict_from_url (url : string) : M PyVal :=
  log (EvHubLoad url) >>
  let cached_file := hub_cache env url in
  let* files := gets fs in
  (if bool_decide (is_Some (files !! cached_file)) then ret tt
   else
     let* v := lift (urlopen env url) in
     modify (set_fs (fun files => <[cached_file := v]> files))) >>
  read_file cached_file.

Definition torch_save (obj : PyVal) (path : string) : M unit :=
  log (EvTorchSave path obj) >>
  modify (set_fs (fun files => <[path := obj]> files)).

(** [model.load_state_dict(sd, strict=...)], [sd] having been read from
    [state[key]]. *)
Definition model_load_state_dict (key : string) (sd : PyVal) (strict : bool)
  : M unit :=
  log (EvLoadStateDict key strict) >>
  let* m := gets model in
  let '(m', err) := load_state_dict sd strict m in
  modify (set_model (fun _ => m')) >>
  match err with
  | Some e => raise e
  | None => ret tt
  end.

(** Modelled from the spec: [ModelEMA(model, decay, warmups)] starts the
    shadow as a copy of the live weights, kept out of training. *)
Definition new_ModelEMA (d : Q) (wu : Z) : M unit :=
  log (EvModelEMA d wu) >>
  let* m := gets model in
  modify (set_ema_model (fun _ =>
    Some {| module := with_training false m; decay := d; warmups := wu;
            updates := 0 |})).

(** *** src.misc.dist *)

(** Modelled from the spec: the [src.misc.dist] module, which is not
    among the sources.  One boolean predicate tells single-process from
    multi-process execution. *)
Definition is_dist_available_and_initialized : bool := dist_initialized env.

(** Modelled from the spec: [dist.get_rank], the coordinating process being
    global rank 0, which is also the rank of a single process. *)
Definition get_rank : Z := if dist_initialized env then rank env else 0.

(** Modelled from the spec: [dist.is_main_process], the designated
    coordinating process. *)
Definition is_main_process : bool := (get_rank =? 0)%Z.

(** Modelled from the spec: [dist.all_gather], what every process of the
    group holds, this one first; a single process is alone. *)
Definition all_gather (own : gset Z) : list (gset Z) :=
  own :: (if is_dist_available_and_initialized then peers env else []).

(** Modelled from the spec: [dist.save_on_master] executes the persistence
    action only on the coordinating process; every other process observes
    a no-op. *)
Definition save_on_master (obj : PyVal) (path : string) : M unit :=
  log (EvSaveOnMaster path obj) >>
  when is_main_process (torch_save obj path).

(** Modelled from the spec: [dist.warp_loader] makes a data provider
    shard-aware, its shuffling seeded by an epoch number. *)
Definition warp_loader (l : Which) : M unit :=
  log (EvWarpLoader l) >>
  let shard dl := {| batches := batches dl; sampler_epoch := Some 0 |} in
  match l with
  | Train => modify (set_train_dataloader shard)
  | Val => modify (set_val_dataloader shard)
  end.

(** Modelled from the spec: [dist.warp_model] wraps the model for gradient
    synchronization. *)
Definition warp_model (find_unused_parameters sync_bn : bool) : M unit :=
  log (EvWarpModel find_unused_parameters sync_bn) >>
  modify (set_model with_ddp).

(** [train_dataloader.sampler.set_epoch(epoch)] *)
Definition sampler_set_epoch (e : Z) : M unit :=
  log (EvSetEpoch e) >>
  modify (set_train_dataloader (fun dl =>
    {| batches := batches dl; sampler_epoch := Some e |})).

(** *** src.nn.rtdetr.utils *)

(** Modelled from the spec: [state_dict(epoch, model, ema_model)], the
    checkpoint record [{epoch, model, ema: {module} (optional)}]. *)
Definition state_dict (epoch : Z) (m : NNModule) (ema : option ModelEMA) : PyVal :=
  let base : gmap string PyVal :=
    <["epoch" := PyInt epoch]> (<["model" := PyTensors (params m)]> ∅) in
  PyDict match ema with
         | Some e =>
             <["ema" := PyDict (<["module" := PyTensors (params (module e))]> ∅)]> base
         | None => base
         end.

(** Modelled from the spec: [load_tuning_state(path, model, ema_model)]
    reads the named checkpoint, restores the weights it holds and returns
    its [epoch] field as the resume point. *)
Definition load_tuning_state (path : string) : M Z :=
  log (EvLoadTuningState path) >>
  let* state := torch_load path in
  let* sd := lift (getitem state "model") in
  model_load_state_dict "model" sd false >>
  let* ema := gets ema_model in
  let* saved := lift (contains_key "ema" state) in
  (match ema with
   | Some e =>
       if saved then
         let* sub := lift (getitem state "ema") in
         let* shadow := lift (getitem sub "module") in
         let '(m', err) := load_state_dict shadow false (module e) in
         modify (set_ema_model (fmap (with_module m'))) >>
         match err with
         | Some x => raise x
         | None => ret tt
         end
       else ret tt
   | None => ret tt
   end) >>
  let* v := lift (getitem state "epoch") in
  lift (as_int v).

(** *** src.solver.det_engine *)

(** Modelled from the spec: one batch of [train_one_epoch] ends in an
    optimizer step, followed by the EMA update when a shadow is kept. *)
Definition train_batch (e : Z) (i : nat) : M unit :=
  log (EvOptimizerStep e i) >>
  modify (set_model (fun m => with_params (optimizer_update env e i (params m)) m)) >>
  let* live := gets model in
  let* ema := gets ema_model in
  match ema with
  | Some sh =>
      log (EvEmaUpdate e i) >>
      let n := (updates sh + 1)%Z in
      modify (set_ema_model (fun _ => Some
        {| module := with_params
             (ema_blend env n (params (module sh)) (params live)) (module sh);
           decay := decay sh; warmups := warmups sh; updates := n |}))
  | None => ret tt
  end.

(** Modelled from the spec: [train_one_epoch], one pass over the training
    data. *)
Definition train_one_epoch (e : Z) (max_norm : Q) (print_freq : Z)
    (scaler : bool) : M unit :=
  let* ema := gets ema_model in
  log (EvTrainOneEpoch e max_norm print_freq (bool_decide (is_Some ema)) scaler) >>
  modify (set_model (with_training true)) >>
  modify (set_criterion (with_training true)) >>
  let* dl := gets train_dataloader in
  for_ (seq 0 (length (batches dl))) (train_batch e).

(** *** fit *)

Definition model_to (d : Device) : M unit :=
  log (EvModelTo d) >> modify (set_model (with_device d)).

Definition criterion_to (d : Device) : M unit :=
  log (EvCriterionTo d) >> modify (set_criterion (with_device d)).

Definition ema_model_to (d : Device) : M unit :=
  log (EvEmaTo d) >>
  modify (set_ema_model (fmap (fun e => with_module (with_device d (module e)) e))).

(** [if criterion == None: criterion = rtdetr_criterion()] *)
Definition bind_criterion (arg : option NNModule) : M unit :=
  match arg with
  | None => log EvDefaultCriterion >>
            modify (set_criterion (fun _ => default_criterion env))
  | Some c => modify (set_criterion (fun _ => c))
  end.

Definition bind_train_dataloader (arg : option DataLoader) : M unit :=
  match arg with
  | None => log (EvDefaultLoader Train) >>
            modify (set_train_dataloader (fun _ => default_train_dataloader env))
  | Some dl => modify (set_train_dataloader (fun _ => dl))
  end.

Definition bind_val_dataloader (arg : option DataLoader) : M unit :=
  match arg with
  | None => log (EvDefaultLoader Val) >>
            modify (set_val_dataloader (fun _ => default_val_dataloader env))
  | Some dl => modify (set_val_dataloader (fun _ => dl))
  end.

(** The name of the checkpoint of an epoch:
    [os.path.join(save_dir, f'{epoch}.pth')]. *)
Definition checkpoint_path (save_dir : string) (e : Z) : string :=
  Py.path_join save_dir (Py.str e +:+ ".pth").

(** The body of the epoch loop (lines 75 to 82). *)
Definition fit_epoch (save_dir : string) (scaler : bool) (e : Z) : M unit :=
  when is_dist_available_and_initialized (sampler_set_epoch e) >>
  train_one_epoch e (1 # 10)%Q 100 scaler >>
  (log EvLrStep >> modify (set_lr_steps (fun n => n + 1)%Z)) >>
  let* m := gets model in
  let* ema := gets ema_model in
  save_on_master (state_dict e m ema) (checkpoint_path save_dir e).

(** Lines 35 to 45: the defaults, the gradient scaler, the EMA shadow and
    the learning-rate schedule.  Returns the scaler (present or not). *)
Definition fit_construct (criterion_arg : option NNModule)
    (train_arg val_arg : option DataLoader)
    (use_amp use_ema : bool) : M bool :=
  bind_criterion criterion_arg >>
  bind_train_dataloader train_arg >>
  bind_val_dataloader val_arg >>
  let* scaler := (if use_amp then log EvGradScaler >> ret true else ret false) in
  (if use_ema then new_ModelEMA (9999 # 10000)%Q 2000
   else modify (set_ema_model (fun _ => None))) >>
  (log (EvMultiStepLR [1000%Z] (1 # 10)%Q) >> modify (set_lr_steps (fun _ => 0%Z))) >>
  ret scaler.

(** Lines 47 to 49: [last_epoch]. *)
Definition fit_resume (weight_path : option string) : M Z :=
  match weight_path with
  | Some p => load_tuning_state p
  | None => ret 0%Z
  end.

(** Lines 51 to 70: placement on the device, then the distributed
    wrapping. *)
Definition fit_place (use_ema : bool) : M unit :=
  let d := torch_device in
  model_to d >>
  when use_ema (ema_model_to d) >>
  criterion_to d >>
  when is_dist_available_and_initialized
    (warp_loader Train >>
     warp_loader Val >>
     warp_model false true) >>
  log (EvPrint "Start training") >>
  log (EvPrint "number of params:").

Definition fit (weight_path : option string) (save_dir : string)
    (criterion_arg : option NNModule)
    (train_arg val_arg : option DataLoader)
    (epoch : Z) (use_amp use_ema : bool) : M unit :=
  let* scaler := fit_construct criterion_arg train_arg val_arg use_amp use_ema in
  let* last_epoch := fit_resume weight_path in
  fit_place use_ema >>
  for_ (Py.range (last_epoch + 1) epoch) (fit_epoch save_dir scaler) >>
  log (EvPrint "Training time").

(** *** val *)

(** The [@torch.no_grad()] decorator: the body runs with gradient tracking
    off, and the previous mode comes back however the body ends. *)
Definition no_grad {A} (body : M A) : M A :=
  fun w =>
    let prev := grad_enabled w in
    let '(r, w') := body (set_grad_enabled false w) in
    (r, set_grad_enabled prev w').

(** [coco_evaluator is not None] *)
Definition coco_evaluator_is_not_None : M bool :=
  gets (fun w => bool_decide (is_Some (coco_evaluator w))).

(** The keys of [{target['image_id'].item(): output for ...}], in the
    order a dict keeps them. *)
Definition res_keys (ids : list Z) : list Z := rev (remove_dups (rev ids)).

(** Modelled from the spec: [CocoEvaluator(base_ds, iou_types)] starts
    empty. *)
Definition new_CocoEvaluator (types : list string) : M unit :=
  log (EvCocoEvaluator types) >>
  modify (set_coco_evaluator (fun _ => Some
    {| ce_iou_types := types; img_ids := ∅; synchronized := false;
       accumulated := false; summarized := false |})).

(** Modelled from the spec: [update] grows the process-local mapping by
    the entries of [res]. *)
Definition evaluator_update (ids : list Z) : M unit :=
  log (EvEvaluatorUpdate ids) >>
  modify (set_coco_evaluator (fmap (fun c =>
    {| ce_iou_types := ce_iou_types c; img_ids := img_ids c ∪ list_to_set ids;
       synchronized := synchronized c; accumulated := accumulated c;
       summarized := summarized c |}))).

(** Modelled from the spec: [synchronize_between_processes] merges the
    per-process mappings into one global mapping, and fails fast when two
    processes hold the same image identifier. *)
Definition evaluator_synchronize : M unit :=
  log EvEvaluatorSync >>
  let* ce := gets coco_evaluator in
  match ce with
  | Some c =>
      let parts := all_gather (img_ids c) in
      if pairwise_disjoint parts then
        modify (set_coco_evaluator (fun _ => Some
          {| ce_iou_types := ce_iou_types c; img_ids := ⋃ parts;
             synchronized := true; accumulated := accumulated c;
             summarized := summarized c |}))
      else raise (Py.RuntimeError "duplicate image ids across processes")
  | None => ret tt
  end.

(** Modelled from the spec: [accumulate] and [summarize] compute the
    final metrics. *)
Definition evaluator_accumulate : M unit :=
  log EvAccumulate >>
  modify (set_coco_evaluator (fmap (fun c =>
    {| ce_iou_types := ce_iou_types c; img_ids := img_ids c;
       synchronized := synchronized c; accumulated := true;
       summarized := summarized c |}))).

Definition evaluator_summarize : M unit :=
  log EvSummarize >>
  modify (set_coco_evaluator (fmap (fun c =>
    {| ce_iou_types := ce_iou_types c; img_ids := img_ids c;
       synchronized := synchronized c; accumulated := accumulated c;
       summarized := true |}))).

(** Lines 109 to 114. *)
Definition val_load_weights (weight_path : option string) : M unit :=
  match weight_path with
  | Some p =>
      let* state :=
        (if Py.contains "http" p
         then torch_hub_load_state_dict_from_url p
         else torch_load p) in
      let* has_ema := lift (contains_key "ema" state) in
      if has_ema then
        let* sub := lift (getitem state "ema") in
        let* sd := lift (getitem sub "module") in
        model_load_state_dict "ema" sd false
      else
        let* sd := lift (getitem state "model") in
        model_load_state_dict "model" sd false
  | None => ret tt
  end.

(** Lines 149 to 155. *)
Definition val_stats (types : list string) (ce : option CocoEvaluator)
  : gmap string (list Q) :=
  let stats : gmap string (list Q) := ∅ in
  match ce with
  | Some c =>
      let stats :=
        if bool_decide ("bbox" ∈ types)
        then <["coco_eval_bbox" := coco_stats env "bbox" (img_ids c)]> stats
        else stats in
      if bool_decide ("segm" ∈ types)
      then <["coco_eval_masks" := coco_stats env "segm" (img_ids c)]> stats
      else stats
  | None => stats
  end.

(** [torch.stack(tensors, dim=0)] refuses an empty list. *)
Definition torch_stack {A} (tensors : list A) : M unit :=
  match tensors with
  | [] => raise (Py.RuntimeError "stack expects a non-empty TensorList")
  | _ :: _ => ret tt
  end.

(** One batch of the evaluation loop (lines 125 to 135): the forward pass,
    the original sizes of the targets stacked, the postprocessing, and the
    update of the metric accumulator with [res]. *)
Definition val_batch (b : nat * list Z) : M unit :=
  let '(i, ids) := b in
  log (EvForward i) >>
  torch_stack ids >>
  log (EvPostprocess i) >>
  let* present := coco_evaluator_is_not_None in
  when present (evaluator_update (res_keys ids)).

(** Lines 95 to 106: the defaults, evaluation mode, the postprocessor and
    the metric accumulator.  Returns [iou_types]. *)
Definition val_prepare (criterion_arg : option NNModule)
    (val_arg : option DataLoader) : M (list string) :=
  bind_criterion criterion_arg >>
  bind_val_dataloader val_arg >>
  (log EvModelEval >> modify (set_model (with_training false))) >>
  (log EvCriterionEval >> modify (set_criterion (with_training false))) >>
  log EvCocoApi >>
  log (EvPostProcessor 300) >>
  let types := iou_types env in
  new_CocoEvaluator types >>
  ret types.

(** Lines 116 to 135: placement on the device, then the pass over the
    validation data. *)
Definition val_loop : M unit :=
  let d := torch_device in
  model_to d >>
  criterion_to d >>
  log EvMetricLogger >>
  let* dl := gets val_dataloader in
  for_ (imap (fun i ids => (i, ids)) (batches dl)) val_batch.

(** Lines 138 to 147: synchronization across processes, then the final
    metrics. *)
Definition val_finish : M unit :=
  log EvLoggerSync >>
  log (EvPrint "Averaged stats:") >>
  (let* present := coco_evaluator_is_not_None in
   when present evaluator_synchronize) >>
  (let* present := coco_evaluator_is_not_None in
   when present (evaluator_accumulate >> evaluator_summarize)).

Definition val_body (weight_path : option string)
    (criterion_arg : option NNModule) (val_arg : option DataLoader)
  : M (gmap string (list Q) * option CocoEvaluator) :=
  let* types := val_prepare criterion_arg val_arg in
  val_load_weights weight_path >>
  val_loop >>
  val_finish >>
  let* ce := gets coco_evaluator in
  ret (val_stats types ce, ce).

Definition val (weight_path : option string)
    (criterion_arg : option NNModule) (val_arg : option DataLoader)
  : M (gmap string (list Q) * option CocoEvaluator) :=
  no_grad (val_body weight_path criterion_arg val_arg).

End Program.

(** ** Observations on a run *)

(** The calls a run made, given the worlds it started and ended in. *)
Definition new_events (w w' : World) : list Event :=
  drop (length (events w)) (events w').

Definition has_ema (w : World) : bool := bool_decide (is_Some (ema_model w)).

(** The [epoch] field of a serialized checkpoint. *)
Definition epoch_field (obj : PyVal) : option Z :=
  match obj with
  | PyDict d => match d !! "epoch" with
                | Some (PyInt z) => Some z
                | _ => None
                end
  | _ => None
  end.

(** The files [torch.save] wrote, in order, each with the [epoch] field of
    what went into it. *)
Definition files_written (evs : list Event) : list (string * option Z) :=
  omap (fun ev => match ev with
                  | EvTorchSave p obj => Some (p, epoch_field obj)
                  | _ => None
                  end) evs.

(** The epochs handed to the epoch trainer, in order. *)
Definition epochs_trained (evs : list Event) : list Z :=
  omap (fun ev => match ev with
                  | EvTrainOneEpoch e _ _ _ _ => Some e
                  | _ => None
                  end) evs.

(** The last completed epoch of a run that started from [last_epoch]. *)
Definition final_epoch (last_epoch : Z) (evs : list Event) : Z :=
  List.last (epochs_trained evs) last_epoch.

(** An optimizer step or an EMA update of epoch [e]. *)
Definition is_step_of (e : Z) (ev : Event) : bool :=
  match ev with
  | EvOptimizerStep e' _ | EvEmaUpdate e' _ => (e' =? e)%Z
  | _ => false
  end.

(** A checkpoint of epoch [e]: the epoch number, the model weights, and the
    EMA weights exactly when [ema] is set. *)
Definition checkpoint_of (e : Z) (ema : bool) (obj : PyVal) : Prop :=
  exists d mw,
    obj = PyDict d /\ d !! "epoch" = Some (PyInt e) /\
    d !! "model" = Some (PyTensors mw) /\
    (if ema
     then exists sw, d !! "ema" = Some (PyDict (<["module" := PyTensors sw]> ∅))
     else d !! "ema" = None).

(** One iteration of the epoch loop of [fit], as a sequence of calls. *)
Definition iteration (env : Env) (save_dir : string) (scaler ema : bool)
    (e : Z) (seg : list Event) : Prop :=
  exists steps obj,
    seg = (if is_dist_available_and_initialized env then [EvSetEpoch e] else [])
          ++ [EvTrainOneEpoch e (1 # 10)%Q 100 ema scaler]
          ++ steps
          ++ [EvLrStep; EvSaveOnMaster (checkpoint_path save_dir e) obj]
          ++ (if is_main_process env
              then [EvTorchSave (checkpoint_path save_dir e) obj] else [])
    /\ forallb (is_step_of e) steps = true
    /\ checkpoint_of e ema obj.

(** What lines 35 to 45 of [fit] call, in order. *)
Definition construction_events (criterion_arg : option NNModule)
    (train_arg val_arg : option DataLoader) (use_amp use_ema : bool) : list Event :=
  match criterion_arg with None => [EvDefaultCriterion] | Some _ => [] end
  ++ match train_arg with None => [EvDefaultLoader Train] | Some _ => [] end
  ++ match val_arg with None => [EvDefaultLoader Val] | Some _ => [] end
  ++ (if use_amp then [EvGradScaler] else [])
  ++ (if use_ema then [EvModelEMA (9999 # 10000)%Q 2000] else [])
  ++ [EvMultiStepLR [1000%Z] (1 # 10)%Q].

(** What lines 51 to 70 of [fit] call, in order. *)
Definition placement_events (env : Env) (use_ema : bool) : list Event :=
  [EvModelTo (torch_device env)]
  ++ (if use_ema then [EvEmaTo (torch_device env)] else [])
  ++ [EvCriterionTo (torch_device env)]
  ++ (if is_dist_available_and_initialized env
      then [EvWarpLoader Train; EvWarpLoader Val; EvWarpModel false true]
      else [])
  ++ [EvPrint "Start training"; EvPrint "number of params:"].

(** The calls that read a checkpoint. *)
Definition is_load_event (ev : Event) : bool :=
  match ev with
  | EvLoadTuningState _ | EvTorchLoad _ | EvHubLoad _ | EvLoadStateDict _ _ => true
  | _ => false
  end.

(** The calls that wrap for distributed execution. *)
Definition is_wrap_event (ev : Event) : bool :=
  match ev with
  | EvWarpLoader _ | EvWarpModel _ _ => true
  | _ => false
  end.

(** What lines 95 to 106 of [val] call, in order. *)
Definition preparation_events (env : Env) (criterion_arg : option NNModule)
    (val_arg : option DataLoader) : list Event :=
  match criterion_arg with None => [EvDefaultCriterion] | Some _ => [] end
  ++ match val_arg with None => [EvDefaultLoader Val] | Some _ => [] end
  ++ [EvModelEval; EvCriterionEval; EvCocoApi; EvPostProcessor 300;
      EvCocoEvaluator (iou_types env)].

(** What lines 138 to 147 of [val] call, in order. *)
Definition finish_events : list Event :=
  [EvLoggerSync; EvPrint "Averaged stats:"; EvEvaluatorSync; EvAccumulate;
   EvSummarize].

Definition is_load_state_dict (ev : Event) : bool :=
  match ev with EvLoadStateDict _ _ => true | _ => false end.

(** The calls of one batch of the evaluation loop. *)
Definition is_batch_event (ev : Event) : bool :=
  match ev with
  | EvForward _ | EvPostprocess _ | EvEvaluatorUpdate _ => true
  | _ => false
  end.

Definition is_forward (ev : Event) : bool :=
  match ev with EvForward _ => true | _ => false end.

Definition is_model_to (d : Device) (ev : Event) : bool :=
  match ev with
  | EvModelTo Cuda => match d with Cuda => true | Cpu => false end
  | EvModelTo Cpu => match d with Cpu => true | Cuda => false end
  | _ => false
  end.


(** The gradient mode and the calls, as the trace stores them. *)
Definition tag (g : bool) (l : list Event) : list (bool * Event) :=
  (fun e => (g, e)) <$> l.

(** Ordering: every call that satisfies [B] comes strictly after some call
    that satisfies [A]. *)
Definition all_after (A B : Event -> bool) (l : list Event) : Prop :=
  forall l1 ev l2, l = l1 ++ ev :: l2 -> B ev = true ->
    exists a, a ∈ l1 /\ A a = true.

(** The same, decided by one scan of the list. *)
Fixpoint scan_after (A B : Event -> bool) (l : list Event) : bool :=
  match l with
  | [] => true
  | x :: l' => if B x then false else if A x then true else scan_after A B l'
  end.

(** What the metric accumulator holds once [val] is through with it. *)
Definition populated (env : Env) (dl : DataLoader) : CocoEvaluator :=
  {| ce_iou_types := iou_types env;
     img_ids := ⋃ all_gather env (list_to_set (concat (res_keys <$> batches dl)));
     synchronized := true; accumulated := true; summarized := true |}.

(** Every batch of the data provider carries at least one target. *)
Definition batches_ok (dl : DataLoader) : bool :=
  forallb (fun ids => negb (bool_decide (ids = []))) (batches dl).

(** No image identifier of the data provider is held by another process,
    nor any by two other processes. *)
Definition shards_ok (env : Env) (dl : DataLoader) : bool :=
  pairwise_disjoint (all_gather env (list_to_set (concat (res_keys <$> batches dl)))).

(** [sub] occurs somewhere inside [s]. *)
Definition substring_of (sub s : string) : Prop :=
  exists pre post, s = pre +:+ sub +:+ post.

(** The calls sorted by the part of the program that makes them. *)
Inductive Kind :=
| KConstruct | KLoad | KPlace | KWrap | KPrint | KLoop | KPrepare | KBatch | KFinish.

#[global] Instance Kind_eq_dec : EqDecision Kind.
Proof. solve_decision. Defined.

Definition kind (ev : Event) : Kind :=
  match ev with
  | EvDefaultCriterion | EvDefaultLoader _ | EvGradScaler
  | EvModelEMA _ _ | EvMultiStepLR _ _ => KConstruct
  | EvLoadTuningState _ | EvTorchLoad _ | EvHubLoad _ | EvLoadStateDict _ _ => KLoad
  | EvModelTo _ | EvEmaTo _ | EvCriterionTo _ => KPlace
  | EvWarpLoader _ | EvWarpModel _ _ => KWrap
  | EvPrint _ => KPrint
  | EvSetEpoch _ | EvTrainOneEpoch _ _ _ _ _ | EvOptimizerStep _ _
  | EvEmaUpdate _ _ | EvLrStep | EvSaveOnMaster _ _ | EvTorchSave _ _ => KLoop
  | EvModelEval | EvCriterionEval | EvCocoApi | EvPostProcessor _
  | EvCocoEvaluator _ | EvMetricLogger => KPrepare
  | EvForward _ | EvPostprocess _ | EvEvaluatorUpdate _ => KBatch
  | EvLoggerSync | EvEvaluatorSync | EvAccumulate | EvSummarize => KFinish
  end.

(** Every call of [l] is of one of the kinds [ks]. *)
Definition kinds_in (ks : list Kind) (l : list Event) : bool :=
  forallb (fun ev => bool_decide (kind ev ∈ ks)) l.

(** What [fit] constructed, read off the calls: the gradient scalers, the
    EMA shadows (decay, warmup steps) and the learning-rate schedules
    (milestones, factor). *)
Definition scalers_built (evs : list Event) : list unit :=
  omap (fun ev => match ev with EvGradScaler => Some tt | _ => None end) evs.

Definition emas_built (evs : list Event) : list (Q * Z) :=
  omap (fun ev => match ev with EvModelEMA d wu => Some (d, wu) | _ => None end) evs.

Definition schedules_built (evs : list Event) : list (list Z * Q) :=
  omap (fun ev => match ev with EvMultiStepLR ms g => Some (ms, g) | _ => None end) evs.

(** The wrapping calls, in order. *)
Definition wraps (evs : list Event) : list Event := List.filter is_wrap_event evs.

(** The checkpoint reads, in order: the origin and the name. *)
Inductive Origin := Remote | LocalFile.

Definition origins (evs : list Event) : list (Origin * string) :=
  omap (fun ev => match ev with
                  | EvHubLoad url => Some (Remote, url)
                  | EvTorchLoad p => Some (LocalFile, p)
                  | _ => None
                  end) evs.

(** The [load_state_dict] calls, in order: the key of the loaded state the
    weights came from, and the strictness. *)
Definition state_dict_loads (evs : list Event) : list (string * bool) :=
  omap (fun ev => match ev with
                  | EvLoadStateDict k s => Some (k, s)
                  | _ => None
                  end) evs.

(** ** A small concrete setting *)

Module Demo.

Definition net : NNModule :=
  {| params := <["backbone.weight" := 7]> (<["head.bias" := 1]> ∅);
     training := true; device := None; ddp := false |}.

Definition loader (bs : list (list Z)) : DataLoader :=
  {| batches := bs; sampler_epoch := None |}.

(** [os.path.basename] *)
Fixpoint basename (s : string) : string :=
  match s with
  | EmptyString => EmptyString
  | String _ s' => if Py.contains "/" s then basename s' else s
  end.

(** The hub cache, and a network on which one URL is served and every
    other name is no URL. *)
Definition hub (url : string) : string :=
  "/root/.cache/torch/hub/checkpoints/" +:+ basename url.

Definition net_served : PyVal :=
  PyDict (<["model" := PyTensors (<["head.bias" := 5]> ∅)]> ∅).

Definition network (url : string) : Py.Exc + PyVal :=
  if String.eqb url "https://example.org/rtdetr.pth" then inr net_served
  else inl (Py.ValueError "unknown url type").

(** One process, no accelerator. *)
Definition env : Env :=
  {| dist_initialized := false; rank := 0; cuda_available := false;
     default_criterion := net;
     default_train_dataloader := loader [[1; 2]; [3]];
     default_val_dataloader := loader [[10; 11]; [12]];
     optimizer_update := fun _ _ ws => (fun x => x + 1)%Z <$> ws;
     ema_blend := fun _ shadow _ => shadow;
     hub_cache := hub; urlopen := network;
     iou_types := ["bbox"];
     peers := [];
     coco_stats := fun _ ids => [(Z.of_nat (size ids) # 1)%Q] |}.

(** Two processes; this one is the coordinating one. *)
Definition env_dist : Env :=
  {| dist_initialized := true; rank := 0; cuda_available := true;
     default_criterion := net;
     default_train_dataloader := loader [[1; 2]; [3]];
     default_val_dataloader := loader [[10; 11]; [12]];
     optimizer_update := fun _ _ ws => (fun x => x + 1)%Z <$> ws;
     ema_blend := fun _ shadow _ => shadow;
     hub_cache := hub; urlopen := network;
     iou_types := ["bbox"; "segm"];
     peers := [{[20; 21]}];
     coco_stats := fun _ ids => [(Z.of_nat (size ids) # 1)%Q] |}.

(** Nothing on disk, nothing run yet. *)
Definition fresh : World :=
  {| fs := ∅; trace := []; grad_enabled := true; model := net;
     ema_model := None; criterion := net;
     train_dataloader := loader []; val_dataloader := loader [];
     lr_steps := 0; coco_evaluator := None |}.

(** The checkpoints of epochs 1, 2 and 3 on disk. *)
Definition saved : World :=
  set_fs (fun _ =>
    <["out/1.pth" := state_dict 1 net None]>
    (<["out/2.pth" := state_dict 2 net None]>
     (<["out/3.pth" := state_dict 3 net None]> ∅))) fresh.

(** A checkpoint with an EMA sub-state, under a local name that contains
    [http]. *)
Definition ema_checkpoint : PyVal :=
  state_dict 5 net
    (Some {| module := with_params (<["head.bias" := 9]> ∅) net;
             decay := (9999 # 10000)%Q; warmups := 2000; updates := 3 |}).

Definition with_ema_file : World :=
  set_fs (fun _ => <["/data/http_cache/model.pth" := ema_checkpoint]>
                   (<["out/5.pth" := ema_checkpoint]> ∅)) fresh.

End Demo.

(** ** Observations on [val] *)

Definition is_model_eval (ev : Event) : bool :=
  match ev with EvModelEval => true | _ => false end.

Definition is_criterion_eval (ev : Event) : bool :=
  match ev with EvCriterionEval => true | _ => false end.



(** The final metrics: [accumulate] and [summarize]. *)
Definition is_final_metric (ev : Event) : bool :=
  match ev with EvAccumulate | EvSummarize => true | _ => false end.

(** The validation data provider [val] ends up with. *)
Definition chosen_val_dataloader (env : Env) (v : option DataLoader) : DataLoader :=
  match v with Some dl => dl | None => default_val_dataloader env end.

(** What [update] does to the metric accumulator. *)
Definition add_ids (ids : list Z) (c : CocoEvaluator) : CocoEvaluator :=
  {| ce_iou_types := ce_iou_types c; img_ids := img_ids c ∪ list_to_set ids;
     synchronized := synchronized c; accumulated := accumulated c;
     summarized := summarized c |}.

(** The call that reads the weight source of [val]. *)
Definition origin_event (p : string) : Event :=
  if Py.contains "http" p then EvHubLoad p else EvTorchLoad p.

(** What the weight source of [val] holds: for a remote origin the file in
    the hub cache, or else what the download gives; for a local origin the
    file of that name. *)
Definition origin_state (env : Env) (w : World) (p : string) : option PyVal :=
  if Py.contains "http" p then
    match fs w !! hub_cache env p with
    | Some v => Some v
    | None => match urlopen env p with
              | inr v => Some v
              | inl _ => None
              end
    end
  else fs w !! p.

(** A loaded state [val] can take weights from: a dict with an EMA
    sub-state that holds a weight mapping under [module], or a dict without
    EMA sub-state that holds a weight mapping under [model]. *)
Definition checkpoint_ok (state : PyVal) : Prop :=
  exists d, state = PyDict d /\
    ((exists s sd, d !! "ema" = Some (PyDict s) /\ s !! "module" = Some (PyTensors sd)) \/
     (d !! "ema" = None /\ exists sd, d !! "model" = Some (PyTensors sd))).

Definition source_ok (env : Env) (w : World) (wp : option string) : Prop :=
  match wp with
  | None => True
  | Some p => exists state, origin_state env w p = Some state /\ checkpoint_ok state
  end.

(** ** Computations that only append to the trace *)

(** [m] appends calls that all satisfy [P], under the gradient mode it was
    started in, leaves that mode as it was, and relates the world before to
    the world after by [R]. *)
Definition emits (R : relation World) (P : Event -> bool) {A} (m : M A) : Prop :=
  forall w, exists l,
    trace (m w).2 = trace w ++ tag (grad_enabled w) l /\
    forallb P l = true /\
    grad_enabled (m w).2 = grad_enabled w /\
    R w (m w).2.

(** What reading a checkpoint leaves alone. *)
Definition load_frame (w w' : World) : Prop :=
  fs w' = fs w /\ has_ema w' = has_ema w /\
  coco_evaluator w' = coco_evaluator w /\ val_dataloader w' = val_dataloader w.

Definition any_frame (w w' : World) : Prop := True.

(** ** More observations on [fit] and [val] *)

(** What the loop of [fit] leaves alone: where the model and the criterion
    live, and whether the model is wrapped. *)
Definition placed_frame (w w' : World) : Prop :=
  device (model w') = device (model w) /\
  ddp (model w') = ddp (model w) /\
  device (criterion w') = device (criterion w).

(** Nothing on durable storage changes. *)
Definition fs_frame (w w' : World) : Prop := fs w' = fs w.

(** The learning-rate schedule is where it was. *)
Definition lr_frame (w w' : World) : Prop := lr_steps w' = lr_steps w.

(** The train/eval mode of the model and of the criterion is as it was. *)
Definition mode_frame (w w' : World) : Prop :=
  training (model w') = training (model w) /\
  training (criterion w') = training (criterion w).

(** What reading the weight source of [val] leaves alone: the metric
    accumulator and the validation data provider. *)
Definition source_frame (w w' : World) : Prop :=
  coco_evaluator w' = coco_evaluator w /\ val_dataloader w' = val_dataloader w.

(** Storage once [val] has read its weight source: a remote origin that had
    to be downloaded is kept in the hub cache, and nothing else changes. *)
Definition storage_after (env : Env) (w : World) (wp : option string)
  : gmap string PyVal :=
  match wp with
  | Some p =>
      if Py.contains "http" p then
        match fs w !! hub_cache env p, urlopen env p with
        | None, inr v => <[hub_cache env p := v]> (fs w)
        | _, _ => fs w
        end
      else fs w
  | None => fs w
  end.

(** The calls of the synchronization across processes. *)
Definition sync_events : list Event :=
  [EvLoggerSync; EvPrint "Averaged stats:"; EvEvaluatorSync].

(** The device placement and the logger of lines 116 to 120. *)
Definition loop_entry_events (env : Env) : list Event :=
  [EvModelTo (torch_device env); EvCriterionTo (torch_device env); EvMetricLogger].

(** The calls of the evaluation loop over the batches [bs]: for each batch,
    in order, the forward pass, the postprocessing and the update of the
    metric accumulator with the keys of [res]. *)
Definition batch_calls (bs : list (list Z)) : list Event :=
  concat (imap (fun i ids =>
    [EvForward i; EvPostprocess i; EvEvaluatorUpdate (res_keys ids)]) bs).

(** What [os.path.join] puts in front of a relative file name. *)
Definition save_dir_prefix (save_dir : string) : string :=
  if String.eqb save_dir "" || Py.endswith_char "/" save_dir
  then save_dir else save_dir +:+ "/".

(** One iteration of the epoch loop of [fit] for epoch [e], as the calls it
    makes, [obj] being what it persists: the epoch handed to the sampler
    (distributed mode only), the pass of the epoch trainer with clipping
    norm 0.1 and logging cadence 100, the optimizer steps and EMA updates of
    that epoch, one step of the learning-rate schedule, and the rank-gated
    write of [obj], a checkpoint of epoch [e], to the file [{e}.pth] in
    [save_dir]. *)
Definition epoch_segment (env : Env) (save_dir : string) (scaler ema : bool)
    (e : Z) (obj : PyVal) (seg : list Event) : Prop :=
  let path := save_dir_prefix save_dir +:+ Py.str e +:+ ".pth" in
  exists steps,
    seg = (if is_dist_available_and_initialized env then [EvSetEpoch e] else [])
          ++ [EvTrainOneEpoch e (1 # 10)%Q 100 ema scaler]
          ++ steps
          ++ [EvLrStep; EvSaveOnMaster path obj]
          ++ (if is_main_process env then [EvTorchSave path obj] else [])
    /\ forallb (is_step_of e) steps = true
    /\ checkpoint_of e ema obj.

(** The calls of the evaluation loop over numbered batches, as the code
    makes them: the loop stops at the first batch without targets, of which
    only the forward pass is made. *)
Fixpoint loop_calls (bs : list (nat * list Z)) : list Event :=
  match bs with
  | [] => []
  | (i, []) :: _ => [EvForward i]
  | (i, ids) :: bs' =>
      [EvForward i; EvPostprocess i; EvEvaluatorUpdate (res_keys ids)] ++ loop_calls bs'
  end.

(** The calls of the batches [pre], each with at least one target, followed
    by a batch that has none: of that one only the forward pass is made. *)
Definition stopped_calls (pre : list (list Z)) : list Event :=
  batch_calls pre ++ [EvForward (length pre)].

Definition is_finish_event (ev : Event) : bool :=
  match ev with
  | EvLoggerSync | EvEvaluatorSync | EvAccumulate | EvSummarize => true
  | _ => false
  end.

Definition is_lr_step (ev : Event) : bool :=
  match ev with EvLrStep => true | _ => false end.

Module Edge.

(** A checkpoint whose EMA sub-state holds no [module], beside usable
    model weights. *)
Definition no_module : PyVal :=
  PyDict (<["ema" := PyDict (<["updates" := PyInt 3]> ∅)]>
          (<["model" := PyTensors (<["head.bias" := 5]> ∅)]> ∅)).

(** A file that is a dict, with neither [ema] nor [model]. *)
Definition no_weights : PyVal := PyDict (<["epoch" := PyInt 4]> ∅).

(** A file that is a bare weight mapping. *)
Definition bare_weights : Weights := <["head.bias" := 5]> ∅.

(** A checkpoint whose [ema] entry is itself a weight mapping. *)
Definition flat_ema : PyVal :=
  PyDict (<["ema" := PyTensors bare_weights]>
          (<["model" := PyTensors bare_weights]> ∅)).

Definition world : World :=
  set_fs (fun _ => <["out/no_module.pth" := no_module]>
                   (<["out/no_weights.pth" := no_weights]>
                    (<["out/bare.pth" := PyTensors bare_weights]>
                     (<["out/flat_ema.pth" := flat_ema]> ∅)))) Demo.fresh.

(** A process of a group that is not the coordinating one; the other
    process holds the images 20 and 21. *)
Definition env_worker : Env :=
  {| dist_initialized := true; rank := 1; cuda_available := true;
     default_criterion := Demo.net;
     default_train_dataloader := Demo.loader [[1; 2]; [3]];
     default_val_dataloader := Demo.loader [[10; 11; 10]; [12]];
     optimizer_update := fun _ _ ws => (fun x => x + 1)%Z <$> ws;
     ema_blend := fun _ shadow _ => shadow;
     hub_cache := Demo.hub; urlopen := Demo.network;
     iou_types := ["bbox"];
     peers := [{[20; 21]}];
     coco_stats := fun _ ids => [(Z.of_nat (size ids) # 1)%Q] |}.

(** One process whose postprocessor scores boxes and keypoints. *)
Definition env_keypoints : Env :=
  {| dist_initialized := false; rank := 0; cuda_available := false;
     default_criterion := Demo.net;
     default_train_dataloader := Demo.loader [[1; 2]; [3]];
     default_val_dataloader := Demo.loader [[10; 11]; [12]];
     optimizer_update := fun _ _ ws => (fun x => x + 1)%Z <$> ws;
     ema_blend := fun _ shadow _ => shadow;
     hub_cache := Demo.hub; urlopen := Demo.network;
     iou_types := ["bbox"; "keypoints"];
     peers := [];
     coco_stats := fun _ ids => [(Z.of_nat (size ids) # 1)%Q] |}.

(** A data provider whose second batch carries no target. *)
Definition gap : DataLoader := Demo.loader [[10; 11]; []; [12]].

(** A data provider that shares image 20 with the other process of
    [Demo.env_dist]. *)
Definition overlap : DataLoader := Demo.loader [[10; 20]; [12]].

End Edge.
(** * Reasoning about runs *)

Lemma bind_ok {A B} (m : M A) (k : A -> M B) w a w1 :
  m w = (Ok a, w1) -> bind m k w = k a w1.
Proof. unfold bind. by intros ->. Qed.

Lemma bind_raise {A B} (m : M A) (k : A -> M B) w e w1 :
  m w = (Raise e, w1) -> bind m k w = (Raise e, w1).
Proof. unfold bind. by intros ->. Qed.

Lemma tag_events g l : (tag g l).*2 = l.
Proof. unfold tag. induction l; cbn; congruence. Qed.

Lemma new_events_app w w' l : events w' = events w ++ l -> new_events w w' = l.
Proof. unfold new_events. intros ->. by rewrite drop_app_length. Qed.

Ltac mrun := unfold bind, log, modify, gets, ret, when, lift, raise; cbn.
Ltac evs := unfold events; cbn; rewrite ?fmap_app, <- ?app_assoc; cbn.

Lemma log_run e w :
  exists w', log e w = (Ok tt, w') /\ events w' = events w ++ [e] /\
             fs w' = fs w /\ has_ema w' = has_ema w.
Proof. eexists. split; [reflexivity|]. evs. done. Qed.

(** ** Computations that only append to the trace *)

Section Emits.
Context (R : relation World) `{!PreOrder R}.
Variable P : Event -> bool.

Lemma emits_ret {A} (a : A) : emits R P (ret a).
Proof. intros w. exists []. cbn. rewrite app_nil_r. split_and!; done. Qed.

Lemma emits_raise {A} e : emits R P (@raise A e).
Proof. intros w. exists []. cbn. rewrite app_nil_r. split_and!; done. Qed.

Lemma emits_lift {A} (r : Py.Exc + A) : emits R P (lift r).
Proof. destruct r; [apply emits_raise | apply emits_ret]. Qed.

Lemma emits_gets {A} (f : World -> A) : emits R P (gets f).
Proof. intros w. exists []. cbn. rewrite app_nil_r. split_and!; done. Qed.

Lemma emits_modify f :
  (forall w, trace (f w) = trace w /\ grad_enabled (f w) = grad_enabled w /\ R w (f w)) ->
  emits R P (modify f).
Proof.
  intros H w. exists []. cbn. rewrite app_nil_r.
  destruct (H w) as (? & ? & ?). done.
Qed.

Lemma emits_log e :
  P e = true -> (forall f w, R w (set_trace f w)) -> emits R P (log e).
Proof. intros H HR w. exists [e]. cbn. rewrite H. split_and!; done. Qed.

Lemma emits_bind {A B} (m : M A) (k : A -> M B) :
  emits R P m -> (forall a, emits R P (k a)) -> emits R P (bind m k).
Proof.
  intros Hm Hk w. destruct (Hm w) as (l1 & T1 & P1 & G1 & R1).
  unfold bind. destruct (m w) as [[a|e] w1]; cbn in *.
  - destruct (Hk a w1) as (l2 & T2 & P2 & G2 & R2).
    exists (l1 ++ l2). rewrite T2, T1, G1. unfold tag. rewrite fmap_app, app_assoc.
    rewrite forallb_app, P1, P2. split_and!; try done; [congruence | by etrans].
  - exists l1. done.
Qed.

Lemma emits_when b (m : M unit) : emits R P m -> emits R P (when b m).
Proof. destruct b; [done | intros _; apply emits_ret]. Qed.

Lemma emits_for {A} (xs : list A) (body : A -> M unit) :
  (forall x, emits R P (body x)) -> emits R P (for_ xs body).
Proof.
  intros H. induction xs as [|x xs IH]; cbn [for_].
  - apply emits_ret.
  - apply emits_bind; auto.
Qed.

Lemma emits_mono {A} (P' : Event -> bool) (m : M A) :
  (forall ev, P' ev = true -> P ev = true) ->
  emits R P' m -> emits R P m.
Proof.
  intros HP H w. destruct (H w) as (l & T & HP' & G & HR). exists l.
  split_and!; try done. rewrite forallb_forall in *. auto.
Qed.

Lemma emits_events {A} (m : M A) w :
  emits R P m -> exists l,
    events (m w).2 = events w ++ l /\ forallb P l = true /\ R w (m w).2.
Proof.
  intros H. destruct (H w) as (l & T & HP & _ & HR). exists l.
  unfold events. rewrite T, fmap_app, tag_events. done.
Qed.
End Emits.

#[local] Instance load_frame_preorder : PreOrder load_frame.
Proof.
  split.
  - intros w. unfold load_frame. done.
  - intros w1 w2 w3 (?&?&?&?) (?&?&?&?). unfold load_frame. split_and!; congruence.
Qed.

#[local] Instance any_frame_preorder : PreOrder any_frame.
Proof. split; done. Qed.

Ltac emits_step :=
  lazymatch goal with
  | |- PreOrder _ => apply _
  | |- forall _, _ => intros ?
  | |- emits _ _ (bind _ _) => apply emits_bind
  | |- emits _ _ (ret _) => apply emits_ret
  | |- emits _ _ (raise _) => apply emits_raise
  | |- emits _ _ (lift _) => apply emits_lift
  | |- emits _ _ (gets _) => apply emits_gets
  | |- emits _ _ (log _) =>
      apply emits_log;
      [ reflexivity
      | intros;
        unfold load_frame, any_frame, placed_frame, fs_frame, lr_frame, mode_frame, has_ema;
        done ]
  | |- emits _ _ (when _ _) => apply emits_when
  | |- emits _ _ (for_ _ _) => apply emits_for
  | |- emits _ _ (modify _) =>
      apply emits_modify;
      intros ?;
      unfold load_frame, any_frame, placed_frame, fs_frame, lr_frame, mode_frame, has_ema;
      cbn; split_and!; try done;
      try (by destruct (ema_model _))
  | |- emits _ _ (match ?x with _ => _ end) => destruct x
  end.

(** ** Loading a weight mapping *)

Lemma tensors_of_fmap (sd : Weights) : tensors_of (PyTensor <$> sd) = sd.
Proof.
  unfold tensors_of. apply map_eq. intros k.
  rewrite lookup_omap, lookup_fmap. by destruct (sd !! k).
Qed.

Lemma not_tensors_fmap (sd own : Weights) : not_tensors (PyTensor <$> sd) own = ∅.
Proof.
  unfold not_tensors. apply map_eq. intros k.
  rewrite map_lookup_imap, lookup_fmap, lookup_empty.
  by destruct (own !! k), (sd !! k).
Qed.

Lemma load_state_dict_tensors sd m :
  load_state_dict (PyTensors sd) false m = (with_params (merged sd (params m)) m, None).
Proof.
  unfold load_state_dict, PyTensors.
  by rewrite tensors_of_fmap, not_tensors_fmap, bool_decide_eq_true_2.
Qed.

Lemma load_state_dict_params sd strict m :
  exists ws, (load_state_dict sd strict m).1 = with_params ws m.
Proof.
  unfold load_state_dict.
  destruct sd; cbn; [exists (params m); by destruct m .. | eauto].
Qed.

Arguments load_state_dict : simpl never.
Arguments pairwise_disjoint : simpl never.
Arguments all_gather : simpl never.

Lemma model_load_state_dict_emits key sd strict :
  emits load_frame is_load_state_dict (model_load_state_dict key sd strict).
Proof. unfold model_load_state_dict. repeat emits_step. Qed.

Lemma model_load_state_dict_loads key sd strict :
  emits load_frame is_load_event (model_load_state_dict key sd strict).
Proof.
  apply (emits_mono _ _ is_load_state_dict).
  - by intros [].
  - apply model_load_state_dict_emits.
Qed.

Lemma load_tuning_state_loads p :
  emits load_frame is_load_event (load_tuning_state p).
Proof.
  unfold load_tuning_state, torch_load, read_file.
  repeat (emits_step || apply model_load_state_dict_loads).
Qed.

(** ** The training side *)

Section Training.
Variable env : Env.

Lemma train_batch_run e i w :
  exists w' steps,
    train_batch env e i w = (Ok tt, w') /\
    events w' = events w ++ steps /\
    forallb (is_step_of e) steps = true /\
    fs w' = fs w /\ has_ema w' = has_ema w.
Proof.
  unfold train_batch, has_ema. mrun.
  destruct (ema_model w) as [sh|] eqn:E.
  - eexists _, [EvOptimizerStep e i; EvEmaUpdate e i]. split; [reflexivity|].
    evs. rewrite Z.eqb_refl. done.
  - eexists _, [EvOptimizerStep e i]. split; [reflexivity|].
    evs. rewrite Z.eqb_refl, E. done.
Qed.

Lemma train_batches_run e (idx : list nat) w :
  exists w' steps,
    for_ idx (train_batch env e) w = (Ok tt, w') /\
    events w' = events w ++ steps /\
    forallb (is_step_of e) steps = true /\
    fs w' = fs w /\ has_ema w' = has_ema w.
Proof.
  revert w. induction idx as [|i idx IH]; intros w.
  - exists w, []. cbn. rewrite app_nil_r. done.
  - destruct (train_batch_run e i w) as (w1 & s1 & R1 & E1 & S1 & F1 & H1).
    destruct (IH w1) as (w2 & s2 & R2 & E2 & S2 & F2 & H2).
    exists w2, (s1 ++ s2). cbn [for_]. rewrite (bind_ok _ _ _ _ _ R1), R2.
    split; [done|]. rewrite E2, E1, <- app_assoc, forallb_app, S1, S2.
    split_and!; try done; congruence.
Qed.

Lemma train_one_epoch_run e mn pf sc w :
  exists w' steps,
    train_one_epoch env e mn pf sc w = (Ok tt, w') /\
    events w' = events w ++ EvTrainOneEpoch e mn pf (has_ema w) sc :: steps /\
    forallb (is_step_of e) steps = true /\
    fs w' = fs w /\ has_ema w' = has_ema w.
Proof.
  unfold train_one_epoch. mrun.
  match goal with |- context [for_ ?l _ ?w0] =>
    destruct (train_batches_run e l w0) as (w1 & s & R & E & S & F & H) end.
  exists w1, s. rewrite R. split; [done|]. rewrite E, H, F.
  evs. done.
Qed.

Lemma state_dict_checkpoint e w :
  checkpoint_of e (has_ema w) (state_dict e (model w) (ema_model w)).
Proof.
  unfold checkpoint_of, state_dict, has_ema.
  destruct (ema_model w) as [sh|]; cbn.
  - eexists _, _. split; [reflexivity|]. split_and!; try done.
    eexists. reflexivity.
  - eexists _, _. split; [reflexivity|]. split_and!; done.
Qed.

Lemma state_dict_fields r m ema0 :
  exists d,
    state_dict r m ema0 = PyDict d /\
    d !! "model" = Some (PyTensors (params m)) /\
    d !! "epoch" = Some (PyInt r) /\
    d !! "ema" = (fun e => PyDict (<["module" := PyTensors (params (module e))]> ∅)) <$> ema0.
Proof.
  unfold state_dict. destruct ema0; eexists; (split; [reflexivity|]); done.
Qed.

Local Opaque checkpoint_path state_dict.

Lemma set_epoch_run e w :
  exists w0,
    when (is_dist_available_and_initialized env) (sampler_set_epoch e) w = (Ok tt, w0) /\
    events w0 = events w ++
      (if is_dist_available_and_initialized env then [EvSetEpoch e] else []) /\
    fs w0 = fs w /\ has_ema w0 = has_ema w.
Proof.
  unfold sampler_set_epoch.
  destruct (is_dist_available_and_initialized env); mrun; eexists; (split; [reflexivity|]).
  - evs. done.
  - rewrite app_nil_r. done.
Qed.

Lemma fit_epoch_run dir sc e w :
  exists w' seg,
    fit_epoch env dir sc e w = (Ok tt, w') /\
    events w' = events w ++ seg /\
    iteration env dir sc (has_ema w) e seg /\
    has_ema w' = has_ema w /\
    fs w' = (if is_main_process env
             then <[checkpoint_path dir e := state_dict e (model w') (ema_model w')]> (fs w)
             else fs w).
Proof.
  destruct (set_epoch_run e w) as (w0 & R0 & E0 & F0 & H0).
  destruct (train_one_epoch_run e (1 # 10)%Q 100 sc w0) as (w1 & steps & R & E & S & F & H).
  unfold fit_epoch, iteration.
  rewrite (bind_ok _ _ _ _ _ R0), (bind_ok _ _ _ _ _ R).
  unfold save_on_master, torch_save.
  pose proof (state_dict_checkpoint e w1) as C.
  rewrite H, H0 in C.
  destruct (is_main_process env); mrun.
  - eexists _, _. split; [reflexivity|]. split_and!.
    + evs. fold (events w1). rewrite E, E0, H0. rewrite <- !app_assoc. reflexivity.
    + eexists steps, _. split_and!; [reflexivity|done|exact C].
    + unfold has_ema in *. cbn. congruence.
    + cbn. congruence.
  - eexists _, _. split; [reflexivity|]. split_and!.
    + evs. fold (events w1). rewrite E, E0, H0. rewrite <- !app_assoc. reflexivity.
    + eexists steps, _. split_and!; [reflexivity|done|exact C].
    + unfold has_ema in *. cbn. congruence.
    + cbn. congruence.
Qed.

Lemma fit_loop_run dir sc (es : list Z) w :
  exists w' segs,
    for_ es (fit_epoch env dir sc) w = (Ok tt, w') /\
    events w' = events w ++ concat segs /\
    Forall2 (iteration env dir sc (has_ema w)) es segs /\
    has_ema w' = has_ema w /\
    (forall p, (forall e, e ∈ es -> p <> checkpoint_path dir e) -> fs w' !! p = fs w !! p).
Proof.
  revert w. induction es as [|e es IH]; intros w.
  - exists w, []. cbn. rewrite app_nil_r. split_and!; try done; constructor.
  - destruct (fit_epoch_run dir sc e w) as (w1 & seg & R1 & E1 & I1 & H1 & F1).
    destruct (IH w1) as (w2 & segs & R2 & E2 & I2 & H2 & F2).
    exists w2, (seg :: segs). cbn [for_ concat].
    rewrite (bind_ok _ _ _ _ _ R1), R2. split_and!; try done.
    + rewrite E2, E1, <- app_assoc. done.
    + constructor; [done|]. rewrite <- H1. done.
    + congruence.
    + intros p Hp. rewrite F2 by (intros e' He'; apply Hp; by right).
      rewrite F1. destruct (is_main_process env); [|done].
      rewrite lookup_insert_ne; [done|]. intros Heq. eapply Hp; [by left|done].
Qed.

Lemma fit_construct_run c t v ua ue w :
  exists w1,
    fit_construct env c t v ua ue w = (Ok ua, w1) /\
    events w1 = events w ++ construction_events c t v ua ue /\
    fs w1 = fs w /\ has_ema w1 = ue.
Proof.
  unfold fit_construct, bind_criterion, bind_train_dataloader, bind_val_dataloader,
    new_ModelEMA, construction_events, has_ema.
  destruct c, t, v, ua, ue; mrun; eexists; (split; [reflexivity|]); evs; done.
Qed.

Lemma fit_place_run ue w :
  exists w3,
    fit_place env ue w = (Ok tt, w3) /\
    events w3 = events w ++ placement_events env ue /\
    fs w3 = fs w /\ has_ema w3 = has_ema w.
Proof.
  unfold fit_place, model_to, ema_model_to, criterion_to, warp_loader, warp_model,
    placement_events, has_ema.
  destruct ue, (is_dist_available_and_initialized env); mrun;
    eexists; (split; [reflexivity|]); evs; (split_and!; try done);
    destruct (ema_model w); done.
Qed.

Lemma fit_resume_run wp w :
  exists r w2 loads,
    fit_resume wp w = (r, w2) /\
    events w2 = events w ++ loads /\
    forallb is_load_event loads = true /\
    fs w2 = fs w /\ has_ema w2 = has_ema w.
Proof.
  assert (H : emits load_frame is_load_event (fit_resume wp)).
  { destruct wp; [apply load_tuning_state_loads | apply emits_ret; apply _]. }
  destruct (emits_events _ _ _ w H) as (l & E & HP & F & HE & _).
  destruct (fit_resume wp w) as [r w2] eqn:Hr. exists r, w2, l. done.
Qed.

Lemma fit_resume_checkpoint p r m ema0 w :
  fs w !! p = Some (state_dict r m ema0) ->
  exists w2, fit_resume (Some p) w = (Ok r, w2).
Proof.
  destruct (state_dict_fields r m ema0) as (d & -> & Hm & He & Hema).
  intros Hf. unfold fit_resume, load_tuning_state, torch_load, read_file,
    model_load_state_dict.
  mrun. rewrite Hf. cbn. rewrite Hm. cbn. rewrite load_state_dict_tensors. cbn.
  rewrite Hema, He.
  destruct ema0 as [e0|], (ema_model w) as [e1|]; cbn;
    repeat (progress (rewrite ?lookup_insert_eq, ?load_state_dict_tensors, ?He; cbn));
    eexists; reflexivity.
Qed.

(** [fit] as a whole: the construction, the resume step, and, unless the
    resume step raised, the placement, the loop and the closing print. *)
Lemma fit_run wp dir c t v E ua ue w :
  exists r w2 loads,
    fit_resume wp (exec (fit_construct env c t v ua ue) w) = (r, w2) /\
    fs (exec (fit_construct env c t v ua ue) w) = fs w /\
    events w2 = events w ++ construction_events c t v ua ue ++ loads /\
    forallb is_load_event loads = true /\
    match r with
    | Raise x => fit env wp dir c t v E ua ue w = (Raise x, w2)
    | Ok last =>
        exists w' segs,
          fit env wp dir c t v E ua ue w = (Ok tt, w') /\
          events w' = events w2 ++ placement_events env ue ++ concat segs
                        ++ [EvPrint "Training time"] /\
          Forall2 (iteration env dir ua ue) (Py.range (last + 1) E) segs /\
          (forall p, (forall e, e ∈ Py.range (last + 1) E -> p <> checkpoint_path dir e) ->
                     fs w' !! p = fs w !! p)
    end.
Proof.
  destruct (fit_construct_run c t v ua ue w) as (w1 & R1 & E1 & F1 & H1).
  unfold exec. rewrite R1. cbn [snd].
  destruct (fit_resume_run wp w1) as (r & w2 & loads & R2 & E2 & L2 & F2 & H2).
  exists r, w2, loads. split_and!; try done.
  { rewrite E2, E1, <- app_assoc. done. }
  unfold fit. rewrite (bind_ok _ _ _ _ _ R1).
  destruct r as [last|x].
  - rewrite (bind_ok _ _ _ _ _ R2).
    destruct (fit_place_run ue w2) as (w3 & R3 & E3 & F3 & H3).
    rewrite (bind_ok _ _ _ _ _ R3).
    destruct (fit_loop_run dir ua (Py.range (last + 1) E) w3)
      as (w4 & segs & R4 & E4 & I4 & H4 & F4).
    rewrite (bind_ok _ _ _ _ _ R4).
    destruct (log_run (EvPrint "Training time") w4) as (w5 & R5 & E5 & F5 & H5).
    exists w5, segs. split_and!; try done.
    + rewrite E5, E4, E3, <- !app_assoc. done.
    + replace ue with (has_ema w3) by congruence. done.
    + intros p Hp. rewrite F5, (F4 p Hp). congruence.
  - apply (bind_raise _ _ _ _ _ R2).
Qed.
End Training.

(** ** Lists of calls *)

Lemma kinds_in_app ks l1 l2 :
  kinds_in ks (l1 ++ l2) = kinds_in ks l1 && kinds_in ks l2.
Proof. apply forallb_app. Qed.

Lemma kinds_in_not_elem ks l ev :
  kinds_in ks l = true -> kind ev ∉ ks -> ev ∉ l.
Proof.
  unfold kinds_in. rewrite forallb_forall. intros H Hk Hin.
  apply list_elem_of_In, H, bool_decide_eq_true_1 in Hin. done.
Qed.

Lemma kinds_in_mono ks ks' l :
  ks ⊆ ks' -> kinds_in ks l = true -> kinds_in ks' l = true.
Proof.
  unfold kinds_in. rewrite !forallb_forall. intros Hs H ev Hin.
  apply bool_decide_eq_true_2, Hs. eapply bool_decide_eq_true_1, H, Hin.
Qed.

Lemma kinds_in_weaken ks ks' l :
  kinds_in ks l = true ->
  forallb (fun k => bool_decide (k ∈ ks')) ks = true ->
  kinds_in ks' l = true.
Proof.
  intros H Hs. apply (kinds_in_mono ks); [|done].
  intros k Hk. rewrite forallb_forall in Hs.
  apply list_elem_of_In, Hs in Hk. by apply bool_decide_eq_true_1 in Hk.
Qed.

Lemma kinds_in_of (P : Event -> bool) ks l :
  (forall ev, P ev = true -> kind ev ∈ ks) ->
  forallb P l = true -> kinds_in ks l = true.
Proof.
  unfold kinds_in. rewrite !forallb_forall. intros HP H ev Hin.
  apply bool_decide_eq_true_2, HP, H, Hin.
Qed.

Lemma kinds_in_concat ks (ls : list (list Event)) :
  Forall (fun l => kinds_in ks l = true) ls -> kinds_in ks (concat ls) = true.
Proof.
  induction 1 as [|l ls Hl _ IH]; [done|]. cbn [concat]. rewrite kinds_in_app, Hl, IH. done.
Qed.

Lemma omap_none {A} (pick : Event -> option A) (P : Event -> bool) l :
  forallb P l = true ->
  (forall ev, P ev = true -> pick ev = None) ->
  omap pick l = [].
Proof.
  intros H Hp. induction l as [|ev l IH]; [done|].
  cbn in H. apply andb_true_iff in H as [H1 H2].
  cbn. rewrite (Hp ev H1). auto.
Qed.

Lemma omap_none_kinds {A} (pick : Event -> option A) ks l :
  kinds_in ks l = true ->
  (forall ev, kind ev ∈ ks -> pick ev = None) ->
  omap pick l = [].
Proof.
  intros H Hp. apply (omap_none _ _ _ H).
  intros ev Hev. apply Hp. by apply bool_decide_eq_true_1 in Hev.
Qed.

(** ** [range] *)

Lemma range_nil a b : b <= a -> Py.range a b = [].
Proof. intros H. unfold Py.range. replace (Z.to_nat (b - a)) with 0%nat by lia. done. Qed.

Lemma range_cons a b : a < b -> Py.range a b = a :: Py.range (a + 1) b.
Proof.
  intros H. unfold Py.range.
  replace (Z.to_nat (b - a)) with (S (Z.to_nat (b - (a + 1)))) by lia.
  cbn [seq fmap list_fmap]. f_equal; [lia|].
  rewrite <- seq_shift, <- list_fmap_compose.
  apply list_fmap_ext. intros _ i _. cbn. lia.
Qed.

Lemma elem_of_range e a b : e ∈ Py.range a b <-> a <= e < b.
Proof.
  unfold Py.range. rewrite list_elem_of_fmap. split.
  - intros (i & -> & Hi). apply elem_of_seq in Hi. lia.
  - intros H. exists (Z.to_nat (e - a)). split; [lia|]. apply elem_of_seq. lia.
Qed.

Lemma last_range a b d : a < b -> List.last (Py.range a b) d = b - 1.
Proof.
  intros H. unfold Py.range.
  replace (Z.to_nat (b - a)) with (S (Z.to_nat (b - a - 1))) by lia.
  rewrite seq_S, fmap_app. cbn. rewrite last_last. lia.
Qed.

Lemma range_NoDup a b : NoDup (Py.range a b).
Proof.
  unfold Py.range. apply NoDup_fmap_2; [|apply NoDup_seq].
  intros i j H. lia.
Qed.

Lemma last_range_Some a b : a < b -> last (Py.range a b) = Some (b - 1).
Proof.
  intros H. unfold Py.range.
  replace (Z.to_nat (b - a)) with (S (Z.to_nat (b - a - 1))) by lia.
  rewrite seq_S, fmap_app. cbn. rewrite last_snoc. f_equal. lia.
Qed.

(** ** Checkpoint names *)

Lemma to_int_not_nil z : Z.to_int z <> Decimal.Pos Decimal.Nil /\ Z.to_int z <> Decimal.Neg Decimal.Nil.
Proof.
  destruct z as [|p|p]; cbn; split; try discriminate;
    intros [= H]; by apply DecimalPos.Unsigned.to_uint_nonnil in H.
Qed.

Lemma str_inj e e' : Py.str e = Py.str e' -> e = e'.
Proof.
  unfold Py.str. intros H. apply DecimalZ.to_int_inj.
  destruct (to_int_not_nil e), (to_int_not_nil e').
  assert (Some (Z.to_int e) = Some (Z.to_int e')) as [= ->]; [|done].
  rewrite <- !NilZero.isi by done. by rewrite H.
Qed.

Lemma str_first e : exists c s, Py.str e = String c s /\ c <> "/"%char.
Proof.
  unfold Py.str, NilZero.string_of_int, NilZero.string_of_uint.
  destruct (Z.to_int e) as [d|d]; destruct d; cbn; eexists _, _; (split; [reflexivity|done]).
Qed.

Lemma string_app_cons c s t : String c s +:+ t = String c (s +:+ t).
Proof. reflexivity. Qed.

Lemma string_app_length s t :
  String.length (s +:+ t) = (String.length s + String.length t)%nat.
Proof.
  induction s as [|c s IH]; [done|].
  rewrite string_app_cons. cbn. by rewrite IH.
Qed.

Lemma string_app_assoc s t u : (s +:+ t) +:+ u = s +:+ t +:+ u.
Proof.
  induction s as [|c s IH]; [done|].
  rewrite !string_app_cons. by rewrite IH.
Qed.

Lemma app_string_inv_tail s1 s2 t : s1 +:+ t = s2 +:+ t -> s1 = s2.
Proof.
  intros H.
  assert (L : String.length s1 = String.length s2).
  { apply (f_equal String.length) in H. rewrite !string_app_length in H. lia. }
  revert s2 H L. induction s1 as [|c s1 IH]; intros [|c' s2] H L; try done.
  rewrite !string_app_cons in H. cbn in L. injection H as -> H.
  f_equal. apply IH; [done | lia].
Qed.

Lemma prefix_slash c s : c <> "/"%char -> String.prefix "/" (String c s) = false.
Proof.
  intros H. cbn [String.prefix]. destruct (ascii_dec "/" c); [congruence | done].
Qed.

Lemma checkpoint_path_app dir :
  exists pre, forall e, checkpoint_path dir e = pre +:+ Py.str e +:+ ".pth".
Proof.
  unfold checkpoint_path, Py.path_join.
  exists (if String.eqb dir "" || Py.endswith_char "/" dir then dir else dir +:+ "/").
  intros e. destruct (str_first e) as (c & s & -> & Hc).
  rewrite string_app_cons, prefix_slash by done.
  destruct (String.eqb dir "" || Py.endswith_char "/" dir); [done|].
  by rewrite string_app_assoc.
Qed.

Lemma checkpoint_path_inj dir e e' :
  checkpoint_path dir e = checkpoint_path dir e' -> e = e'.
Proof.
  destruct (checkpoint_path_app dir) as (pre & H). rewrite !H.
  intros Heq. apply String.app_inj in Heq.
  by apply app_string_inv_tail, str_inj in Heq.
Qed.

Lemma checkpoint_path_prefix dir e :
  checkpoint_path dir e = save_dir_prefix dir +:+ Py.str e +:+ ".pth".
Proof.
  unfold checkpoint_path, Py.path_join, save_dir_prefix.
  destruct (str_first e) as (ch & s & -> & Hc).
  rewrite string_app_cons, prefix_slash by done.
  destruct (String.eqb dir "" || Py.endswith_char "/" dir); [done|].
  by rewrite string_app_assoc.
Qed.

(** ** What the loop of [fit] persists *)

Section Saved.
Variable env : Env.

Local Opaque checkpoint_path state_dict.

Lemma fit_epoch_saved dir sc e w :
  exists w' seg,
    fit_epoch env dir sc e w = (Ok tt, w') /\
    events w' = events w ++ seg /\
    epoch_segment env dir sc (has_ema w) e (state_dict e (model w') (ema_model w')) seg /\
    has_ema w' = has_ema w /\
    fs w' = (if is_main_process env
             then <[checkpoint_path dir e := state_dict e (model w') (ema_model w')]> (fs w)
             else fs w).
Proof.
  destruct (set_epoch_run env e w) as (w0 & R0 & E0 & F0 & H0).
  destruct (train_one_epoch_run env e (1 # 10)%Q 100 sc w0)
    as (w1 & steps & R & E & S & F & H).
  unfold fit_epoch, epoch_segment. cbn zeta.
  rewrite (bind_ok _ _ _ _ _ R0), (bind_ok _ _ _ _ _ R).
  unfold save_on_master, torch_save.
  pose proof (state_dict_checkpoint e w1) as C.
  rewrite H, H0 in C. rewrite <- checkpoint_path_prefix.
  destruct (is_main_process env); mrun.
  - eexists _, _. split; [reflexivity|]. split_and!.
    + evs. fold (events w1). rewrite E, E0, H0. rewrite <- !app_assoc. reflexivity.
    + exists steps. split_and!; [reflexivity|done|exact C].
    + unfold has_ema in *. cbn. congruence.
    + cbn. congruence.
  - eexists _, _. split; [reflexivity|]. split_and!.
    + evs. fold (events w1). rewrite E, E0, H0. rewrite <- !app_assoc. reflexivity.
    + exists steps. split_and!; [reflexivity|done|exact C].
    + unfold has_ema in *. cbn. congruence.
    + cbn. congruence.
Qed.

Lemma fit_loop_saved dir sc (es : list Z) w :
  NoDup es ->
  exists w' (segs : list (PyVal * list Event)),
    for_ es (fit_epoch env dir sc) w = (Ok tt, w') /\
    events w' = events w ++ concat segs.*2 /\
    Forall2 (fun e s =>
               epoch_segment env dir sc (has_ema w) e s.1 s.2 /\
               (is_main_process env = true ->
                fs w' !! checkpoint_path dir e = Some s.1)) es segs /\
    (forall e, last es = Some e ->
       exists seg, last segs = Some (state_dict e (model w') (ema_model w'), seg)).
Proof.
  revert w. induction es as [|e es IH]; intros w Hnd.
  - exists w, []. cbn. rewrite app_nil_r. split_and!; done.
  - apply NoDup_cons in Hnd as [Hnotin Hnd].
    destruct (fit_epoch_saved dir sc e w) as (w1 & seg & R1 & E1 & I1 & H1 & F1).
    destruct (IH w1 Hnd) as (w2 & segs & R2 & E2 & I2 & L2).
    destruct (fit_loop_run env dir sc es w1) as (w2' & segs' & R2' & _ & _ & _ & Fr).
    rewrite R2 in R2'. injection R2' as <-.
    exists w2, ((state_dict e (model w1) (ema_model w1), seg) :: segs).
    cbn [for_ concat fmap list_fmap fst snd].
    rewrite (bind_ok _ _ _ _ _ R1), R2. split_and!; try done.
    + rewrite E2, E1, <- app_assoc. done.
    + constructor.
      * split; [done|]. intros Hmain. cbn [fst]. rewrite Fr, F1, Hmain.
        -- apply lookup_insert_eq.
        -- intros e' He' Heq. apply checkpoint_path_inj in Heq as <-. done.
      * rewrite <- H1. done.
    + intros e0. rewrite !last_cons. destruct (last es) as [e1|] eqn:Hl.
      * intros [= <-]. destruct (L2 e1 eq_refl) as (seg' & ->). by exists seg'.
      * intros [= <-]. apply last_None in Hl. subst es.
        apply Forall2_nil_inv_l in I2. subst segs.
        cbn in R2. injection R2 as <-. by exists seg.
Qed.

(** [fit] once its resume step has returned: the placement, the loop and
    the closing print. *)
Lemma fit_run_saved wp dir c t v E ua ue w r w2 :
  fit_resume wp (exec (fit_construct env c t v ua ue) w) = (Ok r, w2) ->
  exists w' (segs : list (PyVal * list Event)),
    fit env wp dir c t v E ua ue w = (Ok tt, w') /\
    events w' = events w2 ++ placement_events env ue ++ concat segs.*2
                  ++ [EvPrint "Training time"] /\
    Forall2 (fun e s =>
               epoch_segment env dir ua ue e s.1 s.2 /\
               (is_main_process env = true ->
                fs w' !! checkpoint_path dir e = Some s.1))
            (Py.range (r + 1) E) segs /\
    (forall e, last (Py.range (r + 1) E) = Some e ->
       exists seg, last segs = Some (state_dict e (model w') (ema_model w'), seg)).
Proof.
  intros R2.
  destruct (fit_construct_run env c t v ua ue w) as (w1 & R1 & E1 & F1 & H1).
  unfold exec in R2. rewrite R1 in R2. cbn [snd] in R2.
  destruct (fit_resume_run wp w1) as (r' & w2' & loads & R2' & E2 & L2 & F2 & H2).
  rewrite R2 in R2'. injection R2' as <- <-.
  destruct (fit_place_run env ue w2) as (w3 & R3 & E3 & F3 & H3).
  destruct (fit_loop_saved dir ua (Py.range (r + 1) E) w3 (range_NoDup _ _))
    as (w4 & segs & R4 & E4 & I4 & L4).
  destruct (log_run (EvPrint "Training time") w4) as (w5 & R5 & E5 & F5 & H5).
  assert (M5 : model w5 = model w4 /\ ema_model w5 = ema_model w4).
  { revert R5. unfold log. mrun. by intros [= <-]. }
  destruct M5 as [M5 M5'].
  exists w5, segs. split_and!.
  - unfold fit. by rewrite (bind_ok _ _ _ _ _ R1), (bind_ok _ _ _ _ _ R2),
      (bind_ok _ _ _ _ _ R3), (bind_ok _ _ _ _ _ R4).
  - rewrite E5, E4, E3, <- !app_assoc. done.
  - replace ue with (has_ema w3) by congruence. rewrite F5. done.
  - rewrite M5, M5'. done.
Qed.
End Saved.

(** ** What the loop of [fit] leaves in the trace *)

Section FitFacts.
Variable env : Env.

Lemma load_events_kinds l : forallb is_load_event l = true -> kinds_in [KLoad] l = true.
Proof.
  apply kinds_in_of. intros ev H. destruct ev; try discriminate; cbn; by left.
Qed.

Lemma steps_kinds e l : forallb (is_step_of e) l = true -> kinds_in [KLoop] l = true.
Proof.
  apply kinds_in_of. intros ev H. destruct ev; try discriminate; cbn; by left.
Qed.

Lemma construction_kinds c t v ua ue :
  kinds_in [KConstruct] (construction_events c t v ua ue) = true.
Proof. by destruct c, t, v, ua, ue. Qed.

Lemma placement_kinds ue :
  kinds_in [KPlace; KWrap; KPrint] (placement_events env ue) = true.
Proof.
  unfold placement_events. by destruct ue, (is_dist_available_and_initialized env).
Qed.

Lemma iteration_kinds dir sc ema e seg :
  iteration env dir sc ema e seg -> kinds_in [KLoop] seg = true.
Proof.
  intros (steps & obj & -> & S & _).
  rewrite !kinds_in_app, (steps_kinds _ _ S).
  by destruct (is_dist_available_and_initialized env), (is_main_process env).
Qed.

Lemma iteration_files dir sc ema e seg :
  iteration env dir sc ema e seg ->
  files_written seg =
    if is_main_process env then [(checkpoint_path dir e, Some e)] else [].
Proof.
  intros (steps & obj & -> & S & (d & mw & -> & He & _)).
  unfold files_written. rewrite !omap_app.
  rewrite (omap_none _ _ steps S) by (by intros []).
  destruct (is_dist_available_and_initialized env), (is_main_process env);
    cbn; rewrite ?He; done.
Qed.

Lemma iteration_epochs dir sc ema e seg :
  iteration env dir sc ema e seg -> epochs_trained seg = [e].
Proof.
  intros (steps & obj & -> & S & _).
  unfold epochs_trained. rewrite !omap_app.
  rewrite (omap_none _ _ steps S) by (by intros []).
  by destruct (is_dist_available_and_initialized env), (is_main_process env).
Qed.

Lemma loop_kinds dir sc ema es segs :
  Forall2 (iteration env dir sc ema) es segs -> kinds_in [KLoop] (concat segs) = true.
Proof.
  intros H. apply kinds_in_concat. induction H; constructor; eauto using iteration_kinds.
Qed.

Lemma loop_files dir sc ema es segs :
  Forall2 (iteration env dir sc ema) es segs ->
  files_written (concat segs) =
    if is_main_process env
    then (fun e => (checkpoint_path dir e, Some e)) <$> es else [].
Proof.
  induction 1 as [|e seg es segs I _ IH]; cbn [concat].
  - by destruct (is_main_process env).
  - unfold files_written in *. rewrite omap_app, IH.
    fold (files_written seg). rewrite (iteration_files _ _ _ _ _ I).
    by destruct (is_main_process env).
Qed.

Lemma loop_epochs dir sc ema es segs :
  Forall2 (iteration env dir sc ema) es segs -> epochs_trained (concat segs) = es.
Proof.
  induction 1 as [|e seg es segs I _ IH]; cbn [concat]; [done|].
  unfold epochs_trained in *. rewrite omap_app, IH.
  fold (epochs_trained seg). by rewrite (iteration_epochs _ _ _ _ _ I).
Qed.

(** The calls of a whole run of [fit]. *)
Lemma fit_new_events wp dir c t v E ua ue w :
  exists r w2 loads,
    fit_resume wp (exec (fit_construct env c t v ua ue) w) = (r, w2) /\
    fs (exec (fit_construct env c t v ua ue) w) = fs w /\
    forallb is_load_event loads = true /\
    match r with
    | Raise x =>
        result (fit env wp dir c t v E ua ue) w = Raise x /\
        new_events w (exec (fit env wp dir c t v E ua ue) w) =
          construction_events c t v ua ue ++ loads
    | Ok last =>
        exists segs,
          result (fit env wp dir c t v E ua ue) w = Ok tt /\
          new_events w (exec (fit env wp dir c t v E ua ue) w) =
            construction_events c t v ua ue ++ loads ++ placement_events env ue
              ++ concat segs ++ [EvPrint "Training time"] /\
          Forall2 (iteration env dir ua ue) (Py.range (last + 1) E) segs /\
          (forall p,
             (forall e, e ∈ Py.range (last + 1) E -> p <> checkpoint_path dir e) ->
             fs (exec (fit env wp dir c t v E ua ue) w) !! p = fs w !! p)
    end.
Proof.
  destruct (fit_run env wp dir c t v E ua ue w) as (r & w2 & loads & R & F & Ev & L & H).
  exists r, w2, loads. split_and!; try done.
  unfold exec, result. destruct r as [last|x].
  - destruct H as (w' & segs & -> & Ev' & I & Fr). exists segs. cbn [fst snd].
    split_and!; try done. apply new_events_app. rewrite Ev', Ev, <- !app_assoc. done.
  - rewrite H. cbn [fst snd]. split; [done|]. by apply new_events_app.
Qed.
End FitFacts.

(** ** Ordering *)

Lemma scan_after_sound A B l : scan_after A B l = true -> all_after A B l.
Proof.
  induction l as [|x l IH]; intros H l1 ev l2 Heq Hev.
  - by destruct l1.
  - cbn in H. destruct l1 as [|y l1]; cbn in Heq; injection Heq as -> ->.
    + by rewrite Hev in H.
    + destruct (B y); [done|]. destruct (A y) eqn:Ay.
      * exists y. split; [by left | done].
      * destruct (IH H l1 ev l2 eq_refl Hev) as (a & Ha & Aa).
        exists a. split; [by right | done].
Qed.

Lemma scan_after_skip A B pre rest :
  forallb (fun ev => negb (B ev)) pre = true ->
  scan_after A B rest = true -> scan_after A B (pre ++ rest) = true.
Proof.
  intros Hp Hr. induction pre as [|x pre IH]; [done|].
  cbn in *. apply andb_true_iff in Hp as [Hx Hp].
  destruct (B x); [done|]. destruct (A x); auto.
Qed.

Lemma scan_after_found A B l rest :
  scan_after A B l = true -> existsb A l = true ->
  scan_after A B (l ++ rest) = true.
Proof.
  induction l as [|x l IH]; [done|]. cbn.
  destruct (B x); [done|]. destruct (A x); auto.
Qed.

Lemma scan_after_none A B l :
  forallb (fun ev => negb (B ev)) l = true -> scan_after A B l = true.
Proof.
  intros H. rewrite <- (app_nil_r l). by apply scan_after_skip.
Qed.

Lemma filter_none (P Q : Event -> bool) l :
  forallb P l = true -> (forall ev, P ev = true -> Q ev = false) ->
  List.filter Q l = [].
Proof.
  intros H HPQ. induction l as [|ev l IH]; [done|].
  cbn in *. apply andb_true_iff in H as [H1 H2]. rewrite (HPQ _ H1). auto.
Qed.

Lemma kinds_not (Q : Event -> bool) ks l :
  kinds_in ks l = true -> (forall ev, kind ev ∈ ks -> Q ev = false) ->
  forallb (fun ev => negb (Q ev)) l = true.
Proof.
  unfold kinds_in. rewrite !forallb_forall. intros H HQ ev Hin.
  specialize (H ev Hin). apply bool_decide_eq_true_1 in H. by rewrite (HQ ev H).
Qed.

Ltac by_kind :=
  let ev := fresh "ev" in
  let Hk := fresh "Hk" in
  intros ev Hk; destruct ev; try reflexivity;
  exfalso; cbn in Hk;
  repeat (apply elem_of_cons in Hk as [Hk|Hk]; [discriminate Hk|]);
  by apply elem_of_nil in Hk.

Ltac kinds :=
  rewrite ?kinds_in_app;
  repeat (match goal with |- _ && _ = true => apply andb_true_intro; split end);
  first [ eapply kinds_in_weaken; [eassumption | reflexivity] | done ].

(** * The training orchestrator *)

Section Fit.
Variable env : Env.

(** The files of a run that got as far as its loop. *)
Lemma files_written_run dir c t v ua ue loads es segs :
  forallb is_load_event loads = true ->
  Forall2 (iteration env dir ua ue) es segs ->
  files_written (construction_events c t v ua ue ++ loads ++ placement_events env ue
                   ++ concat segs ++ [EvPrint "Training time"]) =
    if is_main_process env
    then (fun e => (checkpoint_path dir e, Some e)) <$> es else [].
Proof.
  intros L I. unfold files_written. rewrite !omap_app. fold (files_written (concat segs)).
  rewrite (omap_none_kinds _ _ _ (construction_kinds c t v ua ue)) by by_kind.
  rewrite (omap_none _ _ _ L) by (by intros []).
  rewrite (omap_none_kinds _ _ _ (placement_kinds env ue)) by by_kind.
  rewrite (loop_files _ _ _ _ _ _ I). cbn. by rewrite app_nil_r.
Qed.

Lemma epochs_trained_run dir c t v ua ue loads es segs :
  forallb is_load_event loads = true ->
  Forall2 (iteration env dir ua ue) es segs ->
  epochs_trained (construction_events c t v ua ue ++ loads ++ placement_events env ue
                    ++ concat segs ++ [EvPrint "Training time"]) = es.
Proof.
  intros L I. unfold epochs_trained. rewrite !omap_app. fold (epochs_trained (concat segs)).
  rewrite (omap_none_kinds _ _ _ (construction_kinds c t v ua ue)) by by_kind.
  rewrite (omap_none _ _ _ L) by (by intros []).
  rewrite (omap_none_kinds _ _ _ (placement_kinds env ue)) by by_kind.
  rewrite (loop_epochs _ _ _ _ _ _ I). cbn. by rewrite app_nil_r.
Qed.

(** C1 (as the code has it).  A fresh run of [fit] with target epoch count
    3, EMA and mixed precision off, runs [range(1, 3)]: the coordinating
    process writes [1.pth] and [2.pth], with epoch fields 1 and 2, and no
    process touches [3.pth]. *)
Theorem fit_fresh_target_3_writes_two dir c t v w :
  let w' := exec (fit env None dir c t v 3 false false) w in
  files_written (new_events w w') =
    (if is_main_process env
     then [(checkpoint_path dir 1, Some 1); (checkpoint_path dir 2, Some 2)]
     else []) /\
  fs w' !! checkpoint_path dir 3 = fs w !! checkpoint_path dir 3.
Proof.
  cbn zeta.
  destruct (fit_new_events env None dir c t v 3 false false w)
    as (r & w2 & loads & R & _ & L & H).
  cbn in R. injection R as <- _.
  destruct H as (segs & _ & -> & I & Fr). split.
  - by rewrite (files_written_run _ _ _ _ _ _ _ _ _ L I).
  - apply Fr. intros e He Heq. apply checkpoint_path_inj in Heq as <-.
    apply elem_of_range in He. lia.
Qed.

(** C2 (amended).  A run of [fit] resumed from the checkpoint saved at
    epoch 2, with target epoch count 4, starts its loop at epoch 3: on the
    coordinating process the first checkpoint file written is [3.pth],
    with epoch field 3, and no checkpoint file of an epoch up to 2 is
    written. *)
Theorem fit_resumed_from_2_target_4 dir c t v ua ue w p m ema0 :
  is_main_process env = true ->
  fs w !! p = Some (state_dict 2 m ema0) ->
  let new := new_events w (exec (fit env (Some p) dir c t v 4 ua ue) w) in
  hd_error (epochs_trained new) = Some 3 /\
  hd_error (files_written new) = Some (checkpoint_path dir 3, Some 3) /\
  (forall e, e <= 2 -> checkpoint_path dir e ∉ (files_written new).*1).
Proof.
  intros Hmain Hf. cbn zeta.
  destruct (fit_new_events env (Some p) dir c t v 4 ua ue w)
    as (r & w2 & loads & R & F & L & H).
  rewrite <- F in Hf. destruct (fit_resume_checkpoint _ _ _ _ _ Hf) as (w2' & R').
  rewrite R' in R. injection R as <- _.
  destruct H as (segs & _ & -> & I & _).
  rewrite (files_written_run _ _ _ _ _ _ _ _ _ L I), (epochs_trained_run _ _ _ _ _ _ _ _ _ L I).
  rewrite Hmain. split_and!; try done.
  intros e He Hin. cbn in Hin. apply list_elem_of_singleton in Hin.
  apply checkpoint_path_inj in Hin. lia.
Qed.

(** C3.  A run resumed from the checkpoint saved at epoch [r] and run to
    target [E], with [0 <= r < E], ends on the same last completed epoch as
    a run from scratch to [E]; its loop runs the epochs [r + 1], [r + 2],
    ... in order; and it writes no checkpoint file of an epoch up to [r]:
    those files are left as they were. *)
Theorem fit_resume_same_final_epoch dir c t v ua ue w p m ema0
    c0 t0 v0 ua0 ue0 w0 E r :
  0 <= r < E ->
  fs w !! p = Some (state_dict r m ema0) ->
  let resumed := exec (fit env (Some p) dir c t v E ua ue) w in
  let scratch := exec (fit env None dir c0 t0 v0 E ua0 ue0) w0 in
  final_epoch r (new_events w resumed) = final_epoch 0 (new_events w0 scratch) /\
  epochs_trained (new_events w resumed) = Py.range (r + 1) E /\
  (forall e, e <= r ->
     (checkpoint_path dir e ∉ (files_written (new_events w resumed)).*1) /\
     fs resumed !! checkpoint_path dir e = fs w !! checkpoint_path dir e).
Proof.
  intros Hr Hf. cbn zeta.
  destruct (fit_new_events env (Some p) dir c t v E ua ue w)
    as (r1 & w2 & loads & R & F & L & H).
  rewrite <- F in Hf. destruct (fit_resume_checkpoint _ _ _ _ _ Hf) as (w2' & R').
  rewrite R' in R. injection R as <- _.
  destruct H as (segs & _ & -> & I & Fr).
  destruct (fit_new_events env None dir c0 t0 v0 E ua0 ue0 w0)
    as (r0 & w3 & loads0 & R0 & _ & L0 & H0).
  cbn in R0. injection R0 as <- _.
  destruct H0 as (segs0 & _ & -> & I0 & _).
  unfold final_epoch.
  rewrite (files_written_run _ _ _ _ _ _ _ _ _ L I), !(epochs_trained_run _ _ _ _ _ _ _ _ _ L I),
    (epochs_trained_run _ _ _ _ _ _ _ _ _ L0 I0).
  split_and!; try done.
  - destruct (decide (r + 1 < E)) as [Hlt|Hge].
    + rewrite !last_range by lia. done.
    + rewrite (range_nil (r + 1) E) by lia. cbn [List.last].
      destruct (decide (1 < E)); [rewrite last_range by lia | rewrite range_nil by lia; cbn];
        lia.
  - intros e He. split.
    + destruct (is_main_process env); [|by apply not_elem_of_nil].
      rewrite <- list_fmap_compose. intros Hin.
      apply list_elem_of_fmap in Hin as (e' & Heq & Hin). cbn in Heq.
      apply checkpoint_path_inj in Heq as <-. apply elem_of_range in Hin. lia.
    + apply Fr. intros e' Hin Heq. apply checkpoint_path_inj in Heq as <-.
      apply elem_of_range in Hin. lia.
Qed.

(** C4.  In a run of [fit] that reaches its loop, the calls of the loop
    are, for each epoch of [range(last_epoch + 1, epoch)] in turn: the
    epoch handed to the sampler of the train data provider (only in
    distributed mode), the pass of the epoch trainer with clipping norm
    0.1, within it the optimizer steps of that epoch, then one step of
    the learning-rate schedule, then the rank-gated write of a checkpoint
    holding the epoch number, the model weights and (exactly when EMA is
    on) the EMA weights, to the file named [save_dir], a separating [/]
    (unless [save_dir] is empty or ends in one), the decimal epoch number
    and [.pth].  On the coordinating process that file holds that very
    checkpoint when [fit] returns, and the checkpoint of the last epoch
    holds the weights the model and the EMA shadow end the run with. *)
Theorem fit_iteration_order wp dir c t v E ua ue w :
  result (fit env wp dir c t v E ua ue) w = Ok tt ->
  let w' := exec (fit env wp dir c t v E ua ue) w in
  exists last_epoch before (segs : list (PyVal * list Event)),
    result (fit_resume wp) (exec (fit_construct env c t v ua ue) w) = Ok last_epoch /\
    new_events w w' = before ++ concat segs.*2 ++ [EvPrint "Training time"] /\
    kinds_in [KConstruct; KLoad; KPlace; KWrap; KPrint] before = true /\
    Forall2 (fun e s =>
               epoch_segment env dir ua ue e s.1 s.2 /\
               (is_main_process env = true ->
                fs w' !! (save_dir_prefix dir +:+ Py.str e +:+ ".pth") = Some s.1))
            (Py.range (last_epoch + 1) E) segs /\
    (last_epoch + 1 < E ->
     exists seg,
       last segs = Some (state_dict (E - 1) (model w') (ema_model w'), seg)).
Proof.
  intros Hok. cbn zeta.
  destruct (fit_run env wp dir c t v E ua ue w) as (r & w2 & loads & R & _ & Ev & L & H).
  destruct r as [r|x]; [|unfold result in Hok; rewrite H in Hok; discriminate Hok].
  clear H.
  destruct (fit_run_saved env wp dir c t v E ua ue w r w2 R) as (w' & segs & Rf & Ev' & I & Hl).
  exists r, (construction_events c t v ua ue ++ loads ++ placement_events env ue), segs.
  unfold result. rewrite R. unfold exec. rewrite Rf. cbn [fst snd]. split_and!; try done.
  - apply new_events_app. rewrite Ev', Ev, <- !app_assoc. done.
  - pose proof (construction_kinds c t v ua ue).
    pose proof (load_events_kinds _ L).
    pose proof (placement_kinds env ue).
    kinds.
  - eapply Forall2_impl; [exact I|]. intros e s [Hs Hf]. split; [done|].
    by rewrite <- checkpoint_path_prefix.
  - intros Hlt. apply Hl, last_range_Some. lia.
Qed.

(** C5.  Every call of [fit] builds a gradient scaler exactly when
    [use_amp] is set, an EMA shadow with decay 0.9999 and 2000 warmup
    steps exactly when [use_ema] is set, and one step-wise learning-rate
    schedule that multiplies the rate by 0.1 at step 1000. *)
Theorem fit_constructs wp dir c t v E ua ue w :
  let new := new_events w (exec (fit env wp dir c t v E ua ue) w) in
  scalers_built new = (if ua then [tt] else []) /\
  emas_built new = (if ue then [((9999 # 10000)%Q, 2000)] else []) /\
  schedules_built new = [([1000], (1 # 10)%Q)].
Proof.
  cbn zeta.
  destruct (fit_new_events env wp dir c t v E ua ue w)
    as (r & w2 & loads & R & _ & L & H).
  assert (T : exists tail,
    new_events w (exec (fit env wp dir c t v E ua ue) w) =
      construction_events c t v ua ue ++ tail /\
    kinds_in [KLoad; KPlace; KWrap; KPrint; KLoop] tail = true).
  { destruct r as [last|x].
    - destruct H as (segs & _ & -> & I & _). eexists. split; [reflexivity|].
      pose proof (load_events_kinds _ L).
      pose proof (placement_kinds env ue).
      pose proof (loop_kinds _ _ _ _ _ _ I).
      kinds.
    - destruct H as (_ & ->). eexists. split; [reflexivity|].
      pose proof (load_events_kinds _ L).
      kinds. }
  destruct T as (tail & -> & K).
  unfold scalers_built, emas_built, schedules_built. rewrite !omap_app.
  rewrite !(omap_none_kinds _ _ _ K) by by_kind. rewrite !app_nil_r.
  by destruct c, t, v, ua, ue.
Qed.

(** C6.  A call of [fit] in distributed mode that gets past its resume
    step wraps the two data providers and the model; outside distributed
    mode nothing is wrapped; and no wrapping ever comes before the model
    has been moved onto its device. *)
Theorem fit_wraps_after_placement wp dir c t v E ua ue w :
  let new := new_events w (exec (fit env wp dir c t v E ua ue) w) in
  (result (fit env wp dir c t v E ua ue) w = Ok tt ->
   is_dist_available_and_initialized env = true ->
   wraps new = [EvWarpLoader Train; EvWarpLoader Val; EvWarpModel false true]) /\
  (is_dist_available_and_initialized env = false -> wraps new = []) /\
  all_after (is_model_to (torch_device env)) is_wrap_event new.
Proof.
  cbn zeta.
  destruct (fit_new_events env wp dir c t v E ua ue w)
    as (r & w2 & loads & R & _ & L & H).
  pose proof (construction_kinds c t v ua ue) as KC.
  pose proof (load_events_kinds _ L) as KL.
  assert (WC : wraps (construction_events c t v ua ue) = []).
  { apply (filter_none _ _ _ KC). intros ev Hk. apply bool_decide_eq_true_1 in Hk.
    revert ev Hk. by_kind. }
  assert (WL : wraps loads = []).
  { apply (filter_none _ _ _ L). by intros []. }
  destruct r as [last|x].
  - destruct H as (segs & Hok & -> & I & _).
    pose proof (loop_kinds _ _ _ _ _ _ I) as KS.
    assert (WS : wraps (concat segs) = []).
    { apply (filter_none _ _ _ KS). intros ev Hk. apply bool_decide_eq_true_1 in Hk.
      revert ev Hk. by_kind. }
    unfold wraps in *. rewrite !List.filter_app, WC, WL, WS.
    split_and!.
    + intros _ Hd. unfold placement_events. rewrite Hd. by destruct ue.
    + intros Hd. unfold placement_events. rewrite Hd. by destruct ue.
    + apply scan_after_sound.
      apply scan_after_skip; [apply (kinds_not _ _ _ KC); by_kind|].
      apply scan_after_skip; [apply (kinds_not _ _ _ KL); by_kind|].
      apply scan_after_found.
      * unfold placement_events, torch_device.
        by destruct ue, (is_dist_available_and_initialized env), (cuda_available env).
      * unfold placement_events, torch_device.
        by destruct ue, (is_dist_available_and_initialized env), (cuda_available env).
  - destruct H as (Hr & ->).
    unfold wraps in *. rewrite !List.filter_app, WC, WL.
    split_and!; try done.
    + intros Hok. congruence.
    + apply scan_after_sound, scan_after_none.
      rewrite forallb_app.
      rewrite (kinds_not _ _ _ KC) by by_kind. rewrite (kinds_not _ _ _ KL) by by_kind.
      done.
Qed.
End Fit.

(** * The evaluation pipeline *)

Lemma add_ids_nil c : add_ids [] c = c.
Proof. destruct c. unfold add_ids. cbn. f_equal. apply union_empty_r_L. Qed.

Lemma add_ids_app a b c : add_ids b (add_ids a c) = add_ids (a ++ b) c.
Proof. unfold add_ids. cbn. f_equal. by rewrite list_to_set_app_L, (assoc_L (∪)). Qed.

Lemma imap_pair_snd {A} (f : nat -> nat) (l : list A) :
  (imap (fun i x => (f i, x)) l).*2 = l.
Proof.
  revert f. induction l as [|x l IH]; intros f; [done|].
  cbn. f_equal. apply (IH (f ∘ S)).
Qed.

Section Val.
Variable env : Env.

Lemma val_prepare_run c v w :
  exists w1,
    val_prepare env c v w = (Ok (iou_types env), w1) /\
    events w1 = events w ++ preparation_events env c v /\
    fs w1 = fs w /\
    params (model w1) = params (model w) /\
    val_dataloader w1 = chosen_val_dataloader env v /\
    coco_evaluator w1 = Some
      {| ce_iou_types := iou_types env; img_ids := ∅; synchronized := false;
         accumulated := false; summarized := false |}.
Proof.
  unfold val_prepare, bind_criterion, bind_val_dataloader, new_CocoEvaluator,
    preparation_events.
  destruct c, v; mrun; eexists; (split; [reflexivity|]); evs; done.
Qed.

(** One batch: a batch without targets raises once the forward pass is
    through; any other batch goes into the metric accumulator. *)
Lemma val_batch_run b w :
  exists r w' evs,
    val_batch b w = (r, w') /\
    events w' = events w ++ evs /\
    forallb is_batch_event evs = true /\
    fs w' = fs w /\ params (model w') = params (model w) /\
    val_dataloader w' = val_dataloader w /\
    match b.2 with
    | [] => r = Raise (Py.RuntimeError "stack expects a non-empty TensorList") /\
            evs = [EvForward b.1]
    | _ :: _ => r = Ok tt /\
                (forall c, coco_evaluator w = Some c ->
                   evs = [EvForward b.1; EvPostprocess b.1;
                          EvEvaluatorUpdate (res_keys b.2)]) /\
                coco_evaluator w' = add_ids (res_keys b.2) <$> coco_evaluator w
    end.
Proof.
  destruct b as [i [|x ids]];
    unfold val_batch, torch_stack, coco_evaluator_is_not_None, evaluator_update; mrun.
  - eexists _, _, [EvForward i]. split; [reflexivity|]. evs. done.
  - destruct (coco_evaluator w) as [ce|] eqn:E; cbn.
    + eexists _, _, [EvForward i; EvPostprocess i; EvEvaluatorUpdate (res_keys (x :: ids))].
      split; [reflexivity|]. evs. rewrite E. done.
    + eexists _, _, [EvForward i; EvPostprocess i].
      split; [reflexivity|]. evs. rewrite E. done.
Qed.

Lemma val_batches_run (bs : list (nat * list Z)) w :
  exists r w' evs,
    for_ bs val_batch w = (r, w') /\
    events w' = events w ++ evs /\
    forallb is_batch_event evs = true /\
    fs w' = fs w /\ params (model w') = params (model w) /\
    val_dataloader w' = val_dataloader w /\
    (is_Some (coco_evaluator w) -> evs = loop_calls bs) /\
    if forallb (fun ids => negb (bool_decide (ids = []))) bs.*2
    then r = Ok tt /\
         coco_evaluator w' = add_ids (concat (res_keys <$> bs.*2)) <$> coco_evaluator w
    else r = Raise (Py.RuntimeError "stack expects a non-empty TensorList").
Proof.
  revert w. induction bs as [|b bs IH]; intros w.
  - exists (Ok tt), w, []. cbn. rewrite app_nil_r. split_and!; try done.
    destruct (coco_evaluator w); cbn; [by rewrite add_ids_nil | done].
  - destruct (val_batch_run b w) as (r1 & w1 & e1 & R1 & E1 & B1 & F1 & P1 & D1 & H1).
    cbn [for_ fmap list_fmap forallb loop_calls].
    destruct b as [i [|x ids]]; cbn [fst snd] in *.
    + destruct H1 as (-> & ->).
      exists (Raise (Py.RuntimeError "stack expects a non-empty TensorList")), w1,
        [EvForward i].
      rewrite (bind_raise _ _ _ _ _ R1). done.
    + destruct H1 as (-> & X1 & C1).
      destruct (IH w1) as (r2 & w2 & e2 & R2 & E2 & B2 & F2 & P2 & D2 & X2 & H2).
      exists r2, w2, (e1 ++ e2). rewrite (bind_ok _ _ _ _ _ R1), R2.
      split_and!; try done; try congruence.
      * rewrite E2, E1, <- app_assoc. done.
      * rewrite forallb_app, B1, B2. done.
      * intros [c0 Hc0]. rewrite (X1 c0 Hc0), X2; [done|].
        rewrite C1, Hc0. by eexists.
      * cbn [negb bool_decide andb]. rewrite bool_decide_eq_false_2 by done. cbn [negb andb].
        destruct (forallb _ bs.*2); [|done].
        destruct H2 as (-> & C2). split; [done|].
        rewrite C2, C1. cbn [concat]. destruct (coco_evaluator w); cbn; [|done].
        by rewrite add_ids_app.
Qed.

Lemma val_loop_run w :
  exists r w' evs,
    val_loop env w = (r, w') /\
    events w' = events w ++ loop_entry_events env ++ evs /\
    forallb is_batch_event evs = true /\
    fs w' = fs w /\ params (model w') = params (model w) /\
    (is_Some (coco_evaluator w) ->
     evs = loop_calls (imap (fun i ids => (i, ids)) (batches (val_dataloader w)))) /\
    if batches_ok (val_dataloader w)
    then r = Ok tt /\
         coco_evaluator w' =
           add_ids (concat (res_keys <$> batches (val_dataloader w))) <$> coco_evaluator w
    else r = Raise (Py.RuntimeError "stack expects a non-empty TensorList").
Proof.
  unfold val_loop, model_to, criterion_to, batches_ok, loop_entry_events. mrun.
  match goal with |- context [for_ ?l _ ?w0] =>
    destruct (val_batches_run l w0) as (r & w1 & evs & R & E & B & F & P & D & X & C) end.
  exists r, w1, evs. rewrite R. split; [done|].
  rewrite E, F, P. evs. split_and!; try done.
  by rewrite (imap_pair_snd id) in C.
Qed.

Lemma val_finish_run c w :
  coco_evaluator w = Some c ->
  exists r w',
    val_finish env w = (r, w') /\
    fs w' = fs w /\ params (model w') = params (model w) /\
    if pairwise_disjoint (all_gather env (img_ids c))
    then r = Ok tt /\
         events w' = events w ++ finish_events /\
         coco_evaluator w' = Some
           {| ce_iou_types := ce_iou_types c; img_ids := ⋃ all_gather env (img_ids c);
              synchronized := true; accumulated := true; summarized := true |}
    else (exists x, r = Raise x) /\
         events w' = events w ++ sync_events.
Proof.
  intros Hc.
  unfold val_finish, coco_evaluator_is_not_None, evaluator_synchronize,
    evaluator_accumulate, evaluator_summarize, finish_events, sync_events.
  mrun. repeat (rewrite Hc; cbn).
  destruct (pairwise_disjoint (all_gather env (img_ids c))); cbn.
  - eexists _, _. split; [reflexivity|]. evs. done.
  - eexists _, _. split; [reflexivity|]. evs. eauto.
Qed.

Lemma val_origin_run p w :
  exists r w1,
    (if Py.contains "http" p
     then torch_hub_load_state_dict_from_url env p
     else torch_load p) w = (r, w1) /\
    events w1 = events w ++ [origin_event p] /\
    fs w1 = storage_after env w (Some p) /\
    source_frame w w1 /\ params (model w1) = params (model w) /\
    match origin_state env w p with
    | Some state => r = Ok state
    | None => exists x, r = Raise x
    end.
Proof.
  unfold origin_event, origin_state, storage_after,
    torch_hub_load_state_dict_from_url, torch_load, read_file, source_frame.
  destruct (Py.contains "http" p); mrun.
  - destruct (fs w !! hub_cache env p) as [v0|] eqn:Hc; cbn.
    + rewrite Hc. eexists _, _; (split; [reflexivity|]); evs; split_and!; eauto.
    + destruct (urlopen env p) as [x|v1]; cbn.
      * eexists _, _; (split; [reflexivity|]); evs; split_and!; eauto.
      * rewrite lookup_insert_eq.
        eexists _, _; (split; [reflexivity|]); evs; split_and!; eauto.
  - destruct (fs w !! p); eexists _, _; (split; [reflexivity|]); evs;
      split_and!; eauto.
Qed.

Lemma val_load_run p w :
  exists r w2 rest,
    val_load_weights env (Some p) w = (r, w2) /\
    events w2 = events w ++ origin_event p :: rest /\
    forallb is_load_state_dict rest = true /\
    fs w2 = storage_after env w (Some p) /\
    source_frame w w2.
Proof.
  destruct (val_origin_run p w) as (r & w1 & R & E & Fs & F & _ & _).
  unfold val_load_weights.
  match goal with |- context [bind _ ?k] => set (K := k) end.
  destruct r as [state|x].
  - rewrite (bind_ok _ _ _ _ _ R).
    assert (H : emits load_frame is_load_state_dict (K state)).
    { subst K. cbn beta.
      repeat (emits_step || apply model_load_state_dict_emits). }
    destruct (emits_events _ _ _ w1 H) as (rest & E' & P' & (F1 & _ & F2 & F3)).
    destruct (K state w1) as [r2 w2] eqn:R2. cbn [snd] in *.
    exists r2, w2, rest. destruct F as (F4 & F5). unfold source_frame.
    split_and!; try done; try congruence.
    rewrite E', E, <- app_assoc. done.
  - rewrite (bind_raise _ _ _ _ _ R). exists (Raise x), w1, []. done.
Qed.

Lemma val_load_ema p w d s sd :
  origin_state env w p = Some (PyDict d) ->
  d !! "ema" = Some (PyDict s) ->
  s !! "module" = Some (PyTensors sd) ->
  exists w2,
    val_load_weights env (Some p) w = (Ok tt, w2) /\
    events w2 = events w ++ [origin_event p; EvLoadStateDict "ema" false] /\
    params (model w2) = merged sd (params (model w)).
Proof.
  intros Ho Hd Hs.
  destruct (val_origin_run p w) as (r & w1 & R & E & _ & F & P & Hr).
  rewrite Ho in Hr. subst r.
  unfold val_load_weights. rewrite (bind_ok _ _ _ _ _ R).
  unfold model_load_state_dict. mrun.
  rewrite Hd. cbn. rewrite Hs. cbn. rewrite load_state_dict_tensors. cbn.
  eexists. split; [reflexivity|]. evs. fold (events w1). rewrite E, P, <- app_assoc. done.
Qed.

Lemma val_load_model p w d sd :
  origin_state env w p = Some (PyDict d) ->
  d !! "ema" = None ->
  d !! "model" = Some (PyTensors sd) ->
  exists w2,
    val_load_weights env (Some p) w = (Ok tt, w2) /\
    events w2 = events w ++ [origin_event p; EvLoadStateDict "model" false] /\
    params (model w2) = merged sd (params (model w)).
Proof.
  intros Ho Hd Hs.
  destruct (val_origin_run p w) as (r & w1 & R & E & _ & F & P & Hr).
  rewrite Ho in Hr. subst r.
  unfold val_load_weights. rewrite (bind_ok _ _ _ _ _ R).
  unfold model_load_state_dict. mrun.
  rewrite Hd. cbn. rewrite Hs. cbn. rewrite load_state_dict_tensors. cbn.
  eexists. split; [reflexivity|]. evs. fold (events w1). rewrite E, P, <- app_assoc. done.
Qed.

Lemma val_load_any wp w :
  exists r w2 loads,
    val_load_weights env wp w = (r, w2) /\
    events w2 = events w ++ loads /\
    forallb is_load_event loads = true /\
    fs w2 = storage_after env w wp /\
    source_frame w w2.
Proof.
  destruct wp as [p|].
  - destruct (val_load_run p w) as (r & w2 & rest & R & E & P & Fs & F).
    exists r, w2, (origin_event p :: rest). split_and!; try done.
    cbn. apply andb_true_intro. split.
    + unfold origin_event. by destruct (Py.contains "http" p).
    + rewrite forallb_forall in *. intros ev Hev. specialize (P ev Hev). by destruct ev.
  - exists (Ok tt), w, []. rewrite app_nil_r. done.
Qed.

Lemma storage_after_frame w w1 wp :
  fs w1 = fs w -> storage_after env w1 wp = storage_after env w wp.
Proof. unfold storage_after. by intros ->. Qed.

(** [val] as a whole: the preparation, the weight loading and, unless
    that raised, the pass over the data, which stops at a batch without
    targets, and the final metrics, which are not reached when two
    processes hold the same image identifier. *)
Lemma val_run wp c v w :
  let w1 := exec (val_prepare env c v) (set_grad_enabled false w) in
  let dl := chosen_val_dataloader env v in
  exists r w2 loads,
    val_load_weights env wp w1 = (r, w2) /\
    fs w1 = fs w /\ params (model w1) = params (model w) /\
    events w2 = events w1 ++ loads /\
    forallb is_load_event loads = true /\
    params (model (exec (val env wp c v) w)) = params (model w2) /\
    fs (exec (val env wp c v) w) = storage_after env w wp /\
    match r with
    | Raise x =>
        result (val env wp c v) w = Raise x /\
        new_events w (exec (val env wp c v) w) = preparation_events env c v ++ loads
    | Ok _ =>
        exists batch_events fin,
          new_events w (exec (val env wp c v) w) =
            preparation_events env c v ++ loads ++ loop_entry_events env
            ++ batch_events ++ fin /\
          forallb is_batch_event batch_events = true /\
          batch_events = loop_calls (imap (fun i ids => (i, ids)) (batches dl)) /\
          if batches_ok dl then
            if shards_ok env dl then
              fin = finish_events /\
              result (val env wp c v) w =
                Ok (val_stats env (iou_types env) (Some (populated env dl)),
                    Some (populated env dl))
            else
              fin = sync_events /\ exists x, result (val env wp c v) w = Raise x
          else
            fin = [] /\
            result (val env wp c v) w =
              Raise (Py.RuntimeError "stack expects a non-empty TensorList")
    end.
Proof.
  cbn zeta. set (w0 := set_grad_enabled false w).
  destruct (val_prepare_run c v w0) as (w1 & R1 & E1 & F1 & P1 & D1 & C1).
  unfold exec at 1 2 3 4. rewrite R1. cbn [snd].
  destruct (val_load_any wp w1) as (r & w2 & loads & R2 & E2 & L2 & Fs2 & (C2 & D2)).
  rewrite (storage_after_frame w0 w1 wp F1) in Fs2.
  change (storage_after env w0 wp) with (storage_after env w wp) in Fs2.
  exists r, w2, loads.
  split; [done|]. split; [done|]. split; [done|]. split; [done|]. split; [done|].
  unfold exec, result, val, no_grad. fold w0. unfold val_body.
  rewrite (bind_ok _ _ _ _ _ R1). destruct r as [u|x].
  - rewrite (bind_ok _ _ _ _ _ R2).
    destruct (val_loop_run w2) as (r3 & w3 & evs & R3 & E3 & B3 & F3 & P3 & X3 & H3).
    rewrite D2, D1 in H3, X3. unfold shards_ok.
    specialize (X3 ltac:(rewrite C2, C1; by eexists)).
    destruct (batches_ok (chosen_val_dataloader env v)).
    + destruct H3 as (-> & C3). rewrite (bind_ok _ _ _ _ _ R3).
      rewrite C2, C1 in C3. unfold add_ids in C3. cbn in C3.
      rewrite union_empty_l_L in C3.
      destruct (val_finish_run _ w3 C3) as (r4 & w4 & R4 & F4 & P4 & H4).
      cbn [img_ids] in H4.
      destruct (pairwise_disjoint _).
      * destruct H4 as (-> & E4 & C4). rewrite (bind_ok _ _ _ _ _ R4). mrun.
        split_and!; try congruence.
        exists evs, finish_events. split_and!; try done.
        -- apply new_events_app.
           change (events (set_grad_enabled (grad_enabled w) w4)) with (events w4).
           rewrite E4, E3, E2, E1, <- !app_assoc. done.
        -- rewrite C4. done.
      * destruct H4 as ((x & ->) & E4). rewrite (bind_raise _ _ _ _ _ R4). cbn [fst snd].
        split_and!; try (cbn; congruence).
        exists evs, sync_events. split_and!; eauto.
        apply new_events_app.
        change (events (set_grad_enabled (grad_enabled w) w4)) with (events w4).
        rewrite E4, E3, E2, E1, <- !app_assoc. done.
    + subst r3. rewrite (bind_raise _ _ _ _ _ R3). cbn [fst snd].
      split_and!; try (cbn; congruence).
      exists evs, []. split_and!; try done.
      apply new_events_app.
      change (events (set_grad_enabled (grad_enabled w) w3)) with (events w3).
      rewrite E3, E2, E1, app_nil_r, <- !app_assoc. done.
  - rewrite (bind_raise _ _ _ _ _ R2). cbn [fst snd]. split_and!; try done.
    apply new_events_app. change (events (set_grad_enabled (grad_enabled w) w2))
      with (events w2).
    rewrite E2, E1, <- !app_assoc. done.
Qed.
End Val.

(** ** Substrings *)

Lemma prefix_spec n h : String.prefix n h = true <-> exists post, h = n +:+ post.
Proof.
  revert h. induction n as [|a n IH]; intros h.
  - split; [intros _; by exists h | by destruct h].
  - destruct h as [|b h]; cbn [String.prefix].
    + split; [done | intros (post & H); by rewrite string_app_cons in H].
    + destruct (ascii_dec a b) as [->|Hne].
      * rewrite IH. split; intros (post & H); exists post.
        -- by rewrite string_app_cons, H.
        -- rewrite string_app_cons in H. by injection H.
      * split; [done|]. intros (post & H). rewrite string_app_cons in H. congruence.
Qed.

Lemma contains_spec n h : Py.contains n h = true <-> substring_of n h.
Proof.
  unfold substring_of. induction h as [|b h IH]; cbn [Py.contains].
  - destruct (String.prefix n "") eqn:P.
    + apply prefix_spec in P as (post & P). split; [|done]. intros _. by exists "", post.
    + split; [done|]. intros (pre & post & H). destruct pre; [|done].
      assert (String.prefix n "" = true) by (apply prefix_spec; by exists post). congruence.
  - destruct (String.prefix n (String b h)) eqn:P.
    + apply prefix_spec in P as (post & P). split; [|done]. intros _. by exists "", post.
    + rewrite IH. split.
      * intros (pre & post & ->). by exists (String b pre), post.
      * intros (pre & post & H). destruct pre as [|b' pre].
        -- assert (String.prefix n (String b h) = true) by (apply prefix_spec; by exists post).
           congruence.
        -- rewrite string_app_cons in H. injection H as -> ->. by exists pre, post.
Qed.

Lemma merged_lookup sd own k :
  merged sd own !! k = (fun x => default x (sd !! k)) <$> (own !! k).
Proof. unfold merged. rewrite map_lookup_imap. by destruct (own !! k). Qed.

(** ** Properties of [val] *)

Section ValClaims.
Variable env : Env.

Lemma preparation_kinds c v :
  kinds_in [KConstruct; KPrepare] (preparation_events env c v) = true.
Proof. by destruct c, v. Qed.

Lemma batch_events_kinds l :
  forallb is_batch_event l = true -> kinds_in [KBatch] l = true.
Proof.
  apply kinds_in_of. intros ev H. destruct ev; try discriminate; cbn; by left.
Qed.

Lemma finish_kinds fin :
  fin = finish_events \/ fin = sync_events \/ fin = [] ->
  kinds_in [KFinish; KPrint] fin = true.
Proof. by intros [->|[->| ->]]. Qed.

(** The calls of a whole run of [val]: the preparation, the reads of the
    weight source, and a tail that holds neither. *)
Lemma val_new_events wp c v w :
  let w1 := exec (val_prepare env c v) (set_grad_enabled false w) in
  let dl := chosen_val_dataloader env v in
  exists r w2 loads tail,
    val_load_weights env wp w1 = (r, w2) /\
    fs w1 = fs w /\ params (model w1) = params (model w) /\
    events w2 = events w1 ++ loads /\
    forallb is_load_event loads = true /\
    params (model (exec (val env wp c v) w)) = params (model w2) /\
    new_events w (exec (val env wp c v) w) =
      preparation_events env c v ++ loads ++ tail /\
    kinds_in [KPlace; KPrepare; KBatch; KFinish; KPrint] tail = true /\
    match r with
    | Raise x => result (val env wp c v) w = Raise x /\ tail = []
    | Ok _ =>
        exists batch_events fin,
          tail = loop_entry_events env ++ batch_events ++ fin /\
          forallb is_batch_event batch_events = true /\
          batch_events = loop_calls (imap (fun i ids => (i, ids)) (batches dl)) /\
          if batches_ok dl then
            if shards_ok env dl then
              fin = finish_events /\
              result (val env wp c v) w =
                Ok (val_stats env (iou_types env) (Some (populated env dl)),
                    Some (populated env dl))
            else
              fin = sync_events /\ exists x, result (val env wp c v) w = Raise x
          else
            fin = [] /\
            result (val env wp c v) w =
              Raise (Py.RuntimeError "stack expects a non-empty TensorList")
    end.
Proof.
  cbn zeta.
  destruct (val_run env wp c v w) as (r & w2 & loads & R & F & P & E & L & PM & _ & H).
  destruct r as [u|x].
  - destruct H as (bevs & fin & Hn & B & X & H).
    exists (Ok u), w2, loads, (loop_entry_events env ++ bevs ++ fin).
    split_and!; try done; [| by exists bevs, fin].
    pose proof (batch_events_kinds _ B).
    assert (KF : kinds_in [KFinish; KPrint] fin = true).
    { apply finish_kinds.
      destruct (batches_ok _); [destruct (shards_ok _ _)|]; destruct H as [-> _]; auto. }
    assert (KE : kinds_in [KPlace; KPrepare] (loop_entry_events env) = true) by done.
    kinds.
  - destruct H as (Hr & Hn).
    exists (Raise x), w2, loads, []. rewrite app_nil_r. done.
Qed.

(** C9.  Every call made in a run of [val] is made with gradient tracking
    off (and the mode the caller had comes back afterwards); and no batch
    goes through the model before the model and the criterion have been
    put in evaluation mode. *)
Theorem val_no_gradient wp c v w :
  let w' := exec (val env wp c v) w in
  trace w' = trace w ++ tag false (new_events w w') /\
  grad_enabled w' = grad_enabled w /\
  all_after is_model_eval is_forward (new_events w w') /\
  all_after is_criterion_eval is_forward (new_events w w').
Proof.
  cbn zeta. split_and!.
  - assert (H : emits any_frame (fun _ => true) (val_body env wp c v)).
    { unfold val_body, val_prepare, val_load_weights, val_loop, val_finish, val_batch,
        bind_criterion, bind_val_dataloader, new_CocoEvaluator, model_load_state_dict,
        torch_hub_load_state_dict_from_url, torch_load, read_file, torch_stack,
        model_to, criterion_to, coco_evaluator_is_not_None, evaluator_update,
        evaluator_synchronize, evaluator_accumulate, evaluator_summarize.
      repeat emits_step. }
    destruct (H (set_grad_enabled false w)) as (l & T & _ & _ & _).
    unfold exec, val, no_grad.
    destruct (val_body env wp c v (set_grad_enabled false w)) as [r w'] eqn:Hb.
    cbn in *. rewrite (new_events_app _ _ l); [done|].
    unfold events. cbn. rewrite T, fmap_app, tag_events. done.
  - unfold exec, val, no_grad.
    by destruct (val_body env wp c v (set_grad_enabled false w)).
  - destruct (val_new_events wp c v w)
      as (r & w2 & loads & tail & _ & _ & _ & _ & L & _ & -> & K & _).
    apply scan_after_sound, scan_after_found.
    + by destruct c, v.
    + by destruct c, v.
  - destruct (val_new_events wp c v w)
      as (r & w2 & loads & tail & _ & _ & _ & _ & L & _ & -> & K & _).
    apply scan_after_sound, scan_after_found.
    + by destruct c, v.
    + by destruct c, v.
Qed.

Lemma val_load_none_inv w1 r w2 loads :
  val_load_weights env None w1 = (r, w2) ->
  events w2 = events w1 ++ loads ->
  r = Ok tt /\ w2 = w1 /\ loads = [].
Proof.
  cbn. intros [= <- <-] E. split_and!; try done.
  rewrite <- (app_nil_r (events w1)) in E at 1. by apply app_inv_head in E.
Qed.

Lemma origin_state_frame w w1 p : fs w1 = fs w -> origin_state env w1 p = origin_state env w p.
Proof. unfold origin_state. by intros ->. Qed.

(** C7.  With no weight source, the loading step of [val] reads nothing
    and leaves the weights of the model as they are.  With a weight source,
    the state is fetched remotely or read from a local file (one read, of
    that very name); when the loaded state has an EMA sub-state its
    weights are loaded, otherwise the plain model weights, in both cases
    not strictly: a parameter of the model takes the loaded value when
    there is one and keeps its own when there is none, and loaded keys the
    model does not have are ignored. *)
Theorem val_weight_loading wp c v w :
  let w' := exec (val env wp c v) w in
  let new := new_events w w' in
  match wp with
  | None =>
      origins new = [] /\ state_dict_loads new = [] /\
      params (model w') = params (model w)
  | Some p =>
      origins new = [(if Py.contains "http" p then Remote else LocalFile, p)] /\
      forall d, origin_state env w p = Some (PyDict d) ->
        match d !! "ema" with
        | Some sub =>
            forall s sd, sub = PyDict s -> s !! "module" = Some (PyTensors sd) ->
              state_dict_loads new = [("ema", false)] /\
              forall k, params (model w') !! k =
                        (fun x => default x (sd !! k)) <$> (params (model w) !! k)
        | None =>
            forall sd, d !! "model" = Some (PyTensors sd) ->
              state_dict_loads new = [("model", false)] /\
              forall k, params (model w') !! k =
                        (fun x => default x (sd !! k)) <$> (params (model w) !! k)
        end
  end.
Proof.
  cbn zeta.
  destruct (val_new_events wp c v w)
    as (r & w2 & loads & tail & R & F & P & E & L & PM & -> & K & _).
  set (w1 := exec (val_prepare env c v) (set_grad_enabled false w)) in *.
  pose proof (preparation_kinds c v) as KP.
  unfold origins, state_dict_loads. rewrite !omap_app.
  rewrite !(omap_none_kinds _ _ _ KP) by by_kind.
  rewrite !(omap_none_kinds _ _ _ K) by by_kind.
  rewrite !app_nil_r. cbn [app].
  destruct wp as [p|].
  - destruct (val_load_run env p w1) as (r' & w2' & rest & R' & E' & S' & _).
    rewrite R in R'. injection R' as <- <-.
    assert (loads = origin_event p :: rest) as ->.
    { rewrite E in E'. by apply app_inv_head in E'. }
    split.
    + change (origin_event p :: rest) with ([origin_event p] ++ rest).
      rewrite omap_app, (omap_none _ _ _ S') by (by intros []).
      unfold origin_event. by destruct (Py.contains "http" p).
    + intros d Hd. rewrite <- (origin_state_frame w w1 p F) in Hd.
      destruct (d !! "ema") as [sub|] eqn:Hema.
      * intros s sd -> Hs.
        destruct (val_load_ema env p w1 d s sd Hd Hema Hs) as (w3 & R3 & E3 & P3).
        rewrite R in R3. injection R3 as Hr Hw. subst r w3.
        rewrite E in E3. apply app_inv_head in E3. rewrite E3. split.
        -- unfold origin_event. by destruct (Py.contains "http" p).
        -- intros k. by rewrite PM, P3, merged_lookup, P.
      * intros sd Hs.
        destruct (val_load_model env p w1 d sd Hd Hema Hs) as (w3 & R3 & E3 & P3).
        rewrite R in R3. injection R3 as Hr Hw. subst r w3.
        rewrite E in E3. apply app_inv_head in E3. rewrite E3. split.
        -- unfold origin_event. by destruct (Py.contains "http" p).
        -- intros k. by rewrite PM, P3, merged_lookup, P.
  - destruct (val_load_none_inv _ _ _ _ R E) as (-> & -> & ->).
    split_and!; try done. by rewrite PM.
Qed.

(** C10.  The origin of the weight source of [val] is decided by
    substring membership: a name with [http] anywhere in it, were it a
    local path, is fetched remotely, and only a name without any
    occurrence of [http] is read as a local file. *)
Theorem val_origin_by_substring p c v w :
  let new := new_events w (exec (val env (Some p) c v) w) in
  (substring_of "http" p -> origins new = [(Remote, p)]) /\
  (~ substring_of "http" p -> origins new = [(LocalFile, p)]).
Proof.
  cbn zeta.
  destruct (val_new_events (Some p) c v w)
    as (r & w2 & loads & tail & R & F & P & E & L & PM & -> & K & _).
  set (w1 := exec (val_prepare env c v) (set_grad_enabled false w)) in *.
  pose proof (preparation_kinds c v) as KP.
  destruct (val_load_run env p w1) as (r' & w2' & rest & R' & E' & S' & _).
  rewrite R in R'. injection R' as <- <-.
  assert (loads = origin_event p :: rest) as ->.
  { rewrite E in E'. by apply app_inv_head in E'. }
  unfold origins. rewrite !omap_app.
  rewrite !(omap_none_kinds _ _ _ KP) by by_kind.
  rewrite !(omap_none_kinds _ _ _ K) by by_kind.
  change (origin_event p :: rest) with ([origin_event p] ++ rest).
  rewrite omap_app, (omap_none _ _ _ S') by (by intros []).
  unfold origin_event. split; intros H.
  - apply contains_spec in H. by rewrite H.
  - destruct (Py.contains "http" p) eqn:C; [by apply contains_spec in C | done].
Qed.

Lemma val_load_source_ok wp w w1 r w2 :
  source_ok env w wp -> fs w1 = fs w ->
  val_load_weights env wp w1 = (r, w2) -> r = Ok tt.
Proof.
  intros Hs F R. destruct wp as [p|]; [|by injection R as <- _].
  destruct Hs as (state & Ho & d & -> & Hd).
  rewrite <- (origin_state_frame w w1 p F) in Ho.
  destruct Hd as [(s & sd & Hema & Hs) | (Hema & sd & Hs)].
  - destruct (val_load_ema env p w1 d s sd Ho Hema Hs) as (w3 & R3 & _).
    congruence.
  - destruct (val_load_model env p w1 d sd Ho Hema Hs) as (w3 & R3 & _).
    congruence.
Qed.


End ValClaims.

(** * Concrete runs *)

(** A fresh single-process run to target 3 writes two files. *)
Example fit_fresh_target_3_demo :
  files_written
    (new_events Demo.fresh
       (exec (fit Demo.env None "out" None None None 3 false false) Demo.fresh)) =
  [("out/1.pth", Some 1); ("out/2.pth", Some 2)].
Proof. vm_compute. reflexivity. Qed.

(** C2 does not hold as the specification states it: resumed from
    [out/2.pth] with target 4, the run writes [out/3.pth] over the file that
    was there and never writes [out/4.pth]. *)
Lemma fit_resumed_from_2_target_4_counterexample :
  let new :=
    files_written
      (new_events Demo.saved
         (exec (fit Demo.env (Some "out/2.pth") "out" None None None 4 false false)
            Demo.saved)) in
  ~ (new.*1 = ["out/4.pth"] /\ "out/3.pth" ∉ new.*1).
Proof.
  cbn zeta. intros [H _]. vm_compute in H. discriminate H.
Qed.

Lemma fit_resumed_from_2_target_4_witness :
  let new :=
    new_events Demo.saved
      (exec (fit Demo.env (Some "out/2.pth") "out" None None None 4 false false)
         Demo.saved) in
  hd_error (epochs_trained new) = Some 3 /\
  hd_error (files_written new) = Some (checkpoint_path "out" 3, Some 3) /\
  (forall e, e <= 2 -> checkpoint_path "out" e ∉ (files_written new).*1).
Proof.
  apply (fit_resumed_from_2_target_4 Demo.env "out" None None None false false
           Demo.saved "out/2.pth" Demo.net None); reflexivity.
Defined.

Lemma fit_resume_same_final_epoch_witness :
  let resumed :=
    exec (fit Demo.env (Some "out/2.pth") "out" None None None 5 false false) Demo.saved in
  let scratch := exec (fit Demo.env None "out" None None None 5 true true) Demo.fresh in
  final_epoch 2 (new_events Demo.saved resumed) =
    final_epoch 0 (new_events Demo.fresh scratch) /\
  epochs_trained (new_events Demo.saved resumed) = Py.range (2 + 1) 5 /\
  (forall e, e <= 2 ->
     (checkpoint_path "out" e ∉ (files_written (new_events Demo.saved resumed)).*1) /\
     fs resumed !! checkpoint_path "out" e = fs Demo.saved !! checkpoint_path "out" e).
Proof.
  apply (fit_resume_same_final_epoch Demo.env "out" None None None false false
           Demo.saved "out/2.pth" Demo.net None None None None true true Demo.fresh 5 2);
    [lia | reflexivity].
Defined.

Lemma fit_iteration_order_witness :
  let w' :=
    exec (fit Demo.env_dist (Some "out/2.pth") "out" None None None 5 true true)
      Demo.saved in
  exists last_epoch before (segs : list (PyVal * list Event)),
    result (fit_resume (Some "out/2.pth"))
      (exec (fit_construct Demo.env_dist None None None true true) Demo.saved)
      = Ok last_epoch /\
    new_events Demo.saved w' = before ++ concat segs.*2 ++ [EvPrint "Training time"] /\
    kinds_in [KConstruct; KLoad; KPlace; KWrap; KPrint] before = true /\
    Forall2 (fun e s =>
               epoch_segment Demo.env_dist "out" true true e s.1 s.2 /\
               (is_main_process Demo.env_dist = true ->
                fs w' !! (save_dir_prefix "out" +:+ Py.str e +:+ ".pth") = Some s.1))
            (Py.range (last_epoch + 1) 5) segs /\
    (last_epoch + 1 < 5 ->
     exists seg,
       last segs = Some (state_dict (5 - 1) (model w') (ema_model w'), seg)).
Proof.
  apply (fit_iteration_order Demo.env_dist (Some "out/2.pth") "out" None None None 5
           true true Demo.saved).
  vm_compute. reflexivity.
Defined.

(** The rank-gated writes of that run, by file name. *)
Example fit_iteration_order_demo :
  omap (fun ev => match ev with
                  | EvSaveOnMaster path _ => Some path
                  | _ => None
                  end)
    (new_events Demo.saved
       (exec (fit Demo.env_dist (Some "out/2.pth") "out" None None None 5 true true)
          Demo.saved)) =
  ["out/3.pth"; "out/4.pth"].
Proof. vm_compute. reflexivity. Qed.

Lemma fit_wraps_after_placement_witness :
  wraps
    (new_events Demo.fresh
       (exec (fit Demo.env_dist None "out" None None None 3 true true) Demo.fresh)) =
  [EvWarpLoader Train; EvWarpLoader Val; EvWarpModel false true].
Proof.
  apply (fit_wraps_after_placement Demo.env_dist None "out" None None None 3 true true
           Demo.fresh); [vm_compute|]; reflexivity.
Defined.

Lemma val_weight_loading_witness :
  let w' := exec (val Demo.env (Some "out/5.pth") None None) Demo.with_ema_file in
  state_dict_loads (new_events Demo.with_ema_file w') = [("ema", false)] /\
  forall k, params (model w') !! k =
            (fun x => default x ((<["head.bias" := 9]> ∅ : Weights) !! k))
              <$> (params (model Demo.with_ema_file) !! k).
Proof.
  pose proof (val_weight_loading Demo.env (Some "out/5.pth") None None Demo.with_ema_file)
    as [_ H].
  destruct (state_dict_fields 5 Demo.net
              (Some {| module := with_params (<["head.bias" := 9]> ∅) Demo.net;
                       decay := (9999 # 10000)%Q; warmups := 2000; updates := 3 |}))
    as (d & Hd & _ & _ & He).
  specialize (H d). rewrite He in H. cbn [fmap option_fmap option_map] in H.
  apply (H ltac:(rewrite <- Hd; reflexivity) _ _ eq_refl). reflexivity.
Defined.


(** A local path that merely contains [http] is fetched remotely. *)
Lemma val_origin_by_substring_witness :
  origins
    (new_events Demo.with_ema_file
       (exec (val Demo.env (Some "/data/http_cache/model.pth") None None)
          Demo.with_ema_file)) =
  [(Remote, "/data/http_cache/model.pth")].
Proof.
  apply (val_origin_by_substring Demo.env "/data/http_cache/model.pth" None None
           Demo.with_ema_file).
  by exists "/data/", "_cache/model.pth".
Defined.

(** * Further properties of [fit] and [val] *)

#[local] Instance placed_frame_preorder : PreOrder placed_frame.
Proof.
  split.
  - intros w. unfold placed_frame. done.
  - intros w1 w2 w3 (?&?&?) (?&?&?). unfold placed_frame. split_and!; congruence.
Qed.

#[local] Instance fs_frame_preorder : PreOrder fs_frame.
Proof. split; unfold fs_frame; [done | intros w1 w2 w3; congruence]. Qed.

#[local] Instance lr_frame_preorder : PreOrder lr_frame.
Proof. split; unfold lr_frame; [done | intros w1 w2 w3; congruence]. Qed.

#[local] Instance mode_frame_preorder : PreOrder mode_frame.
Proof.
  split.
  - intros w. unfold mode_frame. done.
  - intros w1 w2 w3 (?&?) (?&?). unfold mode_frame. split_and!; congruence.
Qed.

Lemma emits_run R P {A} (m : M A) w r w' :
  emits R P m -> m w = (r, w') -> R w w'.
Proof. intros H Hr. destruct (H w) as (l & _ & _ & _ & HR). by rewrite Hr in HR. Qed.

Ltac unfold_fit :=
  unfold fit, fit_construct, fit_resume, fit_place, fit_epoch, load_tuning_state,
    torch_load, read_file, model_load_state_dict, bind_criterion, bind_train_dataloader,
    bind_val_dataloader, new_ModelEMA, model_to, ema_model_to, criterion_to,
    warp_loader, warp_model, sampler_set_epoch, train_one_epoch, train_batch,
    save_on_master, torch_save.

Section FitMore.
Variable env : Env.

(** [fit] unrolled, once its resume step has returned. *)
Lemma fit_chain wp dir c t v E ua ue w last w2 :
  fit_resume wp (exec (fit_construct env c t v ua ue) w) = (Ok last, w2) ->
  exists w3 w4,
    fit_place env ue w2 = (Ok tt, w3) /\
    for_ (Py.range (last + 1) E) (fit_epoch env dir ua) w3 = (Ok tt, w4) /\
    fit env wp dir c t v E ua ue w =
      (Ok tt, exec (log (EvPrint "Training time")) w4) /\
    fs w2 = fs w /\ fs w3 = fs w /\ has_ema w3 = ue /\
    lr_steps w3 = 0.
Proof.
  intros R2.
  destruct (fit_construct_run env c t v ua ue w) as (w1 & R1 & E1 & F1 & H1).
  unfold exec in R2. rewrite R1 in R2. cbn [snd] in R2.
  destruct (fit_resume_run wp w1) as (r & w2' & loads & R2' & E2 & L2 & F2 & H2).
  rewrite R2 in R2'. injection R2' as <- <-.
  destruct (fit_place_run env ue w2) as (w3 & R3 & E3 & F3 & H3).
  destruct (fit_loop_run env dir ua (Py.range (last + 1) E) w3)
    as (w4 & segs & R4 & _).
  exists w3, w4. split_and!; try congruence.
  - unfold fit. by rewrite (bind_ok _ _ _ _ _ R1), (bind_ok _ _ _ _ _ R2),
      (bind_ok _ _ _ _ _ R3), (bind_ok _ _ _ _ _ R4).
  - assert (L1 : lr_steps w1 = 0).
    { revert R1. unfold fit_construct, bind_criterion, bind_train_dataloader,
        bind_val_dataloader, new_ModelEMA.
      destruct c, t, v, ua, ue; mrun; by intros [= <-]. }
    assert (HR : emits lr_frame (fun _ => true) (fit_resume wp)).
    { unfold_fit. destruct wp; repeat emits_step. }
    assert (HP : emits lr_frame (fun _ => true) (fit_place env ue)).
    { unfold_fit. repeat emits_step. }
    pose proof (emits_run _ _ _ _ _ _ HR R2) as L2'.
    pose proof (emits_run _ _ _ _ _ _ HP R3) as L3'.
    unfold lr_frame in *. congruence.
Qed.

Lemma fit_epoch_lr dir sc e w w' :
  fit_epoch env dir sc e w = (Ok tt, w') -> lr_steps w' = lr_steps w + 1.
Proof.
  destruct (set_epoch_run env e w) as (w0 & R0 & _).
  destruct (train_one_epoch_run env e (1 # 10)%Q 100 sc w0) as (w1 & steps & R1 & _).
  assert (H0 : emits lr_frame (fun _ => true)
                 (when (is_dist_available_and_initialized env) (sampler_set_epoch e))).
  { unfold sampler_set_epoch. repeat emits_step. }
  assert (H1 : emits lr_frame (fun _ => true) (train_one_epoch env e (1 # 10)%Q 100 sc)).
  { unfold train_one_epoch, train_batch. repeat emits_step. }
  pose proof (emits_run _ _ _ _ _ _ H0 R0) as L0.
  pose proof (emits_run _ _ _ _ _ _ H1 R1) as L1.
  unfold fit_epoch. rewrite (bind_ok _ _ _ _ _ R0), (bind_ok _ _ _ _ _ R1).
  unfold save_on_master, torch_save, lr_frame in *.
  destruct (is_main_process env); mrun; intros [= <-]; cbn; congruence.
Qed.

Lemma fit_loop_lr dir sc (es : list Z) w w' :
  for_ es (fit_epoch env dir sc) w = (Ok tt, w') ->
  lr_steps w' = lr_steps w + Z.of_nat (length es).
Proof.
  revert w. induction es as [|e es IH]; intros w.
  - cbn. intros [= <-]. lia.
  - destruct (fit_epoch_run env dir sc e w) as (w1 & seg & R1 & _).
    cbn [for_]. rewrite (bind_ok _ _ _ _ _ R1). intros R2.
    rewrite (IH _ R2), (fit_epoch_lr _ _ _ _ _ R1). cbn [length]. lia.
Qed.

Lemma range_length a b : Z.of_nat (length (Py.range a b)) = Z.max 0 (b - a).
Proof. unfold Py.range. rewrite length_fmap, length_seq. lia. Qed.

(** X1.  The learning-rate schedule of a run of [fit] that gets past its
    resume step is built anew and stepped once per epoch of
    [range(last_epoch + 1, epoch)]: when [fit] returns it has been stepped
    [max 0 (epoch - last_epoch - 1)] times, counted from zero also in a
    resumed run. *)
Theorem fit_scheduler_steps wp dir c t v E ua ue w last :
  result (fit_resume wp) (exec (fit_construct env c t v ua ue) w) = Ok last ->
  let w' := exec (fit env wp dir c t v E ua ue) w in
  lr_steps w' = Z.max 0 (E - (last + 1)) /\
  List.length (List.filter is_lr_step (new_events w w')) = Z.to_nat (E - (last + 1)).
Proof.
  intros Hr. cbn zeta. unfold result in Hr.
  destruct (fit_resume wp (exec (fit_construct env c t v ua ue) w)) as [r w2] eqn:R2.
  cbn in Hr. subst r.
  destruct (fit_chain wp dir c t v E ua ue w last w2 R2)
    as (w3 & w4 & R3 & R4 & Rf & _ & _ & _ & L3).
  split.
  - unfold exec at 1. rewrite Rf. cbn.
    rewrite (fit_loop_lr _ _ _ _ _ R4), L3, range_length. lia.
  - destruct (fit_new_events env wp dir c t v E ua ue w)
      as (r & w2' & loads & R & _ & L & H).
    rewrite R2 in R. injection R as <- <-.
    destruct H as (segs & _ & -> & I & _).
    pose proof (construction_kinds c t v ua ue) as KC.
    rewrite !List.filter_app.
    rewrite (filter_none _ _ _ KC), (filter_none _ _ _ L); [| by intros [] |].
    2: { intros ev Hk. apply bool_decide_eq_true_1 in Hk. revert ev Hk. by_kind. }
    assert (HP : List.filter is_lr_step (placement_events env ue) = []).
    { unfold placement_events. by destruct ue, (is_dist_available_and_initialized env). }
    rewrite HP. cbn [app List.filter is_lr_step]. rewrite app_nil_r.
    assert (HS : forall es segs0, Forall2 (iteration env dir ua ue) es segs0 ->
                   length (List.filter is_lr_step (concat segs0)) = length es).
    { clear. induction 1 as [|e seg es segs0 (steps & obj & -> & S & _) _ IH]; [done|].
      cbn [concat]. rewrite !List.filter_app, !length_app, IH.
      rewrite (filter_none _ _ _ S) by (by intros []).
      by destruct (is_dist_available_and_initialized env), (is_main_process env). }
    rewrite (HS _ _ I). unfold Py.range. by rewrite length_fmap, length_seq.
Qed.

(** X2.  When the target epoch count is not beyond the epoch after the
    resume point ([epoch <= last_epoch + 1]), [fit] still builds, resumes
    and places everything, but trains no epoch, never steps the
    learning-rate schedule, writes no file, and returns normally. *)
Theorem fit_nothing_to_train wp dir c t v E ua ue w last :
  result (fit_resume wp) (exec (fit_construct env c t v ua ue) w) = Ok last ->
  E <= last + 1 ->
  let w' := exec (fit env wp dir c t v E ua ue) w in
  result (fit env wp dir c t v E ua ue) w = Ok tt /\
  epochs_trained (new_events w w') = [] /\
  files_written (new_events w w') = [] /\
  fs w' = fs w /\
  lr_steps w' = 0.
Proof.
  intros Hr HE. cbn zeta. unfold result in Hr.
  destruct (fit_resume wp (exec (fit_construct env c t v ua ue) w)) as [r w2] eqn:R2.
  cbn in Hr. subst r.
  destruct (fit_chain wp dir c t v E ua ue w last w2 R2)
    as (w3 & w4 & R3 & R4 & Rf & _ & F3 & _ & L3).
  destruct (fit_new_events env wp dir c t v E ua ue w)
    as (r & w2' & loads & R & _ & L & H).
  rewrite R2 in R. injection R as <- <-.
  destruct H as (segs & Hok & -> & I & Fr).
  rewrite (range_nil (last + 1) E) in * by lia.
  split_and!; try done.
  - by rewrite (epochs_trained_run _ _ _ _ _ _ _ _ _ _ L I).
  - rewrite (files_written_run _ _ _ _ _ _ _ _ _ _ L I). by destruct (is_main_process env).
  - apply map_eq. intros p. apply Fr. intros e He. by apply elem_of_nil in He.
  - unfold exec. rewrite Rf. cbn. cbn in R4. by injection R4 as <-.
Qed.

(** X3.  When the resume step of [fit] raises, [fit] raises the same
    exception: by then it has built what lines 35 to 45 build and tried to
    read the checkpoint, and it has moved nothing onto a device, wrapped
    nothing, trained nothing and left storage as it was. *)
Theorem fit_resume_failure wp dir c t v E ua ue w x :
  result (fit_resume wp) (exec (fit_construct env c t v ua ue) w) = Raise x ->
  let w' := exec (fit env wp dir c t v E ua ue) w in
  result (fit env wp dir c t v E ua ue) w = Raise x /\
  kinds_in [KConstruct; KLoad] (new_events w w') = true /\
  fs w' = fs w.
Proof.
  intros Hr. cbn zeta. unfold result in Hr.
  destruct (fit_new_events env wp dir c t v E ua ue w)
    as (r & w2 & loads & R & F & L & H).
  rewrite R in Hr. cbn in Hr. subst r. destruct H as (Hx & ->).
  split_and!; try done.
  - pose proof (construction_kinds c t v ua ue).
    pose proof (load_events_kinds _ L).
    kinds.
  - destruct (fit_run env wp dir c t v E ua ue w) as (r' & w2' & loads' & R' & _ & _ & _ & H').
    rewrite R in R'. injection R' as <- <-.
    unfold exec. rewrite H'. cbn [snd].
    assert (HR : emits fs_frame (fun _ => true) (fit_resume wp)).
    { unfold_fit. destruct wp; repeat emits_step. }
    pose proof (emits_run _ _ _ _ _ _ HR R) as F2. unfold fs_frame in F2. congruence.
Qed.

(** X4.  No run of [fit] evaluates: whatever the arguments, [fit] makes no
    call of the evaluation pipeline (no evaluation mode, no accumulator, no
    forward pass over validation data, no metrics), although it builds the
    default validation data provider when it is given none. *)
Theorem fit_never_evaluates wp dir c t v E ua ue w :
  let new := new_events w (exec (fit env wp dir c t v E ua ue) w) in
  kinds_in [KConstruct; KLoad; KPlace; KWrap; KPrint; KLoop] new = true /\
  List.filter (fun ev => match ev with EvDefaultLoader Val => true | _ => false end) new =
    match v with None => [EvDefaultLoader Val] | Some _ => [] end.
Proof.
  cbn zeta.
  destruct (fit_new_events env wp dir c t v E ua ue w)
    as (r & w2 & loads & R & F & L & H).
  pose proof (construction_kinds c t v ua ue) as KC.
  pose proof (load_events_kinds _ L) as KL.
  pose proof (placement_kinds env ue) as KP.
  assert (T : exists tail,
    new_events w (exec (fit env wp dir c t v E ua ue) w) =
      construction_events c t v ua ue ++ tail /\
    kinds_in [KLoad; KPlace; KWrap; KPrint; KLoop] tail = true).
  { destruct r as [last|x].
    - destruct H as (segs & _ & -> & I & _). eexists. split; [reflexivity|].
      pose proof (loop_kinds _ _ _ _ _ _ I). kinds.
    - destruct H as (_ & ->). eexists. split; [reflexivity|]. kinds. }
  destruct T as (tail & -> & KT). split.
  - kinds.
  - rewrite List.filter_app.
    rewrite (filter_none _ _ tail KT).
    + rewrite app_nil_r. by destruct c, t, v, ua, ue.
    + intros ev Hk. apply bool_decide_eq_true_1 in Hk. revert ev Hk. by_kind.
Qed.

(** X5.  On a process that is not the coordinating one, no run of [fit]
    changes anything on storage, whether it returns or raises. *)
Theorem fit_worker_writes_nothing wp dir c t v E ua ue w :
  is_main_process env = false ->
  let w' := exec (fit env wp dir c t v E ua ue) w in
  fs w' = fs w /\ files_written (new_events w w') = [].
Proof.
  intros Hmain. cbn zeta. split.
  - assert (H : emits fs_frame (fun _ => true) (fit env wp dir c t v E ua ue)).
    { unfold_fit. rewrite Hmain. cbn [when]. destruct wp; repeat emits_step. }
    unfold exec. destruct (fit env wp dir c t v E ua ue w) as [r w'] eqn:Hf.
    apply (emits_run _ _ _ _ _ _ H Hf).
  - destruct (fit_new_events env wp dir c t v E ua ue w)
      as (r & w2 & loads & R & F & L & H).
    destruct r as [last|x].
    + destruct H as (segs & _ & -> & I & _).
      by rewrite (files_written_run _ _ _ _ _ _ _ _ _ _ L I), Hmain.
    + destruct H as (_ & ->). unfold files_written. rewrite omap_app.
      rewrite (omap_none_kinds _ _ _ (construction_kinds c t v ua ue)) by by_kind.
      by rewrite (omap_none _ _ _ L) by (by intros []).
Qed.

Lemma fit_loop_files dir sc (es : list Z) w w' :
  is_main_process env = true -> NoDup es ->
  for_ es (fit_epoch env dir sc) w = (Ok tt, w') ->
  forall e, e ∈ es ->
    exists obj, fs w' !! checkpoint_path dir e = Some obj /\
                checkpoint_of e (has_ema w) obj.
Proof.
  intros Hmain. revert w. induction es as [|e0 es IH]; intros w Hnd R e He.
  - by apply elem_of_nil in He.
  - apply NoDup_cons in Hnd as [Hnotin Hnd].
    destruct (fit_epoch_run env dir sc e0 w) as (w1 & seg & R1 & _ & _ & H1 & F1).
    cbn [for_] in R. rewrite (bind_ok _ _ _ _ _ R1) in R. rewrite Hmain in F1.
    apply elem_of_cons in He as [->|He].
    + destruct (fit_loop_run env dir sc es w1) as (w2 & segs & R2 & _ & _ & _ & Fr).
      rewrite R in R2. injection R2 as <-.
      exists (state_dict e0 (model w1) (ema_model w1)). split.
      * rewrite Fr, F1; [apply lookup_insert_eq|].
        intros e' He' Heq. apply checkpoint_path_inj in Heq as <-. done.
      * rewrite <- H1. apply state_dict_checkpoint.
    + rewrite <- H1. by apply (IH w1).
Qed.

(** X6.  On the coordinating process, when [fit] returns, every epoch of
    [range(last_epoch + 1, epoch)] has its own file [save_dir/{epoch}.pth]
    on storage, and that file holds the checkpoint of that very epoch: a
    later epoch never overwrites the file of an earlier one. *)
Theorem fit_checkpoints_persist wp dir c t v E ua ue w last :
  result (fit_resume wp) (exec (fit_construct env c t v ua ue) w) = Ok last ->
  is_main_process env = true ->
  forall e, last + 1 <= e < E ->
    exists obj,
      fs (exec (fit env wp dir c t v E ua ue) w) !! checkpoint_path dir e = Some obj /\
      checkpoint_of e ue obj /\ epoch_field obj = Some e.
Proof.
  intros Hr Hmain e He. unfold result in Hr.
  destruct (fit_resume wp (exec (fit_construct env c t v ua ue) w)) as [r w2] eqn:R2.
  cbn in Hr. subst r.
  destruct (fit_chain wp dir c t v E ua ue w last w2 R2)
    as (w3 & w4 & R3 & R4 & Rf & _ & _ & H3 & _).
  destruct (fit_loop_files dir ua _ w3 w4 Hmain (range_NoDup _ _) R4 e) as (obj & Hl & Hc).
  { by apply elem_of_range. }
  exists obj. unfold exec. rewrite Rf. cbn. rewrite H3 in Hc. split_and!; try done.
  destruct Hc as (d & mw & -> & Hep & _). cbn. by rewrite Hep.
Qed.

Lemma fit_place_state ue w w3 :
  fit_place env ue w = (Ok tt, w3) ->
  device (model w3) = Some (torch_device env) /\
  device (criterion w3) = Some (torch_device env) /\
  ddp (model w3) = ddp (model w) || is_dist_available_and_initialized env.
Proof.
  unfold fit_place, model_to, ema_model_to, criterion_to, warp_loader, warp_model.
  destruct ue, (is_dist_available_and_initialized env); mrun; intros [= <-]; cbn;
    rewrite ?orb_true_r, ?orb_false_r; done.
Qed.

(** X7.  When [fit] returns, the model and the criterion sit on the device
    picked by [torch.cuda.is_available()], and in distributed mode the
    model is wrapped for gradient synchronization: the loop moves neither
    and unwraps nothing. *)
Theorem fit_leaves_model_placed wp dir c t v E ua ue w last :
  result (fit_resume wp) (exec (fit_construct env c t v ua ue) w) = Ok last ->
  let w' := exec (fit env wp dir c t v E ua ue) w in
  device (model w') = Some (if cuda_available env then Cuda else Cpu) /\
  device (criterion w') = Some (if cuda_available env then Cuda else Cpu) /\
  (is_dist_available_and_initialized env = true -> ddp (model w') = true).
Proof.
  intros Hr. cbn zeta. unfold result in Hr.
  destruct (fit_resume wp (exec (fit_construct env c t v ua ue) w)) as [r w2] eqn:R2.
  cbn in Hr. subst r.
  destruct (fit_chain wp dir c t v E ua ue w last w2 R2)
    as (w3 & w4 & R3 & R4 & Rf & _).
  destruct (fit_place_state _ _ _ R3) as (D1 & D2 & D3).
  assert (HL : emits placed_frame (fun _ => true)
                 (for_ (Py.range (last + 1) E) (fit_epoch env dir ua))).
  { unfold_fit. repeat emits_step. }
  destruct (emits_run _ _ _ _ _ _ HL R4) as (P1 & P2 & P3).
  unfold exec. rewrite Rf. cbn. fold (torch_device env).
  split_and!; try congruence.
  intros Hd. rewrite P2, D3, Hd. apply orb_true_r.
Qed.
End FitMore.

(** ** Checkpoint names *)

(** X8.  The checkpoint of an epoch is named [save_dir], a separating [/]
    unless [save_dir] is empty or ends in one, the decimal epoch number and
    [.pth]: the file name never displaces [save_dir] (which stays a prefix
    of the path), and two epochs never share a path. *)
Theorem checkpoint_path_shape dir e e' :
  checkpoint_path dir e = save_dir_prefix dir +:+ Py.str e +:+ ".pth" /\
  String.prefix dir (checkpoint_path dir e) = true /\
  (checkpoint_path dir e = checkpoint_path dir e' -> e = e').
Proof.
  assert (H : forall n, checkpoint_path dir n = save_dir_prefix dir +:+ Py.str n +:+ ".pth").
  { intros n. unfold checkpoint_path, Py.path_join, save_dir_prefix.
    destruct (str_first n) as (ch & s & -> & Hc).
    rewrite string_app_cons, prefix_slash by done.
    destruct (String.eqb dir "" || Py.endswith_char "/" dir); [done|].
    by rewrite string_app_assoc. }
  split_and!.
  - apply H.
  - rewrite H. apply prefix_spec. unfold save_dir_prefix.
    destruct (String.eqb dir "" || Py.endswith_char "/" dir).
    + by eexists.
    + eexists. by rewrite string_app_assoc.
  - rewrite !H. intros Heq. apply String.app_inj in Heq.
    by apply app_string_inv_tail, str_inj in Heq.
Qed.

(** ** More on [val] *)

Section ValMore.
Variable env : Env.

Lemma model_load_state_dict_mode key sd strict :
  emits mode_frame (fun _ => true) (model_load_state_dict key sd strict).
Proof.
  intros w. exists [EvLoadStateDict key strict].
  unfold model_load_state_dict, mode_frame. mrun.
  destruct (load_state_dict_params sd strict (model w)) as (ws & Hws).
  destruct (load_state_dict sd strict (model w)) as [m' [e|]]; cbn in *; by subst m'.
Qed.

Lemma val_after_prepare_mode wp types :
  emits mode_frame (fun _ => true)
    (val_load_weights env wp >> val_loop env >> val_finish env >>
     let* ce := gets coco_evaluator in ret (val_stats env types ce, ce)).
Proof.
  unfold val_load_weights, val_loop, val_finish, val_batch,
    torch_hub_load_state_dict_from_url, torch_load, read_file, torch_stack,
    model_to, criterion_to, coco_evaluator_is_not_None, evaluator_update,
    evaluator_synchronize, evaluator_accumulate, evaluator_summarize.
  repeat (emits_step || apply model_load_state_dict_mode).
Qed.

(** X9.  Every run of [val] leaves the model and the criterion in
    evaluation mode: [val] never switches them back, whether it returns
    or raises.  A run of [val] without weight source, or with a local one,
    changes nothing on storage; a run with a remote weight source does
    write: whenever the state could be fetched, the hub cache holds it
    afterwards. *)
Theorem val_leaves_eval_mode wp c v w :
  let w' := exec (val env wp c v) w in
  training (model w') = false /\
  training (criterion w') = false /\
  match wp with
  | None => fs w' = fs w
  | Some p =>
      if Py.contains "http" p then
        forall state, origin_state env w p = Some state ->
          fs w' !! hub_cache env p = Some state
      else fs w' = fs w
  end.
Proof.
  cbn zeta. set (w0 := set_grad_enabled false w).
  destruct (val_prepare_run env c v w0) as (w1 & R1 & _ & F1 & _).
  assert (T1 : training (model w1) = false /\ training (criterion w1) = false).
  { revert R1. unfold val_prepare, bind_criterion, bind_val_dataloader, new_CocoEvaluator.
    destruct c, v; mrun; by intros [= <-]. }
  destruct (val_run env wp c v w) as (_ & _ & _ & _ & _ & _ & _ & _ & _ & Fs & _).
  rewrite Fs. clear Fs.
  unfold exec, val, no_grad. fold w0. unfold val_body.
  rewrite (bind_ok _ _ _ _ _ R1).
  match goal with |- context [let '(r, w') := ?k w1 in _] =>
    destruct (k w1) as [r wk] eqn:Rk end.
  destruct (emits_run _ _ _ _ _ _ (val_after_prepare_mode wp (iou_types env)) Rk)
    as (Mk & Ck).
  cbn. destruct T1. split_and!; try congruence.
  unfold storage_after, origin_state. destruct wp as [p|]; [|done].
  destruct (Py.contains "http" p); [|done].
  destruct (fs w !! hub_cache env p) as [v0|] eqn:Hc.
  - by intros state [= <-].
  - destruct (urlopen env p) as [x|v1]; [done|].
    intros state [= <-]. apply lookup_insert_eq.
Qed.

(** What a failed weight loading leaves of a run of [val]. *)
Lemma val_load_raises wp c v w x w2 :
  val_load_weights env wp (exec (val_prepare env c v) (set_grad_enabled false w))
    = (Raise x, w2) ->
  let new := new_events w (exec (val env wp c v) w) in
  result (val env wp c v) w = Raise x /\
  List.filter is_batch_event new = [] /\
  List.filter is_final_metric new = [].
Proof.
  intros R0. cbn zeta.
  destruct (val_new_events env wp c v w)
    as (r & w2' & loads & tail & R & _ & _ & _ & L & _ & -> & _ & H).
  rewrite R0 in R. injection R as <- <-. destruct H as (Hr & ->).
  pose proof (preparation_kinds env c v) as KP.
  rewrite !List.filter_app, app_nil_r.
  rewrite !(filter_none _ _ _ KP), !(filter_none _ _ _ L); try done; try (by intros []).
  all: intros ev Hk; apply bool_decide_eq_true_1 in Hk; revert ev Hk; by_kind.
Qed.

(** X10.  When the loaded state is a dict whose [ema] entry is a dict
    without [module] (be it an EMA sub-state of another shape or a bare
    weight mapping), [val] raises [KeyError('module')]: it does not fall
    back on the plain model weights the state may hold, loads no weights
    at all and processes no batch. *)
Theorem val_ema_without_module p c v w d s :
  origin_state env w p = Some (PyDict d) ->
  d !! "ema" = Some (PyDict s) ->
  s !! "module" = None ->
  let new := new_events w (exec (val env (Some p) c v) w) in
  result (val env (Some p) c v) w = Raise (Py.KeyError "module") /\
  state_dict_loads new = [] /\
  List.filter is_batch_event new = [] /\
  List.filter is_final_metric new = [].
Proof.
  intros Ho Hd Hs. cbn zeta.
  set (w1 := exec (val_prepare env c v) (set_grad_enabled false w)).
  assert (F : fs w1 = fs w).
  { destruct (val_prepare_run env c v (set_grad_enabled false w)) as (w1' & R1 & _ & F & _).
    subst w1. unfold exec. by rewrite R1. }
  rewrite <- (origin_state_frame env w w1 p F) in Ho.
  destruct (val_origin_run env p w1) as (r & w2 & R & E & _ & _ & _ & Hr).
  rewrite Ho in Hr. subst r.
  assert (RL : val_load_weights env (Some p) w1 = (Raise (Py.KeyError "module"), w2)).
  { unfold val_load_weights. rewrite (bind_ok _ _ _ _ _ R).
    mrun. rewrite Hd. cbn. by rewrite Hs. }
  destruct (val_load_raises (Some p) c v w _ _ RL) as (H1 & H2 & H3).
  split_and!; try done.
  destruct (val_new_events env (Some p) c v w)
    as (r & w2' & loads & tail & R' & _ & _ & E' & L & _ & -> & K & H).
  fold w1 in R', E'. rewrite RL in R'. injection R' as <- <-. destruct H as (_ & ->).
  rewrite E in E'. apply app_inv_head in E'. subst loads.
  unfold state_dict_loads. rewrite !omap_app.
  rewrite (omap_none_kinds _ _ _ (preparation_kinds env c v)) by by_kind.
  unfold origin_event. by destruct (Py.contains "http" p).
Qed.

(** X11.  When the loaded state is a dict with neither an [ema] nor a
    [model] entry (a bare weight mapping, for one), [val] raises
    [KeyError('model')] before any batch is processed. *)
Theorem val_state_without_weights p c v w d :
  origin_state env w p = Some (PyDict d) ->
  d !! "ema" = None ->
  d !! "model" = None ->
  let new := new_events w (exec (val env (Some p) c v) w) in
  result (val env (Some p) c v) w = Raise (Py.KeyError "model") /\
  List.filter is_batch_event new = [] /\
  List.filter is_final_metric new = [].
Proof.
  intros Ho Hd Hs.
  set (w1 := exec (val_prepare env c v) (set_grad_enabled false w)).
  assert (F : fs w1 = fs w).
  { destruct (val_prepare_run env c v (set_grad_enabled false w)) as (w1' & R1 & _ & F & _).
    subst w1. unfold exec. by rewrite R1. }
  rewrite <- (origin_state_frame env w w1 p F) in Ho.
  destruct (val_origin_run env p w1) as (r & w2 & R & E & _ & _ & _ & Hr).
  rewrite Ho in Hr. subst r.
  apply (val_load_raises (Some p) c v w _ w2). fold w1.
  unfold val_load_weights. rewrite (bind_ok _ _ _ _ _ R).
  mrun. rewrite Hd. cbn. by rewrite Hs.
Qed.

(** X12.  When the weight source is taken for a local file (no [http] in
    its name) and no such file exists, [val] raises [FileNotFoundError]
    for that name before any batch is processed. *)
Theorem val_missing_file p c v w :
  Py.contains "http" p = false ->
  fs w !! p = None ->
  let new := new_events w (exec (val env (Some p) c v) w) in
  result (val env (Some p) c v) w = Raise (Py.FileNotFoundError p) /\
  origins new = [(LocalFile, p)] /\
  List.filter is_batch_event new = [] /\
  List.filter is_final_metric new = [].
Proof.
  intros Hc Hf. cbn zeta.
  set (w1 := exec (val_prepare env c v) (set_grad_enabled false w)).
  assert (F : fs w1 = fs w).
  { destruct (val_prepare_run env c v (set_grad_enabled false w)) as (w1' & R1 & _ & F & _).
    subst w1. unfold exec. by rewrite R1. }
  assert (RL : exists w2,
    val_load_weights env (Some p) w1 = (Raise (Py.FileNotFoundError p), w2)).
  { unfold val_load_weights, torch_load, read_file. rewrite Hc. mrun. rewrite F, Hf.
    eexists. reflexivity. }
  destruct RL as (w2 & RL).
  destruct (val_load_raises (Some p) c v w _ _ RL) as (H1 & H2 & H3).
  split_and!; try done.
  destruct (val_new_events env (Some p) c v w)
    as (r & w2' & loads & tail & R' & _ & _ & E' & L & _ & -> & K & H).
  fold w1 in R', E'. rewrite RL in R'. injection R' as <- <-. destruct H as (_ & ->).
  destruct (val_load_run env p w1) as (r' & w2' & rest & R'' & E'' & S' & _).
  rewrite RL in R''. injection R'' as <- <-.
  rewrite E' in E''. apply app_inv_head in E''. subst loads.
  unfold origins. rewrite !omap_app.
  rewrite (omap_none_kinds _ _ _ (preparation_kinds env c v)) by by_kind.
  change (origin_event p :: rest) with ([origin_event p] ++ rest).
  rewrite omap_app, (omap_none _ _ _ S') by (by intros []).
  unfold origin_event. by rewrite Hc.
Qed.
End ValMore.

Lemma res_keys_spec ids :
  NoDup (res_keys ids) /\ (forall x, x ∈ res_keys ids <-> x ∈ ids).
Proof.
  assert (R : forall l : list Z, rev l = reverse l).
  { intros l. unfold reverse. apply rev_alt. }
  unfold res_keys. rewrite !R.
  split.
  - rewrite reverse_Permutation. apply NoDup_remove_dups.
  - intros x. by rewrite elem_of_reverse, elem_of_remove_dups, elem_of_reverse.
Qed.

Lemma filter_all (P : Event -> bool) l :
  forallb P l = true -> List.filter P l = l.
Proof.
  induction l as [|x l IH]; [done|]. cbn. intros H.
  apply andb_true_iff in H as [-> H]. by rewrite IH.
Qed.

(** ** The calls of the evaluation loop *)

Lemma loop_calls_ok (bs : list (nat * list Z)) :
  forallb (fun ids => negb (bool_decide (ids = []))) bs.*2 = true ->
  loop_calls bs =
    concat ((fun b : nat * list Z =>
      [EvForward b.1; EvPostprocess b.1; EvEvaluatorUpdate (res_keys b.2)]) <$> bs).
Proof.
  induction bs as [|[i [|x ids]] bs IH]; [done | done |].
  cbn [fmap list_fmap forallb fst snd]. rewrite bool_decide_eq_false_2 by done.
  intros H. cbn [loop_calls concat fmap list_fmap]. by rewrite IH.
Qed.

Lemma loop_calls_stopped (pre : list (nat * list Z)) i post :
  forallb (fun ids => negb (bool_decide (ids = []))) pre.*2 = true ->
  loop_calls (pre ++ (i, []) :: post) =
    concat ((fun b : nat * list Z =>
      [EvForward b.1; EvPostprocess b.1; EvEvaluatorUpdate (res_keys b.2)]) <$> pre)
    ++ [EvForward i].
Proof.
  induction pre as [|[j [|x ids]] pre IH]; [done | done |].
  cbn [fmap list_fmap forallb fst snd]. rewrite bool_decide_eq_false_2 by done.
  intros H. cbn [loop_calls concat fmap list_fmap app]. by rewrite IH.
Qed.

Lemma batch_calls_imap (l : list (list Z)) :
  concat ((fun b : nat * list Z =>
    [EvForward b.1; EvPostprocess b.1; EvEvaluatorUpdate (res_keys b.2)])
    <$> imap (fun i ids => (i, ids)) l) = batch_calls l.
Proof. unfold batch_calls. by rewrite fmap_imap. Qed.

Lemma batch_calls_kinds (l : list (list Z)) :
  forallb is_batch_event (batch_calls l) = true.
Proof.
  rewrite <- batch_calls_imap.
  induction (imap (fun i ids => (i, ids)) l) as [|b bs IH]; [done|]. apply IH.
Qed.

Lemma imap_pair_app (pre post : list (list Z)) (ids : list Z) :
  imap (fun i x => (i, x)) (pre ++ ids :: post) =
    imap (fun i x => (i, x)) pre
    ++ (length pre, ids) :: imap (fun i x => (length pre + S i, x)%nat) post.
Proof.
  rewrite imap_app. cbn [imap]. do 3 f_equal. lia.
Qed.

Section ValBatches.
Variable env : Env.

(** The calls of a run of [val] whose weight source loads. *)
Lemma val_loaded_events wp c v w :
  source_ok env w wp ->
  exists loads fin,
    new_events w (exec (val env wp c v) w) =
      preparation_events env c v ++ loads ++ loop_entry_events env
      ++ loop_calls (imap (fun i ids => (i, ids))
                       (batches (chosen_val_dataloader env v)))
      ++ fin /\
    forallb is_load_event loads = true /\
    if batches_ok (chosen_val_dataloader env v) then
      if shards_ok env (chosen_val_dataloader env v) then
        fin = finish_events /\ exists r, result (val env wp c v) w = Ok r
      else
        fin = sync_events /\ exists x, result (val env wp c v) w = Raise x
    else
      fin = [] /\
      result (val env wp c v) w =
        Raise (Py.RuntimeError "stack expects a non-empty TensorList").
Proof.
  intros Hs.
  destruct (val_new_events env wp c v w)
    as (r & w2 & loads & tail & R & F & _ & _ & L & _ & -> & _ & H).
  rewrite (val_load_source_ok env wp w _ r w2 Hs F R) in H.
  destruct H as (bevs & fin & -> & _ & -> & H).
  exists loads, fin. split_and!; try done.
  destruct (batches_ok _); [destruct (shards_ok _ _)|]; try done.
  destruct H as (-> & ->). eauto.
Qed.

(** X13.  A run of [val] whose weight source can be loaded (or that has
    none), over batches that each carry a target, goes through the
    batches of the validation data provider once, in order: for each
    batch one forward pass, one postprocessing and one update of the
    metric accumulator.  The update gets every image identifier of the
    batch exactly once: targets that share an identifier collapse into
    one entry of [res]. *)
Theorem val_batch_schedule wp c v w :
  source_ok env w wp ->
  batches_ok (chosen_val_dataloader env v) = true ->
  let new := new_events w (exec (val env wp c v) w) in
  List.filter is_batch_event new =
    batch_calls (batches (chosen_val_dataloader env v)) /\
  (forall ids, NoDup (res_keys ids) /\ forall x, x ∈ res_keys ids <-> x ∈ ids).
Proof.
  intros Hs Hb. cbn zeta. split; [|apply res_keys_spec].
  destruct (val_loaded_events wp c v w Hs) as (loads & fin & -> & L & H).
  rewrite Hb in H.
  assert (KF : kinds_in [KFinish; KPrint] fin = true).
  { apply finish_kinds. destruct (shards_ok _ _); destruct H as [-> _]; auto. }
  rewrite loop_calls_ok, batch_calls_imap by (by rewrite (imap_pair_snd id)).
  rewrite !List.filter_app.
  rewrite (filter_none _ _ _ (preparation_kinds env c v)); first last.
  { intros ev Hk. apply bool_decide_eq_true_1 in Hk. revert ev Hk. by_kind. }
  rewrite (filter_none _ _ _ L) by (by intros []).
  rewrite (filter_none _ _ _ KF); first last.
  { intros ev Hk. apply bool_decide_eq_true_1 in Hk. revert ev Hk. by_kind. }
  rewrite (filter_all _ _ (batch_calls_kinds _)).
  cbn. by rewrite app_nil_r.
Qed.

(** X14.  The stats mapping [val] returns has no entry beside
    [coco_eval_bbox] (present exactly when [bbox] is among the task types)
    and [coco_eval_masks] (present exactly when [segm] is): any other task
    type of the postprocessor contributes nothing.  This holds whenever
    [val] returns, and [val] returns when its weight source can be loaded
    (or there is none), every batch carries a target and no image
    identifier is held by two processes. *)
Theorem val_stats_keys wp c v w :
  (forall r, result (val env wp c v) w = Ok r ->
     dom r.1 =
       (if bool_decide ("bbox" ∈ iou_types env) then {["coco_eval_bbox"]} else ∅) ∪
       (if bool_decide ("segm" ∈ iou_types env) then {["coco_eval_masks"]} else ∅)) /\
  (source_ok env w wp ->
   batches_ok (chosen_val_dataloader env v) = true ->
   shards_ok env (chosen_val_dataloader env v) = true ->
   exists r, result (val env wp c v) w = Ok r).
Proof.
  destruct (val_new_events env wp c v w)
    as (r & w2 & loads & tail & R & F & _ & _ & _ & _ & _ & _ & H).
  split.
  - intros res Hres.
    destruct r as [u|x]; [|destruct H as (Hx & _); congruence].
    destruct H as (bevs & fin & _ & _ & _ & H).
    destruct (batches_ok _); [destruct (shards_ok _ _)|].
    + destruct H as (_ & Hr).
      assert (res.1 = val_stats env (iou_types env)
                (Some (populated env (chosen_val_dataloader env v)))) as ->
        by (rewrite Hr in Hres; by injection Hres as <-).
      unfold val_stats.
      destruct (bool_decide ("bbox" ∈ iou_types env)),
        (bool_decide ("segm" ∈ iou_types env));
        rewrite ?dom_insert_L, ?dom_empty_L; set_solver.
    + destruct H as (_ & x & Hr). congruence.
    + destruct H as (_ & Hr). congruence.
  - intros Hs Hb Hd.
    rewrite (val_load_source_ok env wp w _ r w2 Hs F R) in H.
    destruct H as (bevs & fin & _ & _ & _ & H). rewrite Hb, Hd in H.
    destruct H as (_ & ->). eauto.
Qed.

(** X15.  When the weight source of [val] can be loaded (or there is none)
    and a batch of the validation data provider carries no target, [val]
    raises [RuntimeError] at that batch (line 130 stacks an empty list):
    the batches before it have gone through the metric accumulator, of
    that batch only the forward pass has been made, no later batch is
    touched, and neither the synchronization nor the final metrics are
    reached. *)
Theorem val_empty_batch wp c v w pre post :
  source_ok env w wp ->
  batches (chosen_val_dataloader env v) = pre ++ [] :: post ->
  forallb (fun ids => negb (bool_decide (ids = []))) pre = true ->
  let new := new_events w (exec (val env wp c v) w) in
  result (val env wp c v) w =
    Raise (Py.RuntimeError "stack expects a non-empty TensorList") /\
  List.filter is_batch_event new = stopped_calls pre /\
  List.filter is_finish_event new = [].
Proof.
  intros Hs Hbs Hpre. cbn zeta.
  destruct (val_loaded_events wp c v w Hs) as (loads & fin & -> & L & H).
  assert (Hb : batches_ok (chosen_val_dataloader env v) = false).
  { unfold batches_ok. rewrite Hbs, forallb_app. cbn. apply andb_false_r. }
  rewrite Hb in H. destruct H as (-> & Hr). split; [done|].
  rewrite Hbs, imap_pair_app, loop_calls_stopped, batch_calls_imap
    by (by rewrite (imap_pair_snd id)).
  fold (stopped_calls pre).
  assert (KS : forallb is_batch_event (stopped_calls pre) = true).
  { unfold stopped_calls. by rewrite forallb_app, batch_calls_kinds. }
  pose proof (preparation_kinds env c v) as KP.
  rewrite !List.filter_app, app_nil_r.
  rewrite !(filter_none _ _ _ KP), !(filter_none _ _ _ L), (filter_all _ _ KS),
    (filter_none _ _ _ KS); try done; try (by intros []).
  all: intros ev Hk; apply bool_decide_eq_true_1 in Hk; revert ev Hk; by_kind.
Qed.

(** X16.  When the weight source of [val] can be loaded, every batch
    carries a target, and an image identifier is held by two processes,
    [val] does not return: it raises at the synchronization of the metric
    accumulator, after every batch has been processed and the logging
    counters have been synchronized, and computes no final metrics. *)
Theorem val_duplicate_ids wp c v w :
  source_ok env w wp ->
  batches_ok (chosen_val_dataloader env v) = true ->
  shards_ok env (chosen_val_dataloader env v) = false ->
  let new := new_events w (exec (val env wp c v) w) in
  (exists x, result (val env wp c v) w = Raise x) /\
  List.filter is_batch_event new =
    batch_calls (batches (chosen_val_dataloader env v)) /\
  List.filter is_finish_event new = [EvLoggerSync; EvEvaluatorSync] /\
  List.filter is_final_metric new = [].
Proof.
  intros Hs Hb Hd. cbn zeta.
  destruct (val_loaded_events wp c v w Hs) as (loads & fin & -> & L & H).
  rewrite Hb, Hd in H. destruct H as (-> & Hr). split; [done|].
  rewrite loop_calls_ok, batch_calls_imap by (by rewrite (imap_pair_snd id)).
  pose proof (batch_calls_kinds (batches (chosen_val_dataloader env v))) as KB.
  pose proof (preparation_kinds env c v) as KP.
  rewrite !List.filter_app.
  rewrite !(filter_none _ _ _ KP), !(filter_none _ _ _ L), (filter_all _ _ KB),
    !(filter_none _ _ _ KB); [by (cbn; rewrite app_nil_r) | ..]; try (by intros []).
  all: intros ev Hk; apply bool_decide_eq_true_1 in Hk; revert ev Hk; by_kind.
Qed.
End ValBatches.

(** ** Concrete runs, continued *)

Lemma fit_scheduler_steps_witness :
  let w' := exec (fit Demo.env (Some "out/2.pth") "out" None None None 5 false false)
              Demo.saved in
  lr_steps w' = Z.max 0 (5 - (2 + 1)) /\
  List.length (List.filter is_lr_step (new_events Demo.saved w')) = Z.to_nat (5 - (2 + 1)).
Proof.
  apply (fit_scheduler_steps Demo.env (Some "out/2.pth") "out" None None None 5
           false false Demo.saved 2).
  vm_compute. reflexivity.
Defined.

(** Resumed from [out/3.pth] with target 4, nothing is left to train. *)
Lemma fit_nothing_to_train_witness :
  let w' := exec (fit Demo.env (Some "out/3.pth") "out" None None None 4 false false)
              Demo.saved in
  result (fit Demo.env (Some "out/3.pth") "out" None None None 4 false false) Demo.saved
    = Ok tt /\
  epochs_trained (new_events Demo.saved w') = [] /\
  files_written (new_events Demo.saved w') = [] /\
  fs w' = fs Demo.saved /\
  lr_steps w' = 0.
Proof.
  apply (fit_nothing_to_train Demo.env (Some "out/3.pth") "out" None None None 4
           false false Demo.saved 3); [vm_compute; reflexivity | lia].
Defined.

Lemma fit_resume_failure_witness :
  let w' := exec (fit Demo.env (Some "out/absent.pth") "out" None None None 5 true true)
              Demo.saved in
  result (fit Demo.env (Some "out/absent.pth") "out" None None None 5 true true) Demo.saved
    = Raise (Py.FileNotFoundError "out/absent.pth") /\
  kinds_in [KConstruct; KLoad] (new_events Demo.saved w') = true /\
  fs w' = fs Demo.saved.
Proof.
  apply (fit_resume_failure Demo.env (Some "out/absent.pth") "out" None None None 5
           true true Demo.saved).
  vm_compute. reflexivity.
Defined.

Lemma fit_worker_writes_nothing_witness :
  let w' := exec (fit Edge.env_worker None "out" None None None 3 true true) Demo.fresh in
  fs w' = fs Demo.fresh /\ files_written (new_events Demo.fresh w') = [].
Proof.
  apply (fit_worker_writes_nothing Edge.env_worker None "out" None None None 3 true true
           Demo.fresh).
  reflexivity.
Defined.

Lemma fit_checkpoints_persist_witness :
  exists obj,
    fs (exec (fit Demo.env_dist None "out" None None None 4 true true) Demo.fresh)
      !! checkpoint_path "out" 2 = Some obj /\
    checkpoint_of 2 true obj /\ epoch_field obj = Some 2.
Proof.
  apply (fit_checkpoints_persist Demo.env_dist None "out" None None None 4 true true
           Demo.fresh 0); [reflexivity | reflexivity | lia].
Defined.

Lemma fit_leaves_model_placed_witness :
  let w' := exec (fit Demo.env_dist None "out" None None None 3 true true) Demo.fresh in
  device (model w') = Some (if cuda_available Demo.env_dist then Cuda else Cpu) /\
  device (criterion w') = Some (if cuda_available Demo.env_dist then Cuda else Cpu) /\
  (is_dist_available_and_initialized Demo.env_dist = true -> ddp (model w') = true).
Proof.
  apply (fit_leaves_model_placed Demo.env_dist None "out" None None None 3 true true
           Demo.fresh 0).
  reflexivity.
Defined.

(** A remote weight source that had to be downloaded is kept in the hub
    cache. *)
Lemma val_leaves_eval_mode_witness :
  fs (exec (val Demo.env (Some "https://example.org/rtdetr.pth") None None) Demo.fresh)
    !! "/root/.cache/torch/hub/checkpoints/rtdetr.pth" = Some Demo.net_served.
Proof.
  pose proof (val_leaves_eval_mode Demo.env (Some "https://example.org/rtdetr.pth")
                None None Demo.fresh) as (_ & _ & H).
  cbv beta iota zeta in H.
  change (Py.contains "http" "https://example.org/rtdetr.pth") with true in H.
  cbv beta iota in H.
  apply (H Demo.net_served). reflexivity.
Defined.

(** The [ema] entry is itself a weight mapping. *)
Lemma val_ema_without_module_witness :
  let new :=
    new_events Edge.world
      (exec (val Demo.env (Some "out/flat_ema.pth") None None) Edge.world) in
  result (val Demo.env (Some "out/flat_ema.pth") None None) Edge.world
    = Raise (Py.KeyError "module") /\
  state_dict_loads new = [] /\
  List.filter is_batch_event new = [] /\
  List.filter is_final_metric new = [].
Proof.
  apply (val_ema_without_module Demo.env "out/flat_ema.pth" None None Edge.world
           (<["ema" := PyTensors Edge.bare_weights]>
              (<["model" := PyTensors Edge.bare_weights]> ∅))
           (PyTensor <$> Edge.bare_weights)); reflexivity.
Defined.

(** The [ema] entry is a sub-state of another shape. *)
Example val_ema_without_module_demo :
  result (val Demo.env (Some "out/no_module.pth") None None) Edge.world
    = Raise (Py.KeyError "module").
Proof. vm_compute. reflexivity. Qed.

(** The file is a bare weight mapping. *)
Lemma val_state_without_weights_witness :
  let new :=
    new_events Edge.world
      (exec (val Demo.env (Some "out/bare.pth") None None) Edge.world) in
  result (val Demo.env (Some "out/bare.pth") None None) Edge.world
    = Raise (Py.KeyError "model") /\
  List.filter is_batch_event new = [] /\
  List.filter is_final_metric new = [].
Proof.
  apply (val_state_without_weights Demo.env "out/bare.pth" None None Edge.world
           (PyTensor <$> Edge.bare_weights)); reflexivity.
Defined.

(** The file is a dict that holds an epoch number only. *)
Example val_state_without_weights_demo :
  result (val Demo.env (Some "out/no_weights.pth") None None) Edge.world
    = Raise (Py.KeyError "model").
Proof. vm_compute. reflexivity. Qed.

Lemma val_missing_file_witness :
  let new :=
    new_events Edge.world
      (exec (val Demo.env (Some "out/absent.pth") None None) Edge.world) in
  result (val Demo.env (Some "out/absent.pth") None None) Edge.world
    = Raise (Py.FileNotFoundError "out/absent.pth") /\
  origins new = [(LocalFile, "out/absent.pth")] /\
  List.filter is_batch_event new = [] /\
  List.filter is_final_metric new = [].
Proof.
  apply (val_missing_file Demo.env "out/absent.pth" None None Edge.world); reflexivity.
Defined.

(** Two batches, the first with a repeated image identifier. *)
Lemma val_batch_schedule_witness :
  let new :=
    new_events Demo.fresh (exec (val Edge.env_worker None None None) Demo.fresh) in
  List.filter is_batch_event new =
    batch_calls (batches (chosen_val_dataloader Edge.env_worker None)) /\
  (forall ids, NoDup (res_keys ids) /\ forall x, x ∈ res_keys ids <-> x ∈ ids).
Proof.
  apply (val_batch_schedule Edge.env_worker None None None Demo.fresh);
    [exact I | reflexivity].
Defined.

Example val_batch_schedule_demo :
  batch_calls (batches (chosen_val_dataloader Edge.env_worker None)) =
  [EvForward 0; EvPostprocess 0; EvEvaluatorUpdate [10; 11];
   EvForward 1; EvPostprocess 1; EvEvaluatorUpdate [12]].
Proof. vm_compute. reflexivity. Qed.

(** Task types [bbox] and [keypoints]: only the first shows in the stats. *)
Lemma val_stats_keys_witness :
  exists r,
    result (val Edge.env_keypoints None None None) Demo.fresh = Ok r /\
    dom r.1 =
      (if bool_decide ("bbox" ∈ iou_types Edge.env_keypoints)
       then {["coco_eval_bbox"]} else ∅) ∪
      (if bool_decide ("segm" ∈ iou_types Edge.env_keypoints)
       then {["coco_eval_masks"]} else ∅).
Proof.
  destruct (val_stats_keys Edge.env_keypoints None None None Demo.fresh) as [Hk Hr].
  destruct Hr as [r Hr]; [exact I | reflexivity | vm_compute; reflexivity |].
  exists r. split; [exact Hr | apply (Hk r Hr)].
Defined.

(** Three batches, the second without targets. *)
Lemma val_empty_batch_witness :
  let new :=
    new_events Demo.fresh (exec (val Demo.env None None (Some Edge.gap)) Demo.fresh) in
  result (val Demo.env None None (Some Edge.gap)) Demo.fresh =
    Raise (Py.RuntimeError "stack expects a non-empty TensorList") /\
  List.filter is_batch_event new = stopped_calls [[10; 11]] /\
  List.filter is_finish_event new = [].
Proof.
  apply (val_empty_batch Demo.env None None (Some Edge.gap) Demo.fresh [[10; 11]] [[12]]);
    [exact I | reflexivity | reflexivity].
Defined.

(** Image 20 is held by this process and by the other one. *)
Lemma val_duplicate_ids_witness :
  let new :=
    new_events Demo.fresh
      (exec (val Demo.env_dist None None (Some Edge.overlap)) Demo.fresh) in
  (exists x, result (val Demo.env_dist None None (Some Edge.overlap)) Demo.fresh = Raise x) /\
  List.filter is_batch_event new =
    batch_calls (batches (chosen_val_dataloader Demo.env_dist (Some Edge.overlap))) /\
  List.filter is_finish_event new = [EvLoggerSync; EvEvaluatorSync] /\
  List.filter is_final_metric new = [].
Proof.
  apply (val_duplicate_ids Demo.env_dist None None (Some Edge.overlap) Demo.fresh);
    [exact I | reflexivity | vm_compute; reflexivity].
Defined.
